(** * Stability AI MCP server: request dispatch and asynchronous results

    A shallow embedding of the TypeScript sources of the server
    (config.ts, stability-client.ts and the tool handlers of index.ts) and
    the properties of its request builder, transport and job poller.

    Layout:
    - [Js]        the JavaScript and Node primitives the code calls
    - [Config]    config.ts: the endpoint tables and [loadConfig]
    - [Http]      requests, responses, the file system, and the monad of
                  asynchronous computations with their trace
    - [Options]   the option objects of the client methods
    - [Client]    stability-client.ts: [StabilityClient]
    - [Input]     the parsed inputs of the tools
    - [Server]    index.ts: the tool handlers
    - [Dispatch]  the client methods as one type of operations
    - [Spec], [Transport], [Fields], [Rejection], [Wire], [Outcome],
      [Tool], [Body], [Paths]: the vocabulary of the properties;
      [Examples]: concrete worlds and calls
    - the properties, one section per component. *)

From Stdlib Require Import String Ascii List ZArith Lia Bool DecimalString.
From Stdlib Require Decimal DecimalPos.
Import ListNotations.
Local Open Scope string_scope.
Local Open Scope Z_scope.

(* ===================================================================== *)
(** ** JavaScript and Node primitives *)
(* ===================================================================== *)

Module Js.

(** A thrown value: the [name] and [message] of a JavaScript error object. *)
Record Error := mkError { name : string; message : string }.

(** [new Error(msg)] *)
Definition new_Error (msg : string) : Error := mkError "Error" msg.

(** The numbers the code computes with: NaN, the infinities, and the
    doubles that are integers: [Num z] is the double nearest to the
    integer [z] (see [double]), and the operations give results that are
    rounded.  The numbers of the options of the client, which may have a
    fraction, are kept abstract. *)
Inductive number := NaN | Num (z : Z) | Infinity | NegInfinity.

(** The Number value of a mathematical integer: the nearest double, the
    even one of two that are as near, an infinity past the largest. *)
Definition round_double (z : Z) : number :=
  let a := Z.abs z in
  if a <? 2 ^ 53 then Num z
  else
    let e := Z.log2 a - 52 in
    let m := Z.shiftr a e in
    let r := a - Z.shiftl m e in
    let half := Z.shiftl 1 (e - 1) in
    let m' := if (half <? r) || ((r =? half) && Z.odd m) then m + 1 else m in
    let v := Z.shiftl m' e in
    if 2 ^ 1024 <=? v then (if z <? 0 then NegInfinity else Infinity)
    else Num (if z <? 0 then - v else v).

(** The value of a number, with the integer of [Num] one that a double
    holds. *)
Definition double (n : number) : number :=
  match n with
  | Num z => round_double z
  | _ => n
  end.

(** [a * b] *)
Definition mul (a b : number) : number :=
  match double a, double b with
  | NaN, _ | _, NaN => NaN
  | Num x, Num y => round_double (x * y)
  | Num x, Infinity | Infinity, Num x =>
      if x =? 0 then NaN else if x <? 0 then NegInfinity else Infinity
  | Num x, NegInfinity | NegInfinity, Num x =>
      if x =? 0 then NaN else if x <? 0 then Infinity else NegInfinity
  | Infinity, Infinity | NegInfinity, NegInfinity => Infinity
  | Infinity, NegInfinity | NegInfinity, Infinity => NegInfinity
  end.

(** [a <= b]: false as soon as one side is NaN. *)
Definition le (a b : number) : bool :=
  match double a, double b with
  | NaN, _ | _, NaN => false
  | Num x, Num y => x <=? y
  | NegInfinity, _ => true
  | _, Infinity => true
  | Infinity, _ => false
  | _, NegInfinity => false
  end.

(** Decimal rendering of an integer, as in a template literal. *)
Definition Z_toString (z : Z) : string := NilZero.string_of_int (Z.to_int z).

(** *** Number.prototype.toString on the integers

    For a double [v] of 2^53 or more the digits are the fewest that
    denote a number which rounds to [v]: [shortest] tries 1, 2, ... digits
    and takes, among the two multiples of the power of ten around [v], one
    that rounds to [v], the nearer one (the one with the even last digit on
    a tie). *)

(** Whether the integer [c] rounds to the double [v = m * 2^e]. *)
Definition rounds_to (v m e c : Z) : bool :=
  let below := if m =? 2 ^ 52 then Z.shiftl 1 (e - 1) else Z.shiftl 1 e in
  let above := Z.shiftl 1 e in
  if Z.even m
  then (2 * v - below <=? 2 * c) && (2 * c <=? 2 * v + above)
  else (2 * v - below <? 2 * c) && (2 * c <? 2 * v + above).

Fixpoint shortest (fuel : nat) (v m e digits k : Z) : Z :=
  match fuel with
  | O => v
  | S fuel' =>
      let p := 10 ^ (digits - k) in
      let lower := v / p * p in
      let upper := lower + p in
      let ok_lower := rounds_to v m e lower in
      let ok_upper := rounds_to v m e upper in
      if ok_lower && ok_upper then
        if v - lower <? upper - v then lower
        else if upper - v <? v - lower then upper
        else if Z.even (lower / p) then lower else upper
      else if ok_lower then lower
      else if ok_upper then upper
      else shortest fuel' v m e digits (k + 1)
  end.

(** The digits of a string without the zeros at its end. *)
Fixpoint strip_zeros (s : string) : string :=
  match s with
  | EmptyString => EmptyString
  | String c rest =>
      match strip_zeros rest with
      | EmptyString => if Ascii.eqb c "0" then EmptyString else String c EmptyString
      | rest' => String c rest'
      end
  end.

(** The string of a positive integer that a double holds. *)
Definition positive_toString (v : Z) : string :=
  if v <? 2 ^ 53 then Z_toString v
  else
    let e := Z.log2 v - 52 in
    let m := Z.shiftr v e in
    let digits := Z.of_nat (String.length (Z_toString v)) in
    let c := shortest (Z.to_nat digits) v m e digits 1 in
    let all := Z_toString c in
    let n := Z.of_nat (String.length all) in
    if n <=? 21 then all
    else
      match strip_zeros all with
      | String d EmptyString =>
          String d EmptyString ++ "e+" ++ Z_toString (n - 1)
      | String d rest =>
          String d EmptyString ++ "." ++ rest ++ "e+" ++ Z_toString (n - 1)
      | EmptyString => all
      end.

(** [String(n)], [n.toString()] and a number in a template literal. *)
Definition number_toString (n : number) : string :=
  match double n with
  | NaN => "NaN"
  | Infinity => "Infinity"
  | NegInfinity => "-Infinity"
  | Num v =>
      if v <? 0 then "-" ++ positive_toString (- v) else positive_toString v
  end.

(** Truthiness of a string: every string but the empty one. *)
Definition truthy (s : string) : bool := negb (s =? "")%string.

(** [o || d] for an optional string [o]. *)
Definition or_else (o : option string) (d : string) : string :=
  match o with
  | Some s => if truthy s then s else d
  | None => d
  end.

(** The test [if (o)] on an optional string: the string when it is
    defined and not empty. *)
Definition if_truthy (o : option string) : option string :=
  match o with
  | Some s => if truthy s then Some s else None
  | None => None
  end.

(** [s.startsWith(p)] *)
Definition startsWith (s p : string) : bool := String.prefix p s.

(** [s.includes(needle)] *)
Fixpoint includes (s needle : string) : bool :=
  if String.prefix needle s then true
  else match s with
       | EmptyString => false
       | String _ rest => includes rest needle
       end.

Definition lower_char (c : ascii) : ascii :=
  let n := nat_of_ascii c in
  if (Nat.leb 65 n && Nat.leb n 90)%bool then ascii_of_nat (n + 32) else c.

(** [s.toLowerCase()] on the ASCII letters; other bytes are kept. *)
Fixpoint toLowerCase (s : string) : string :=
  match s with
  | EmptyString => EmptyString
  | String c rest => String (lower_char c) (toLowerCase rest)
  end.

(** *** parseInt *)

Definition is_space (c : ascii) : bool :=
  let n := nat_of_ascii c in
  (Nat.eqb n 32 || (Nat.leb 9 n && Nat.leb n 13))%bool.

Fixpoint trim_start (s : string) : string :=
  match s with
  | String c rest => if is_space c then trim_start rest else s
  | EmptyString => s
  end.

Definition digit_value (c : ascii) : option Z :=
  let n := Z.of_nat (nat_of_ascii c) in
  if (48 <=? n) && (n <=? 57) then Some (n - 48)
  else if (97 <=? n) && (n <=? 122) then Some (n - 87)
  else if (65 <=? n) && (n <=? 90) then Some (n - 55)
  else None.

(** Value of the longest prefix of [s] made of digits below [radix];
    [acc] is the value read so far, [None] while no digit was read. *)
Fixpoint digits (radix : Z) (s : string) (acc : option Z) : option Z :=
  match s with
  | EmptyString => acc
  | String c rest =>
      match digit_value c with
      | Some d =>
          if d <? radix
          then digits radix rest
                 (Some (match acc with Some a => a * radix + d | None => d end))
          else acc
      | None => acc
      end
  end.

Definition strip_hex (s : string) : option string :=
  match s with
  | String "0" (String "x" rest) => Some rest
  | String "0" (String "X" rest) => Some rest
  | _ => None
  end.

(** [parseInt(s, radix)]; [radix = 0] stands for an omitted radix.  The
    value of the digits is rounded to a double, as Node does it for the
    radices 10 and 16 that the code uses. *)
Definition parseInt (s : string) (radix : Z) : number :=
  let s1 := trim_start s in
  let '(neg, s2) :=
    match s1 with
    | String "-" rest => (true, rest)
    | String "+" rest => (false, rest)
    | _ => (false, s1)
    end in
  if (radix =? 0) || (radix =? 16) then
    match strip_hex s2 with
    | Some rest =>
        match digits 16 rest None with
        | Some v => round_double (if neg then - v else v)
        | None => NaN
        end
    | None =>
        match digits (if radix =? 0 then 10 else 16) s2 None with
        | Some v => round_double (if neg then - v else v)
        | None => NaN
        end
    end
  else if (radix <? 2) || (36 <? radix) then NaN
  else
    match digits radix s2 None with
    | Some v => round_double (if neg then - v else v)
    | None => NaN
    end.

(** *** AbortSignal.timeout

    Node checks the delay before it makes the signal: it has to be an
    integer from 0 to 4294967295, and a [RangeError] is thrown otherwise,
    with the message of Node's [ERR_OUT_OF_RANGE]. *)

(** The double quote character, as a string. *)
Definition dquote : string := String (ascii_of_nat 34) EmptyString.

(** Node's [addNumericalSeparator] on the characters after the sign:
    an underscore before each group of three from the end, as long as more
    than three characters are left. *)
Fixpoint separate (fuel : nat) (u : string) : string :=
  match fuel with
  | O => u
  | S fuel' =>
      let n := String.length u in
      if Nat.leb 4 n
      then separate fuel' (substring 0 (n - 3) u)
             ++ "_" ++ substring (n - 3) 3 u
      else u
  end.

Definition addNumericalSeparator (val : string) : string :=
  match val with
  | String "-" u => "-" ++ separate (String.length u) u
  | _ => separate (String.length val) val
  end.

(** Whether a number is an integer from 0 to 4294967295. *)
Definition is_uint32 (n : number) : bool :=
  match double n with
  | Num z => (0 <=? z) && (z <=? 4294967295)
  | _ => false
  end.

(** The error of a delay that is out of range. *)
Definition out_of_range (delay : number) : Error :=
  mkError "RangeError"
    ("The value of " ++ dquote ++ "delay" ++ dquote ++ " is out of range."
       ++ match double delay with
          | Num z =>
              " It must be >= 0 && <= 4294967295. Received "
                ++ (if 2 ^ 32 <? Z.abs z
                    then addNumericalSeparator (number_toString delay)
                    else number_toString delay)
          | _ => " It must be an integer. Received " ++ number_toString delay
          end).

(** [AbortSignal.timeout(delay)]: the signal, which is identified with
    its delay, or the error thrown. *)
Definition AbortSignal_timeout (delay : number) : Error + number :=
  if is_uint32 delay then inr delay else inl (out_of_range delay).

(** *** path.extname (POSIX flavour of Node's path module)

    The scan runs from the last character to the first; the state is the
    one of Node's loop: [startDot], [end], [matchedSlash], [preDotState]
    (indices as [Z], [-1] for unset). *)

Record ext_state := mkExt {
  startDot : Z; startPart : Z; end_ : Z; matchedSlash : bool; preDotState : Z
}.

(** One iteration of the loop at index [i] on character [c]; [None] is the
    [break]. *)
Definition extname_step (st : ext_state) (i : Z) (c : ascii)
  : option ext_state :=
  if Ascii.eqb c "/" then
    if negb (matchedSlash st)
    then None
    else Some st
  else
    let st1 :=
      if end_ st =? -1
      then mkExt (startDot st) (startPart st) (i + 1) false (preDotState st)
      else st in
    if Ascii.eqb c "." then
      if startDot st1 =? -1
      then Some (mkExt i (startPart st1) (end_ st1) (matchedSlash st1)
                       (preDotState st1))
      else if negb (preDotState st1 =? 1)
      then Some (mkExt (startDot st1) (startPart st1) (end_ st1)
                       (matchedSlash st1) 1)
      else Some st1
    else if negb (startDot st1 =? -1)
    then Some (mkExt (startDot st1) (startPart st1) (end_ st1)
                     (matchedSlash st1) (-1))
    else Some st1.

(** The loop over the characters in reverse order, [i] being the index of
    the head of [rev_chars]. *)
Fixpoint extname_loop (rev_chars : list ascii) (i : Z) (st : ext_state)
  : ext_state :=
  match rev_chars with
  | [] => st
  | c :: rest =>
      match extname_step st i c with
      | None => mkExt (startDot st) (i + 1) (end_ st) (matchedSlash st)
                      (preDotState st)
      | Some st' => extname_loop rest (i - 1) st'
      end
  end.

Definition extname (p : string) : string :=
  let n := Z.of_nat (String.length p) in
  let st := extname_loop (rev (list_ascii_of_string p)) (n - 1)
              (mkExt (-1) 0 (-1) true 0) in
  if (startDot st =? -1) || (end_ st =? -1) || (preDotState st =? 0)
     || ((preDotState st =? 1) && (startDot st =? end_ st - 1)
         && (startDot st =? startPart st + 1))
  then ""
  else substring (Z.to_nat (startDot st))
                 (Z.to_nat (end_ st - startDot st)) p.

End Js.

(* ===================================================================== *)
(** ** config.ts *)
(* ===================================================================== *)

Module Config.

Record Config := mkConfig {
  apiKey : string;
  timeout : Js.number;
  outputDir : string;
  output3dDir : string
}.

Definition API_BASE : string := "https://api.stability.ai".

Inductive GenerationModel :=
  ultra | core | sd3_5_large | sd3_5_large_turbo | sd3_5_medium.

(** The key of a model in [GENERATION_MODELS]. *)
Definition model_key (m : GenerationModel) : string :=
  match m with
  | ultra => "ultra"
  | core => "core"
  | sd3_5_large => "sd3.5-large"
  | sd3_5_large_turbo => "sd3.5-large-turbo"
  | sd3_5_medium => "sd3.5-medium"
  end.

Definition GENERATION_MODELS (m : GenerationModel) : string :=
  match m with
  | ultra => "/v2beta/stable-image/generate/ultra"
  | core => "/v2beta/stable-image/generate/core"
  | sd3_5_large => "/v2beta/stable-image/generate/sd3"
  | sd3_5_large_turbo => "/v2beta/stable-image/generate/sd3"
  | sd3_5_medium => "/v2beta/stable-image/generate/sd3"
  end.

Inductive EditOperation :=
  erase | inpaint | outpaint | search_and_replace | search_and_recolor
| remove_background | replace_background_and_relight.

Definition EDIT_ENDPOINTS (e : EditOperation) : string :=
  match e with
  | erase => "/v2beta/stable-image/edit/erase"
  | inpaint => "/v2beta/stable-image/edit/inpaint"
  | outpaint => "/v2beta/stable-image/edit/outpaint"
  | search_and_replace => "/v2beta/stable-image/edit/search-and-replace"
  | search_and_recolor => "/v2beta/stable-image/edit/search-and-recolor"
  | remove_background => "/v2beta/stable-image/edit/remove-background"
  | replace_background_and_relight =>
      "/v2beta/stable-image/edit/replace-background-and-relight"
  end.

Inductive UpscaleMode := fast | conservative | creative.

Definition UPSCALE_ENDPOINTS (m : UpscaleMode) : string :=
  match m with
  | fast => "/v2beta/stable-image/upscale/fast"
  | conservative => "/v2beta/stable-image/upscale/conservative"
  | creative => "/v2beta/stable-image/upscale/creative"
  end.

Inductive ControlOperation := sketch | structure | style | style_transfer.

Definition CONTROL_ENDPOINTS (c : ControlOperation) : string :=
  match c with
  | sketch => "/v2beta/stable-image/control/sketch"
  | structure => "/v2beta/stable-image/control/structure"
  | style => "/v2beta/stable-image/control/style"
  | style_transfer => "/v2beta/stable-image/control/style-transfer"
  end.

Inductive ThreeDModel := stable_fast_3d | spar3d.

Definition THREE_D_ENDPOINTS (m : ThreeDModel) : string :=
  match m with
  | stable_fast_3d => "/v2beta/3d/stable-fast-3d"
  | spar3d => "/v2beta/3d/stable-point-aware-3d"
  end.

Inductive OutputFormat := png | jpeg | webp.

Definition format_name (f : OutputFormat) : string :=
  match f with
  | png => "png"
  | jpeg => "jpeg"
  | webp => "webp"
  end.

(** [process.env]: the value of a variable, when it is set. *)
Definition Env := string -> option string.

(** [loadConfig()]: the configuration, or the error it throws. *)
Definition loadConfig (env : Env) : Js.Error + Config :=
  match Js.if_truthy (env "STABILITY_API_KEY") with
  | None =>
      inl (Js.new_Error
        "Stability AI API key not configured. Please set the STABILITY_API_KEY environment variable.")
  | Some apiKey =>
      let outputDir :=
        Js.or_else (env "STABILITY_OUTPUT_DIR") "./generated-images" in
      let output3dDir :=
        Js.or_else (env "STABILITY_3D_OUTPUT_DIR") "./generated-3d" in
      let timeoutStr := env "STABILITY_TIMEOUT" in
      let timeout :=
        match Js.if_truthy timeoutStr with
        | Some str => Js.parseInt str 10
        | None => Js.Num 60000
        end in
      if Js.le timeout (Js.Num 0) then
        inl (Js.new_Error "STABILITY_TIMEOUT must be a positive number")
      else
        inr (mkConfig apiKey timeout outputDir output3dDir)
  end.

End Config.

(* ===================================================================== *)
(** ** HTTP, the file system and the effect monad *)
(* ===================================================================== *)

Module Http.

(** A [Blob]: its bytes and its content type. *)
Record Blob := mkBlob { blob_bytes : string; blob_type : string }.

(** One part of a multipart body: a text value or a file. *)
Inductive Part := Text (value : string) | File (blob : Blob).

(** [FormData]: the named parts in the order of the [append] calls. *)
Definition FormData := list (string * Part).

(** [form.append(name, part)] *)
Definition append (form : FormData) (name : string) (part : Part)
  : FormData := (form ++ [(name, part)])%list.

(** The argument of one [fetch] call.  [deadline] is the delay of the
    signal that [AbortSignal.timeout] made for it. *)
Record Request := mkRequest {
  url : string;
  method : string;
  authorization : string;
  accept : option string;
  body : option FormData;
  deadline : Js.number
}.

(** The properties the client reads from a parsed JSON body. *)
Record JsonBody (num : Type) := mkJson {
  id : option string;
  credits : option num
}.
Arguments mkJson {num}.
Arguments id {num}.
Arguments credits {num}.

(** A response: status, headers (lower-case names), the body as bytes and
    what [response.json()] gives for it (an error when it is not JSON). *)
Record Response (num : Type) := mkResponse {
  status : Z;
  headers : list (string * string);
  content : string;
  json : Js.Error + JsonBody num
}.
Arguments mkResponse {num}.
Arguments status {num}.
Arguments headers {num}.
Arguments content {num}.
Arguments json {num}.

(** [response.ok] *)
Definition ok {num} (r : Response num) : bool :=
  (200 <=? status r) && (status r <=? 299).

(** [response.headers.get(name)]: header names are case-insensitive. *)
Fixpoint headers_get (h : list (string * string)) (name : string)
  : option string :=
  match h with
  | [] => None
  | (k, v) :: rest =>
      if (Js.toLowerCase k =? Js.toLowerCase name)%string then Some v
      else headers_get rest name
  end.

(** What a [fetch] settles to: a response, or a rejection (network failure,
    or the [TimeoutError] of the abort signal). *)
Inductive FetchOutcome (num : Type) :=
| Responded (r : Response num)
| Rejected (e : Js.Error).
Arguments Responded {num}.
Arguments Rejected {num}.

(** What an invocation does to the outside, in order. *)
Inductive Event :=
| Sleep (ms : Z)
| Fetch (req : Request)
| Mkdir (dir : string)
| WriteFile (path : string) (data : string).

Definition is_fetch (e : Event) : bool :=
  match e with Fetch _ => true | _ => false end.

Definition is_sleep (e : Event) : bool :=
  match e with Sleep _ => true | _ => false end.

(** Number of requests issued in a trace. *)
Definition fetches (t : list Event) : nat := length (filter is_fetch t).

(** Number of delays in a trace. *)
Definition sleeps (t : list Event) : nat := length (filter is_sleep t).

(** Total time spent in delays, in milliseconds. *)
Fixpoint slept (t : list Event) : Z :=
  match t with
  | [] => 0
  | Sleep ms :: rest => ms + slept rest
  | _ :: rest => slept rest
  end.

(** The outside of one invocation: the file system as it is when the
    request is built, [path.resolve] (which depends on the working
    directory) and the upstream service, which answers the [k]-th request
    of the invocation. *)
Record World (num : Type) := mkWorld {
  resolve : string -> string;
  existsSync : string -> bool;
  readFileSync : string -> Js.Error + string;
  server : nat -> Request -> FetchOutcome num
}.
Arguments mkWorld {num}.
Arguments resolve {num}.
Arguments existsSync {num}.
Arguments readFileSync {num}.
Arguments server {num}.

(** An asynchronous computation: from the trace so far to a value or a
    thrown error, and the trace extended by what it did. *)
Definition M (A : Type) : Type := list Event -> (Js.Error + A) * list Event.

Definition ret {A} (a : A) : M A := fun t => (inr a, t).

Definition throw {A} (e : Js.Error) : M A := fun t => (inl e, t).

Definition bind {A B} (c : M A) (k : A -> M B) : M B :=
  fun t =>
    match c t with
    | (inr a, t') => k a t'
    | (inl e, t') => (inl e, t')
    end.

(** A synchronous call that returns or throws. *)
Definition lift {A} (r : Js.Error + A) : M A := fun t => (r, t).

Definition emit (e : Event) : M unit := fun t => (inr tt, (t ++ [e])%list).

(** [await fetch(...)]: the request is recorded, then the service
    answers. *)
Definition fetch {num} (w : World num) (req : Request) : M (Response num) :=
  fun t =>
    match server w (fetches t) req with
    | Responded r => (inr r, (t ++ [Fetch req])%list)
    | Rejected e => (inl e, (t ++ [Fetch req])%list)
    end.

(** [await new Promise(resolve => setTimeout(resolve, ms))] *)
Definition sleep (ms : Z) : M unit := emit (Sleep ms).

(** [try { c } catch (error) { h error }] *)
Definition try_catch {A} (c : M A) (h : Js.Error -> M A) : M A :=
  fun t =>
    match c t with
    | (inr a, t') => (inr a, t')
    | (inl e, t') => h e t'
    end.

(** Running an invocation from the empty trace. *)
Definition run {A} (c : M A) : (Js.Error + A) * list Event := c [].

End Http.

Declare Scope async_scope.
Delimit Scope async_scope with async.
Notation "x <- c ;; k" := (Http.bind c (fun x => k))
  (at level 61, c at next level, right associativity) : async_scope.
Notation "c ;;; k" := (Http.bind c (fun _ => k))
  (at level 61, right associativity) : async_scope.

(* ===================================================================== *)
(** ** stability-client.ts: the option objects *)
(* ===================================================================== *)

(** One module per method of [StabilityClient], holding the type of its
    [options] argument.  An optional property is an [option]; [num] is the
    type of JavaScript numbers. *)
Module Options.

Module GenerateImage.
Section T.
Context {num : Type}.
Record t := mk {
  prompt : string;
  model : option Config.GenerationModel;
  negativePrompt : option string;
  image : option string;
  strength : option num;
  seed : option num;
  aspectRatio : option string;
  outputFormat : option Config.OutputFormat;
  stylePreset : option string
}.
End T.
Arguments t : clear implicits.
End GenerateImage.

Module EraseObject.
Record t := mk {
  image : string;
  mask : option string;
  outputFormat : option Config.OutputFormat
}.
End EraseObject.

Module Inpaint.
Section T.
Context {num : Type}.
Record t := mk {
  image : string;
  prompt : string;
  mask : option string;
  negativePrompt : option string;
  seed : option num;
  outputFormat : option Config.OutputFormat
}.
End T.
Arguments t : clear implicits.
End Inpaint.

Module Outpaint.
Section T.
Context {num : Type}.
Record t := mk {
  image : string;
  prompt : option string;
  left : option num;
  right : option num;
  top : option num;
  bottom : option num;
  creativity : option num;
  outputFormat : option Config.OutputFormat
}.
End T.
Arguments t : clear implicits.
End Outpaint.

Module SearchAndReplace.
Section T.
Context {num : Type}.
Record t := mk {
  image : string;
  prompt : string;
  searchPrompt : string;
  negativePrompt : option string;
  seed : option num;
  outputFormat : option Config.OutputFormat
}.
End T.
Arguments t : clear implicits.
End SearchAndReplace.

Module SearchAndRecolor.
Section T.
Context {num : Type}.
Record t := mk {
  image : string;
  prompt : string;
  selectPrompt : string;
  negativePrompt : option string;
  seed : option num;
  outputFormat : option Config.OutputFormat
}.
End T.
Arguments t : clear implicits.
End SearchAndRecolor.

Module RemoveBackground.
Record t := mk {
  image : string;
  outputFormat : option Config.OutputFormat
}.
End RemoveBackground.

Module ReplaceBackground.
Section T.
Context {num : Type}.
Record t := mk {
  image : string;
  backgroundPrompt : string;
  foregroundPrompt : option string;
  negativePrompt : option string;
  lightSourceDirection : option string;
  lightSourceStrength : option num;
  outputFormat : option Config.OutputFormat
}.
End T.
Arguments t : clear implicits.
End ReplaceBackground.

Module UpscaleImage.
Section T.
Context {num : Type}.
Record t := mk {
  image : string;
  mode : option Config.UpscaleMode;
  prompt : option string;
  negativePrompt : option string;
  seed : option num;
  creativity : option num;
  outputFormat : option Config.OutputFormat
}.
End T.
Arguments t : clear implicits.
End UpscaleImage.

(** [controlSketch] and [controlStructure] take the same options. *)
Module ControlSketch.
Section T.
Context {num : Type}.
Record t := mk {
  image : string;
  prompt : string;
  negativePrompt : option string;
  seed : option num;
  controlStrength : option num;
  outputFormat : option Config.OutputFormat
}.
End T.
Arguments t : clear implicits.
End ControlSketch.

Module ControlStyle.
Section T.
Context {num : Type}.
Record t := mk {
  image : string;
  prompt : string;
  negativePrompt : option string;
  seed : option num;
  fidelity : option num;
  outputFormat : option Config.OutputFormat
}.
End T.
Arguments t : clear implicits.
End ControlStyle.

Module StyleTransfer.
Section T.
Context {num : Type}.
Record t := mk {
  initImage : string;
  styleImage : string;
  prompt : option string;
  negativePrompt : option string;
  seed : option num;
  outputFormat : option Config.OutputFormat
}.
End T.
Arguments t : clear implicits.
End StyleTransfer.

Module Generate3D.
Section T.
Context {num : Type}.
Record t := mk {
  image : string;
  model : option Config.ThreeDModel;
  textureResolution : option num;
  foregroundRatio : option num;
  remesh : option string;
  guidanceScale : option num
}.
End T.
Arguments t : clear implicits.
End Generate3D.

End Options.

(* ===================================================================== *)
(** ** stability-client.ts: [StabilityClient] *)
(* ===================================================================== *)

Module Client.
Import Http.
Local Open Scope async_scope.

Record ImageResult := mkImage {
  data : string;
  format : string;
  seed : option Js.number;
  finishReason : option string
}.

Record ThreeDResult := mkThreeD {
  data3d : string;
  format3d : string
}.

Record BalanceResult (num : Type) := mkBalance {
  credits : option num
}.
Arguments mkBalance {num}.
Arguments credits {num}.

(** The private fields of the class. *)
Record StabilityClient := new {
  apiKey : string;
  timeout : Js.number
}.

Definition createStabilityClient (config : Config.Config) : StabilityClient :=
  new (Config.apiKey config) (Config.timeout config).

(** The table of [getMimeType]. *)
Definition mimeTypes : list (string * string) :=
  [ (".png", "image/png");
    (".jpg", "image/jpeg");
    (".jpeg", "image/jpeg");
    (".webp", "image/webp");
    (".gif", "image/gif");
    (".bmp", "image/bmp") ].

(** [table[key]] on an object literal used as a table. *)
Fixpoint lookup (table : list (string * string)) (key : string)
  : option string :=
  match table with
  | [] => None
  | (k, v) :: rest => if (k =? key)%string then Some v else lookup rest key
  end.

Definition getMimeType (filePath : string) : string :=
  let ext := Js.toLowerCase (Js.extname filePath) in
  Js.or_else (lookup mimeTypes ext) "image/png".

(** [options.outputFormat || 'png'] *)
Definition format_or_png (o : option Config.OutputFormat) : string :=
  match o with
  | Some f => Config.format_name f
  | None => "png"
  end.

(** [if (value) form.append(name, value)] *)
Definition append_truthy (form : FormData) (name : string)
  (value : option string) : FormData :=
  match Js.if_truthy value with
  | Some v => append form name (Text v)
  | None => form
  end.

(** The decoding of a successful binary response, written out in both
    [postImage] and [postImageAsync]. *)
Definition decode {num} (response : Response num) : ImageResult :=
  let contentType :=
    Js.or_else (headers_get (headers response) "content-type") "image/png" in
  let format :=
    if Js.includes contentType "jpeg" then "jpeg"
    else if Js.includes contentType "webp" then "webp"
    else "png" in
  let seed :=
    match Js.if_truthy (headers_get (headers response) "x-seed") with
    | Some s => Some (Js.parseInt s 0)
    | None => None
    end in
  let finishReason :=
    Js.if_truthy (headers_get (headers response) "finish-reason") in
  mkImage (content response) format seed finishReason.

Definition maxAttempts : Z := 60.
Definition pollInterval : Z := 5000.

Section Methods.

Context {num : Type}.

(** [Number.prototype.toString] *)
Variable toString : num -> string.

Variable w : World num.
Variable this : StabilityClient.

(** [if (value !== undefined) form.append(name, value.toString())] *)
Definition append_defined (form : FormData) (name : string)
  (value : option num) : FormData :=
  match value with
  | Some v => append form name (Text (toString v))
  | None => form
  end.

Definition fileBlob (filePath : string) : M Blob :=
  let absolutePath := resolve w filePath in
  if negb (existsSync w absolutePath) then
    throw (Js.new_Error ("File not found: " ++ absolutePath))
  else
    buffer <- lift (readFileSync w absolutePath) ;;
    let mimeType := getMimeType absolutePath in
    ret (mkBlob buffer mimeType).

Definition postRaw (endpoint : string) (form : FormData)
  : M (Response num) :=
  signal <- lift (Js.AbortSignal_timeout
                    (Js.mul (timeout this) (Js.Num 3))) ;;
  fetch w (mkRequest (Config.API_BASE ++ endpoint) "POST"
             ("Bearer " ++ apiKey this) (Some "application/json")
             (Some form) signal).

Definition postImage (endpoint : string) (form : FormData)
  : M ImageResult :=
  signal <- lift (Js.AbortSignal_timeout
                    (Js.mul (timeout this) (Js.Num 3))) ;;
  response <- fetch w (mkRequest (Config.API_BASE ++ endpoint) "POST"
                         ("Bearer " ++ apiKey this) (Some "image/*")
                         (Some form) signal) ;;
  if negb (ok response) then
    let errorText := content response in
    throw (Js.new_Error ("Stability AI error (HTTP "
                           ++ Js.Z_toString (status response) ++ "): "
                           ++ errorText))
  else
    ret (decode response).

(** The polling loop of [postImageAsync]: [remaining] is
    [maxAttempts - attempt]; with no attempt left the loop is over and the
    statement after it throws. *)
Fixpoint poll (generationId : string) (remaining : nat) : M ImageResult :=
  match remaining with
  | O =>
      throw (Js.new_Error ("Async generation timed out after "
                             ++ Js.Z_toString
                                  (maxAttempts * pollInterval / 1000)
                             ++ " seconds"))
  | S remaining' =>
      sleep pollInterval ;;;
      signal <- lift (Js.AbortSignal_timeout (timeout this)) ;;
      pollResponse <- fetch w (mkRequest
                                 (Config.API_BASE ++ "/v2beta/results/"
                                    ++ generationId)
                                 "GET" ("Bearer " ++ apiKey this)
                                 (Some "image/*") None signal) ;;
      if status pollResponse =? 202 then
        poll generationId remaining'
      else if negb (ok pollResponse) then
        let errorText := content pollResponse in
        throw (Js.new_Error ("Polling failed (HTTP "
                               ++ Js.Z_toString (status pollResponse)
                               ++ "): " ++ errorText))
      else
        ret (decode pollResponse)
  end.

Definition postImageAsync (endpoint : string) (form : FormData)
  : M ImageResult :=
  signal <- lift (Js.AbortSignal_timeout (timeout this)) ;;
  submitResponse <- fetch w (mkRequest (Config.API_BASE ++ endpoint) "POST"
                               ("Bearer " ++ apiKey this)
                               (Some "application/json") (Some form)
                               signal) ;;
  if negb (ok submitResponse) then
    let errorText := content submitResponse in
    throw (Js.new_Error ("Stability AI error (HTTP "
                           ++ Js.Z_toString (status submitResponse) ++ "): "
                           ++ errorText))
  else
    submitData <- lift (json submitResponse) ;;
    match Js.if_truthy (id submitData) with
    | None =>
        throw (Js.new_Error "No generation ID returned from async endpoint")
    | Some generationId => poll generationId (Z.to_nat maxAttempts)
    end.

(** [handleError]: the fields of the caught value it reads are its name
    and its message. *)
Definition handleError (error : Js.Error) : Js.Error :=
  if (Js.name error =? "TimeoutError")%string
     || Js.includes (Js.message error) "timeout" then
    Js.new_Error "Stability AI API request timed out. Please try again."
  else if Js.includes (Js.message error) "401"
          || Js.includes (Js.message error) "403" then
    Js.new_Error
      "Invalid Stability AI API key. Please check your STABILITY_API_KEY environment variable."
  else if Js.includes (Js.message error) "429" then
    Js.new_Error
      "Stability AI API rate limit exceeded. Please wait a moment and try again."
  else if Js.includes (Js.message error) "402" then
    Js.new_Error
      "Insufficient credits. Please add credits at platform.stability.ai."
  else
    Js.new_Error ("Stability AI error: "
                    ++ (if Js.truthy (Js.message error)
                        then Js.message error
                        else Js.name error)).

Definition checkBalance : M (BalanceResult num) :=
  signal <- lift (Js.AbortSignal_timeout (timeout this)) ;;
  response <- fetch w (mkRequest (Config.API_BASE ++ "/v1/user/balance")
                         "GET" ("Bearer " ++ apiKey this) None None
                         signal) ;;
  if negb (ok response) then
    let errorText := content response in
    throw (Js.new_Error ("Failed to check balance (HTTP "
                           ++ Js.Z_toString (status response) ++ "): "
                           ++ errorText))
  else
    data <- lift (json response) ;;
    ret (mkBalance (Http.credits data)).

(** *** Image generation *)

(** The body [generateImage] builds, up to its call of [postImage]. *)
Definition generateImage_form (options : Options.GenerateImage.t num)
  : M FormData :=
  let model :=
    match Options.GenerateImage.model options with
    | Some m => m
    | None => Config.core
    end in
  let form : FormData := [] in
  let form := append form "prompt"
                (Text (Options.GenerateImage.prompt options)) in
  let form := append_truthy form "negative_prompt"
                (Options.GenerateImage.negativePrompt options) in
  let form := append_defined form "seed"
                (Options.GenerateImage.seed options) in
  let form := append_truthy form "aspect_ratio"
                (Options.GenerateImage.aspectRatio options) in
  let form := append form "output_format"
                (Text (format_or_png
                         (Options.GenerateImage.outputFormat options))) in
  form <-
    (if Js.startsWith (Config.model_key model) "sd3.5" then
       let form := append form "model" (Text (Config.model_key model)) in
       match Js.if_truthy (Options.GenerateImage.image options) with
       | Some image =>
           let form := append form "mode" (Text "image-to-image") in
           blob <- fileBlob image ;;
           let form := append form "image" (File blob) in
           ret (append_defined form "strength"
                  (Options.GenerateImage.strength options))
       | None =>
           ret (append form "mode" (Text "text-to-image"))
       end
     else
       match model, Js.if_truthy (Options.GenerateImage.image options) with
       | Config.ultra, Some image =>
           blob <- fileBlob image ;;
           let form := append form "image" (File blob) in
           ret (append_defined form "strength"
                  (Options.GenerateImage.strength options))
       | _, _ => ret form
       end) ;;
  match Js.if_truthy (Options.GenerateImage.stylePreset options) with
  | Some stylePreset =>
      if match model with Config.core => true | _ => false end
         || Js.startsWith (Config.model_key model) "sd3.5"
      then ret (append form "style_preset" (Text stylePreset))
      else ret form
  | None => ret form
  end.

Definition generateImage (options : Options.GenerateImage.t num)
  : M ImageResult :=
  let model :=
    match Options.GenerateImage.model options with
    | Some m => m
    | None => Config.core
    end in
  let endpoint := Config.GENERATION_MODELS model in
  form <- generateImage_form options ;;
  postImage endpoint form.

(** *** Image editing *)

Definition eraseObject_form (options : Options.EraseObject.t) : M FormData :=
  let form : FormData := [] in
  blob <- fileBlob (Options.EraseObject.image options) ;;
  let form := append form "image" (File blob) in
  form <-
    match Js.if_truthy (Options.EraseObject.mask options) with
    | Some mask => blob <- fileBlob mask ;; ret (append form "mask" (File blob))
    | None => ret form
    end ;;
  ret (append form "output_format"
         (Text (format_or_png (Options.EraseObject.outputFormat options)))).

Definition eraseObject (options : Options.EraseObject.t) : M ImageResult :=
  form <- eraseObject_form options ;;
  postImage (Config.EDIT_ENDPOINTS Config.erase) form.

Definition inpaint_form (options : Options.Inpaint.t num) : M FormData :=
  let form : FormData := [] in
  blob <- fileBlob (Options.Inpaint.image options) ;;
  let form := append form "image" (File blob) in
  let form := append form "prompt" (Text (Options.Inpaint.prompt options)) in
  form <-
    match Js.if_truthy (Options.Inpaint.mask options) with
    | Some mask => blob <- fileBlob mask ;; ret (append form "mask" (File blob))
    | None => ret form
    end ;;
  let form := append_truthy form "negative_prompt"
                (Options.Inpaint.negativePrompt options) in
  let form := append_defined form "seed" (Options.Inpaint.seed options) in
  ret (append form "output_format"
         (Text (format_or_png (Options.Inpaint.outputFormat options)))).

Definition inpaint (options : Options.Inpaint.t num) : M ImageResult :=
  form <- inpaint_form options ;;
  postImage (Config.EDIT_ENDPOINTS Config.inpaint) form.

Definition outpaint_form (options : Options.Outpaint.t num) : M FormData :=
  let form : FormData := [] in
  blob <- fileBlob (Options.Outpaint.image options) ;;
  let form := append form "image" (File blob) in
  let form := append_truthy form "prompt"
                (Options.Outpaint.prompt options) in
  let form := append_defined form "left" (Options.Outpaint.left options) in
  let form := append_defined form "right" (Options.Outpaint.right options) in
  let form := append_defined form "top" (Options.Outpaint.top options) in
  let form := append_defined form "bottom"
                (Options.Outpaint.bottom options) in
  let form := append_defined form "creativity"
                (Options.Outpaint.creativity options) in
  ret (append form "output_format"
         (Text (format_or_png (Options.Outpaint.outputFormat options)))).

Definition outpaint (options : Options.Outpaint.t num) : M ImageResult :=
  form <- outpaint_form options ;;
  postImage (Config.EDIT_ENDPOINTS Config.outpaint) form.

Definition searchAndReplace_form (options : Options.SearchAndReplace.t num)
  : M FormData :=
  let form : FormData := [] in
  blob <- fileBlob (Options.SearchAndReplace.image options) ;;
  let form := append form "image" (File blob) in
  let form := append form "prompt"
                (Text (Options.SearchAndReplace.prompt options)) in
  let form := append form "search_prompt"
                (Text (Options.SearchAndReplace.searchPrompt options)) in
  let form := append_truthy form "negative_prompt"
                (Options.SearchAndReplace.negativePrompt options) in
  let form := append_defined form "seed"
                (Options.SearchAndReplace.seed options) in
  ret (append form "output_format"
         (Text (format_or_png
                  (Options.SearchAndReplace.outputFormat options)))).

Definition searchAndReplace (options : Options.SearchAndReplace.t num)
  : M ImageResult :=
  form <- searchAndReplace_form options ;;
  postImage (Config.EDIT_ENDPOINTS Config.search_and_replace) form.

Definition searchAndRecolor_form (options : Options.SearchAndRecolor.t num)
  : M FormData :=
  let form : FormData := [] in
  blob <- fileBlob (Options.SearchAndRecolor.image options) ;;
  let form := append form "image" (File blob) in
  let form := append form "prompt"
                (Text (Options.SearchAndRecolor.prompt options)) in
  let form := append form "select_prompt"
                (Text (Options.SearchAndRecolor.selectPrompt options)) in
  let form := append_truthy form "negative_prompt"
                (Options.SearchAndRecolor.negativePrompt options) in
  let form := append_defined form "seed"
                (Options.SearchAndRecolor.seed options) in
  ret (append form "output_format"
         (Text (format_or_png
                  (Options.SearchAndRecolor.outputFormat options)))).

Definition searchAndRecolor (options : Options.SearchAndRecolor.t num)
  : M ImageResult :=
  form <- searchAndRecolor_form options ;;
  postImage (Config.EDIT_ENDPOINTS Config.search_and_recolor) form.

Definition removeBackground_form (options : Options.RemoveBackground.t)
  : M FormData :=
  let form : FormData := [] in
  blob <- fileBlob (Options.RemoveBackground.image options) ;;
  let form := append form "image" (File blob) in
  ret (append form "output_format"
         (Text (format_or_png
                  (Options.RemoveBackground.outputFormat options)))).

Definition removeBackground (options : Options.RemoveBackground.t)
  : M ImageResult :=
  form <- removeBackground_form options ;;
  postImage (Config.EDIT_ENDPOINTS Config.remove_background) form.

Definition replaceBackground_form (options : Options.ReplaceBackground.t num)
  : M FormData :=
  let form : FormData := [] in
  blob <- fileBlob (Options.ReplaceBackground.image options) ;;
  let form := append form "image" (File blob) in
  let form := append form "background_prompt"
                (Text (Options.ReplaceBackground.backgroundPrompt options)) in
  let form := append_truthy form "foreground_prompt"
                (Options.ReplaceBackground.foregroundPrompt options) in
  let form := append_truthy form "negative_prompt"
                (Options.ReplaceBackground.negativePrompt options) in
  let form := append_truthy form "light_source_direction"
                (Options.ReplaceBackground.lightSourceDirection options) in
  let form := append_defined form "light_source_strength"
                (Options.ReplaceBackground.lightSourceStrength options) in
  ret (append form "output_format"
         (Text (format_or_png
                  (Options.ReplaceBackground.outputFormat options)))).

Definition replaceBackground (options : Options.ReplaceBackground.t num)
  : M ImageResult :=
  form <- replaceBackground_form options ;;
  postImage (Config.EDIT_ENDPOINTS Config.replace_background_and_relight)
    form.

(** *** Image upscale *)

Definition upscale_mode (options : Options.UpscaleImage.t num)
  : Config.UpscaleMode :=
  match Options.UpscaleImage.mode options with
  | Some m => m
  | None => Config.fast
  end.

Definition upscaleImage_form (options : Options.UpscaleImage.t num)
  : M FormData :=
  let mode := upscale_mode options in
  let form : FormData := [] in
  blob <- fileBlob (Options.UpscaleImage.image options) ;;
  let form := append form "image" (File blob) in
  let form := append form "output_format"
                (Text (format_or_png
                         (Options.UpscaleImage.outputFormat options))) in
  match mode with
  | Config.fast => ret form
  | _ =>
      let form := append_truthy form "prompt"
                    (Options.UpscaleImage.prompt options) in
      let form := append_truthy form "negative_prompt"
                    (Options.UpscaleImage.negativePrompt options) in
      let form := append_defined form "seed"
                    (Options.UpscaleImage.seed options) in
      ret (append_defined form "creativity"
             (Options.UpscaleImage.creativity options))
  end.

Definition upscaleImage (options : Options.UpscaleImage.t num)
  : M ImageResult :=
  let mode := upscale_mode options in
  let endpoint := Config.UPSCALE_ENDPOINTS mode in
  form <- upscaleImage_form options ;;
  match mode with
  | Config.creative => postImageAsync endpoint form
  | _ => postImage endpoint form
  end.

(** *** ControlNet *)

Definition controlSketch_form (options : Options.ControlSketch.t num)
  : M FormData :=
  let form : FormData := [] in
  blob <- fileBlob (Options.ControlSketch.image options) ;;
  let form := append form "image" (File blob) in
  let form := append form "prompt"
                (Text (Options.ControlSketch.prompt options)) in
  let form := append_truthy form "negative_prompt"
                (Options.ControlSketch.negativePrompt options) in
  let form := append_defined form "seed"
                (Options.ControlSketch.seed options) in
  let form := append_defined form "control_strength"
                (Options.ControlSketch.controlStrength options) in
  ret (append form "output_format"
         (Text (format_or_png (Options.ControlSketch.outputFormat options)))).

Definition controlSketch (options : Options.ControlSketch.t num)
  : M ImageResult :=
  form <- controlSketch_form options ;;
  postImage (Config.CONTROL_ENDPOINTS Config.sketch) form.

(** [controlStructure] builds the body of [controlSketch] and posts it to
    its own endpoint. *)
Definition controlStructure (options : Options.ControlSketch.t num)
  : M ImageResult :=
  form <- controlSketch_form options ;;
  postImage (Config.CONTROL_ENDPOINTS Config.structure) form.

Definition controlStyle_form (options : Options.ControlStyle.t num)
  : M FormData :=
  let form : FormData := [] in
  blob <- fileBlob (Options.ControlStyle.image options) ;;
  let form := append form "image" (File blob) in
  let form := append form "prompt"
                (Text (Options.ControlStyle.prompt options)) in
  let form := append_truthy form "negative_prompt"
                (Options.ControlStyle.negativePrompt options) in
  let form := append_defined form "seed"
                (Options.ControlStyle.seed options) in
  let form := append_defined form "fidelity"
                (Options.ControlStyle.fidelity options) in
  ret (append form "output_format"
         (Text (format_or_png (Options.ControlStyle.outputFormat options)))).

Definition controlStyle (options : Options.ControlStyle.t num)
  : M ImageResult :=
  form <- controlStyle_form options ;;
  postImage (Config.CONTROL_ENDPOINTS Config.style) form.

Definition styleTransfer_form (options : Options.StyleTransfer.t num)
  : M FormData :=
  let form : FormData := [] in
  blob <- fileBlob (Options.StyleTransfer.initImage options) ;;
  let form := append form "init_image" (File blob) in
  blob <- fileBlob (Options.StyleTransfer.styleImage options) ;;
  let form := append form "style_image" (File blob) in
  let form := append_truthy form "prompt"
                (Options.StyleTransfer.prompt options) in
  let form := append_truthy form "negative_prompt"
                (Options.StyleTransfer.negativePrompt options) in
  let form := append_defined form "seed"
                (Options.StyleTransfer.seed options) in
  ret (append form "output_format"
         (Text (format_or_png (Options.StyleTransfer.outputFormat options)))).

Definition styleTransfer (options : Options.StyleTransfer.t num)
  : M ImageResult :=
  form <- styleTransfer_form options ;;
  postImage (Config.CONTROL_ENDPOINTS Config.style_transfer) form.

(** *** 3D generation *)

Definition threeD_model (options : Options.Generate3D.t num)
  : Config.ThreeDModel :=
  match Options.Generate3D.model options with
  | Some m => m
  | None => Config.stable_fast_3d
  end.

Definition generate3D_form (options : Options.Generate3D.t num)
  : M FormData :=
  let model := threeD_model options in
  let form : FormData := [] in
  blob <- fileBlob (Options.Generate3D.image options) ;;
  let form := append form "image" (File blob) in
  let form := append_defined form "texture_resolution"
                (Options.Generate3D.textureResolution options) in
  match model with
  | Config.stable_fast_3d =>
      let form := append_defined form "foreground_ratio"
                    (Options.Generate3D.foregroundRatio options) in
      ret (append_truthy form "remesh" (Options.Generate3D.remesh options))
  | Config.spar3d =>
      ret (append_defined form "guidance_scale"
             (Options.Generate3D.guidanceScale options))
  end.

Definition generate3D (options : Options.Generate3D.t num)
  : M ThreeDResult :=
  let model := threeD_model options in
  let endpoint := Config.THREE_D_ENDPOINTS model in
  form <- generate3D_form options ;;
  response <- postRaw endpoint form ;;
  if negb (ok response) then
    let errorText := content response in
    throw (Js.new_Error ("3D generation failed (HTTP "
                           ++ Js.Z_toString (status response) ++ "): "
                           ++ errorText))
  else
    ret (mkThreeD (content response) "glb").

End Methods.

End Client.

(* ===================================================================== *)
(** ** index.ts: the tool handlers *)
(* ===================================================================== *)

(** The handlers are embedded from [const input = schema.parse(args)] on:
    their argument is the parsed input, one record type per tool. *)
Module Input.

Module GenerateImage.
Section T.
Context {num : Type}.
Record t := mk {
  prompt : string;
  model : option Config.GenerationModel;
  negative_prompt : option string;
  image_path : option string;
  strength : option num;
  aspect_ratio : option string;
  style_preset : option string;
  output_format : option Config.OutputFormat;
  seed : option num;
  save_path : option string
}.
End T.
Arguments t : clear implicits.
End GenerateImage.

Module EraseObject.
Record t := mk {
  image_path : string;
  mask_path : option string;
  output_format : option Config.OutputFormat;
  save_path : option string
}.
End EraseObject.

Module Inpaint.
Section T.
Context {num : Type}.
Record t := mk {
  image_path : string;
  prompt : string;
  mask_path : option string;
  negative_prompt : option string;
  seed : option num;
  output_format : option Config.OutputFormat;
  save_path : option string
}.
End T.
Arguments t : clear implicits.
End Inpaint.

Module Outpaint.
Section T.
Context {num : Type}.
Record t := mk {
  image_path : string;
  prompt : option string;
  left : option num;
  right : option num;
  top : option num;
  bottom : option num;
  creativity : option num;
  output_format : option Config.OutputFormat;
  save_path : option string
}.
End T.
Arguments t : clear implicits.
End Outpaint.

Module SearchAndReplace.
Section T.
Context {num : Type}.
Record t := mk {
  image_path : string;
  prompt : string;
  search_prompt : string;
  negative_prompt : option string;
  seed : option num;
  output_format : option Config.OutputFormat;
  save_path : option string
}.
End T.
Arguments t : clear implicits.
End SearchAndReplace.

Module SearchAndRecolor.
Section T.
Context {num : Type}.
Record t := mk {
  image_path : string;
  prompt : string;
  select_prompt : string;
  negative_prompt : option string;
  seed : option num;
  output_format : option Config.OutputFormat;
  save_path : option string
}.
End T.
Arguments t : clear implicits.
End SearchAndRecolor.

(** The schema of [remove_background] allows png and webp only. *)
Module RemoveBackground.
Record t := mk {
  image_path : string;
  output_format : option Config.OutputFormat;
  save_path : option string
}.
End RemoveBackground.

Module ReplaceBackground.
Section T.
Context {num : Type}.
Record t := mk {
  image_path : string;
  background_prompt : string;
  foreground_prompt : option string;
  negative_prompt : option string;
  light_source_direction : option string;
  light_source_strength : option num;
  output_format : option Config.OutputFormat;
  save_path : option string
}.
End T.
Arguments t : clear implicits.
End ReplaceBackground.

Module UpscaleImage.
Section T.
Context {num : Type}.
Record t := mk {
  image_path : string;
  mode : option Config.UpscaleMode;
  prompt : option string;
  negative_prompt : option string;
  creativity : option num;
  seed : option num;
  output_format : option Config.OutputFormat;
  save_path : option string
}.
End T.
Arguments t : clear implicits.
End UpscaleImage.

(** The input of [control_sketch] and of [control_structure]. *)
Module ControlSketch.
Section T.
Context {num : Type}.
Record t := mk {
  image_path : string;
  prompt : string;
  negative_prompt : option string;
  control_strength : option num;
  seed : option num;
  output_format : option Config.OutputFormat;
  save_path : option string
}.
End T.
Arguments t : clear implicits.
End ControlSketch.

Module ControlStyle.
Section T.
Context {num : Type}.
Record t := mk {
  image_path : string;
  prompt : string;
  negative_prompt : option string;
  fidelity : option num;
  seed : option num;
  output_format : option Config.OutputFormat;
  save_path : option string
}.
End T.
Arguments t : clear implicits.
End ControlStyle.

Module StyleTransfer.
Section T.
Context {num : Type}.
Record t := mk {
  init_image_path : string;
  style_image_path : string;
  prompt : option string;
  negative_prompt : option string;
  seed : option num;
  output_format : option Config.OutputFormat;
  save_path : option string
}.
End T.
Arguments t : clear implicits.
End StyleTransfer.

Module Generate3D.
Section T.
Context {num : Type}.
Record t := mk {
  image_path : string;
  model : option Config.ThreeDModel;
  texture_resolution : option num;
  foreground_ratio : option num;
  remesh : option string;
  guidance_scale : option num;
  save_path : option string
}.
End T.
Arguments t : clear implicits.
End Generate3D.

End Input.

Module Server.
Import Http.
Local Open Scope async_scope.

(** One item of a tool result.  [ImageContent] holds the bytes that the
    code encodes in base 64. *)
Inductive Content :=
| TextContent (text : string)
| ImageContent (bytes : string) (mimeType : string).

Record ToolResult := mkResult {
  content : list Content;
  isError : bool
}.

(** A tool call: the name of the request, with the parsed arguments. *)
Inductive ToolCall (num : Type) :=
| generate_image (input : Input.GenerateImage.t num)
| erase_object (input : Input.EraseObject.t)
| inpaint (input : Input.Inpaint.t num)
| outpaint (input : Input.Outpaint.t num)
| search_and_replace (input : Input.SearchAndReplace.t num)
| search_and_recolor (input : Input.SearchAndRecolor.t num)
| remove_background (input : Input.RemoveBackground.t)
| replace_background (input : Input.ReplaceBackground.t num)
| upscale_image (input : Input.UpscaleImage.t num)
| control_sketch (input : Input.ControlSketch.t num)
| control_structure (input : Input.ControlSketch.t num)
| control_style (input : Input.ControlStyle.t num)
| style_transfer (input : Input.StyleTransfer.t num)
| generate_3d (input : Input.Generate3D.t num)
| check_balance
| unknown_tool (name : string).
Arguments generate_image {num}.
Arguments erase_object {num}.
Arguments inpaint {num}.
Arguments outpaint {num}.
Arguments search_and_replace {num}.
Arguments search_and_recolor {num}.
Arguments remove_background {num}.
Arguments replace_background {num}.
Arguments upscale_image {num}.
Arguments control_sketch {num}.
Arguments control_structure {num}.
Arguments control_style {num}.
Arguments style_transfer {num}.
Arguments generate_3d {num}.
Arguments check_balance {num}.
Arguments unknown_tool {num}.

Definition newline : string := String (ascii_of_nat 10) EmptyString.

(** The double quote character, as a string. *)
Definition quote : string := String (ascii_of_nat 34) EmptyString.

(** [s.replace(/[:.]/g, '-')] *)
Fixpoint replace_colon_dot (s : string) : string :=
  match s with
  | EmptyString => EmptyString
  | String c rest =>
      String (if Ascii.eqb c ":" || Ascii.eqb c "." then "-"%char else c)
             (replace_colon_dot rest)
  end.

(** [(length / 1024).toFixed(1)] for the length of a buffer: the quotient
    rounded to the nearest tenth, the larger one on a tie. *)
Definition kilobytes (length : Z) : string :=
  let tenths := (10 * length + 512) / 1024 in
  Js.Z_toString (tenths / 10) ++ "." ++ Js.Z_toString (tenths mod 10).

Definition mode_key (m : Config.UpscaleMode) : string :=
  match m with
  | Config.fast => "fast"
  | Config.conservative => "conservative"
  | Config.creative => "creative"
  end.

Definition threeD_key (m : Config.ThreeDModel) : string :=
  match m with
  | Config.stable_fast_3d => "stable-fast-3d"
  | Config.spar3d => "spar3d"
  end.

Section Handlers.

Context {num : Type}.

(** [Number.prototype.toString] and [Number.prototype.toFixed]. *)
Variable toString : num -> string.
Variable toFixed : num -> Z -> string.

Variable w : World num.
Variable config : Config.Config.

(** [path.dirname] and [new Date().toISOString()] at the time of the
    call. *)
Variable dirname : string -> string.
Variable now : string.

Definition client : Client.StabilityClient :=
  Client.createStabilityClient config.

Definition saveFile (data : string) (savePath : string) : M string :=
  let dir := dirname savePath in
  (if negb (existsSync w dir) then emit (Mkdir dir) else ret tt) ;;;
  emit (WriteFile savePath data) ;;;
  ret (resolve w savePath).

(** [path.resolve(outputDir, filename)] with a relative [filename]. *)
Definition getAutoSavePath (outputDir prefix ext : string) : string :=
  let timestamp := replace_colon_dot now in
  let filename := prefix ++ "-" ++ timestamp ++ "." ++ ext in
  resolve w (outputDir ++ "/" ++ filename).

(** The early return of a handler whose file is missing. *)
Definition not_found (text : string) : M ToolResult :=
  ret (mkResult [TextContent text] true).

(** The end of each image handler: the format and the path of the file,
    the save, and the result with the image and the text [text savedTo]. *)
Definition respond (result : Client.ImageResult)
  (output_format : option Config.OutputFormat) (save_path : option string)
  (prefix : string) (text : string -> string) : M ToolResult :=
  let format := Client.format_or_png output_format in
  let savePath :=
    match Js.if_truthy save_path with
    | Some p => p
    | None => getAutoSavePath (Config.outputDir config) prefix format
    end in
  savedTo <- saveFile (Client.data result) savePath ;;
  ret (mkResult
         [ImageContent (Client.data result) ("image/" ++ format);
          TextContent (text savedTo)]
         false).

(** The [case] of each tool. *)
Definition handle_generate_image (input : Input.GenerateImage.t num)
  : M ToolResult :=
  if match Js.if_truthy (Input.GenerateImage.image_path input) with
     | Some image_path => negb (existsSync w (resolve w image_path))
     | None => false
     end
  then
    not_found ("Source image not found: "
                 ++ match Input.GenerateImage.image_path input with
                    | Some image_path => image_path
                    | None => "undefined"
                    end)
  else
    result <- Client.generateImage toString w client
                (Options.GenerateImage.mk
                   (Input.GenerateImage.prompt input)
                   (Input.GenerateImage.model input)
                   (Input.GenerateImage.negative_prompt input)
                   (Input.GenerateImage.image_path input)
                   (Input.GenerateImage.strength input)
                   (Input.GenerateImage.seed input)
                   (Input.GenerateImage.aspect_ratio input)
                   (Input.GenerateImage.output_format input)
                   (Input.GenerateImage.style_preset input)) ;;
    respond result (Input.GenerateImage.output_format input)
      (Input.GenerateImage.save_path input) "generated"
      (fun savedTo =>
         let text := "Image generated and saved to: " ++ savedTo in
         let text :=
           match Client.seed result with
           | Some seed =>
               text ++ newline ++ "Seed: " ++ Js.number_toString seed
           | None => text
           end in
         text ++ newline ++ "Model: "
           ++ match Input.GenerateImage.model input with
              | Some m => Config.model_key m
              | None => "core"
              end).

Definition handle_erase_object (input : Input.EraseObject.t)
  : M ToolResult :=
  if negb (existsSync w (resolve w (Input.EraseObject.image_path input)))
  then
    not_found ("Image not found: " ++ Input.EraseObject.image_path input)
  else
    result <- Client.eraseObject w client
                (Options.EraseObject.mk
                   (Input.EraseObject.image_path input)
                   (Input.EraseObject.mask_path input)
                   (Input.EraseObject.output_format input)) ;;
    respond result (Input.EraseObject.output_format input)
      (Input.EraseObject.save_path input) "erased"
      (fun savedTo => "Object erased. Saved to: " ++ savedTo).

(** The call of [client.inpaint] passes no output format. *)
Definition handle_inpaint (input : Input.Inpaint.t num) : M ToolResult :=
  if negb (existsSync w (resolve w (Input.Inpaint.image_path input)))
  then
    not_found ("Image not found: " ++ Input.Inpaint.image_path input)
  else
    result <- Client.inpaint toString w client
                (Options.Inpaint.mk
                   (Input.Inpaint.image_path input)
                   (Input.Inpaint.prompt input)
                   (Input.Inpaint.mask_path input)
                   (Input.Inpaint.negative_prompt input)
                   (Input.Inpaint.seed input)
                   None) ;;
    respond result (Input.Inpaint.output_format input)
      (Input.Inpaint.save_path input) "inpainted"
      (fun savedTo => "Inpainted image saved to: " ++ savedTo).

Definition handle_outpaint (input : Input.Outpaint.t num) : M ToolResult :=
  if negb (existsSync w (resolve w (Input.Outpaint.image_path input)))
  then
    not_found ("Image not found: " ++ Input.Outpaint.image_path input)
  else
    result <- Client.outpaint toString w client
                (Options.Outpaint.mk
                   (Input.Outpaint.image_path input)
                   (Input.Outpaint.prompt input)
                   (Input.Outpaint.left input)
                   (Input.Outpaint.right input)
                   (Input.Outpaint.top input)
                   (Input.Outpaint.bottom input)
                   (Input.Outpaint.creativity input)
                   (Input.Outpaint.output_format input)) ;;
    respond result (Input.Outpaint.output_format input)
      (Input.Outpaint.save_path input) "outpainted"
      (fun savedTo => "Outpainted image saved to: " ++ savedTo).

Definition handle_search_and_replace (input : Input.SearchAndReplace.t num)
  : M ToolResult :=
  if negb (existsSync w
             (resolve w (Input.SearchAndReplace.image_path input)))
  then
    not_found ("Image not found: "
                 ++ Input.SearchAndReplace.image_path input)
  else
    result <- Client.searchAndReplace toString w client
                (Options.SearchAndReplace.mk
                   (Input.SearchAndReplace.image_path input)
                   (Input.SearchAndReplace.prompt input)
                   (Input.SearchAndReplace.search_prompt input)
                   (Input.SearchAndReplace.negative_prompt input)
                   (Input.SearchAndReplace.seed input)
                   (Input.SearchAndReplace.output_format input)) ;;
    respond result (Input.SearchAndReplace.output_format input)
      (Input.SearchAndReplace.save_path input) "replaced"
      (fun savedTo =>
         "Replaced " ++ quote ++ Input.SearchAndReplace.search_prompt input
           ++ quote ++ " with " ++ quote
           ++ Input.SearchAndReplace.prompt input ++ quote
           ++ ". Saved to: " ++ savedTo).

Definition handle_search_and_recolor (input : Input.SearchAndRecolor.t num)
  : M ToolResult :=
  if negb (existsSync w
             (resolve w (Input.SearchAndRecolor.image_path input)))
  then
    not_found ("Image not found: "
                 ++ Input.SearchAndRecolor.image_path input)
  else
    result <- Client.searchAndRecolor toString w client
                (Options.SearchAndRecolor.mk
                   (Input.SearchAndRecolor.image_path input)
                   (Input.SearchAndRecolor.prompt input)
                   (Input.SearchAndRecolor.select_prompt input)
                   (Input.SearchAndRecolor.negative_prompt input)
                   (Input.SearchAndRecolor.seed input)
                   (Input.SearchAndRecolor.output_format input)) ;;
    respond result (Input.SearchAndRecolor.output_format input)
      (Input.SearchAndRecolor.save_path input) "recolored"
      (fun savedTo =>
         "Recolored " ++ quote ++ Input.SearchAndRecolor.select_prompt input
           ++ quote ++ " to " ++ quote
           ++ Input.SearchAndRecolor.prompt input ++ quote
           ++ ". Saved to: " ++ savedTo).

Definition handle_remove_background (input : Input.RemoveBackground.t)
  : M ToolResult :=
  if negb (existsSync w
             (resolve w (Input.RemoveBackground.image_path input)))
  then
    not_found ("Image not found: "
                 ++ Input.RemoveBackground.image_path input)
  else
    result <- Client.removeBackground w client
                (Options.RemoveBackground.mk
                   (Input.RemoveBackground.image_path input)
                   (Input.RemoveBackground.output_format input)) ;;
    respond result (Input.RemoveBackground.output_format input)
      (Input.RemoveBackground.save_path input) "nobg"
      (fun savedTo => "Background removed. Saved to: " ++ savedTo).

Definition handle_replace_background
  (input : Input.ReplaceBackground.t num) : M ToolResult :=
  if negb (existsSync w
             (resolve w (Input.ReplaceBackground.image_path input)))
  then
    not_found ("Image not found: "
                 ++ Input.ReplaceBackground.image_path input)
  else
    result <- Client.replaceBackground toString w client
                (Options.ReplaceBackground.mk
                   (Input.ReplaceBackground.image_path input)
                   (Input.ReplaceBackground.background_prompt input)
                   (Input.ReplaceBackground.foreground_prompt input)
                   (Input.ReplaceBackground.negative_prompt input)
                   (Input.ReplaceBackground.light_source_direction input)
                   (Input.ReplaceBackground.light_source_strength input)
                   (Input.ReplaceBackground.output_format input)) ;;
    respond result (Input.ReplaceBackground.output_format input)
      (Input.ReplaceBackground.save_path input) "newbg"
      (fun savedTo => "Background replaced. Saved to: " ++ savedTo).

Definition handle_upscale_image (input : Input.UpscaleImage.t num)
  : M ToolResult :=
  if negb (existsSync w (resolve w (Input.UpscaleImage.image_path input)))
  then
    not_found ("Image not found: " ++ Input.UpscaleImage.image_path input)
  else
    let mode :=
      match Input.UpscaleImage.mode input with
      | Some m => m
      | None => Config.fast
      end in
    result <- Client.upscaleImage toString w client
                (Options.UpscaleImage.mk
                   (Input.UpscaleImage.image_path input)
                   (Some mode)
                   (Input.UpscaleImage.prompt input)
                   (Input.UpscaleImage.negative_prompt input)
                   (Input.UpscaleImage.seed input)
                   (Input.UpscaleImage.creativity input)
                   (Input.UpscaleImage.output_format input)) ;;
    respond result (Input.UpscaleImage.output_format input)
      (Input.UpscaleImage.save_path input) ("upscaled-" ++ mode_key mode)
      (fun savedTo =>
         "Image upscaled (" ++ mode_key mode ++ " mode). Saved to: "
           ++ savedTo).

Definition handle_control_sketch (input : Input.ControlSketch.t num)
  : M ToolResult :=
  if negb (existsSync w (resolve w (Input.ControlSketch.image_path input)))
  then
    not_found ("Sketch image not found: "
                 ++ Input.ControlSketch.image_path input)
  else
    result <- Client.controlSketch toString w client
                (Options.ControlSketch.mk
                   (Input.ControlSketch.image_path input)
                   (Input.ControlSketch.prompt input)
                   (Input.ControlSketch.negative_prompt input)
                   (Input.ControlSketch.seed input)
                   (Input.ControlSketch.control_strength input)
                   (Input.ControlSketch.output_format input)) ;;
    respond result (Input.ControlSketch.output_format input)
      (Input.ControlSketch.save_path input) "sketch"
      (fun savedTo => "Generated from sketch. Saved to: " ++ savedTo).

Definition handle_control_structure (input : Input.ControlSketch.t num)
  : M ToolResult :=
  if negb (existsSync w (resolve w (Input.ControlSketch.image_path input)))
  then
    not_found ("Reference image not found: "
                 ++ Input.ControlSketch.image_path input)
  else
    result <- Client.controlStructure toString w client
                (Options.ControlSketch.mk
                   (Input.ControlSketch.image_path input)
                   (Input.ControlSketch.prompt input)
                   (Input.ControlSketch.negative_prompt input)
                   (Input.ControlSketch.seed input)
                   (Input.ControlSketch.control_strength input)
                   (Input.ControlSketch.output_format input)) ;;
    respond result (Input.ControlSketch.output_format input)
      (Input.ControlSketch.save_path input) "structure"
      (fun savedTo =>
         "Structure-guided image generated. Saved to: " ++ savedTo).

Definition handle_control_style (input : Input.ControlStyle.t num)
  : M ToolResult :=
  if negb (existsSync w (resolve w (Input.ControlStyle.image_path input)))
  then
    not_found ("Style reference not found: "
                 ++ Input.ControlStyle.image_path input)
  else
    result <- Client.controlStyle toString w client
                (Options.ControlStyle.mk
                   (Input.ControlStyle.image_path input)
                   (Input.ControlStyle.prompt input)
                   (Input.ControlStyle.negative_prompt input)
                   (Input.ControlStyle.seed input)
                   (Input.ControlStyle.fidelity input)
                   (Input.ControlStyle.output_format input)) ;;
    respond result (Input.ControlStyle.output_format input)
      (Input.ControlStyle.save_path input) "styled"
      (fun savedTo => "Style-guided image generated. Saved to: " ++ savedTo).

Definition handle_style_transfer (input : Input.StyleTransfer.t num)
  : M ToolResult :=
  if negb (existsSync w
             (resolve w (Input.StyleTransfer.init_image_path input)))
  then
    not_found ("Content image not found: "
                 ++ Input.StyleTransfer.init_image_path input)
  else if negb (existsSync w
                  (resolve w (Input.StyleTransfer.style_image_path input)))
  then
    not_found ("Style image not found: "
                 ++ Input.StyleTransfer.style_image_path input)
  else
    result <- Client.styleTransfer toString w client
                (Options.StyleTransfer.mk
                   (Input.StyleTransfer.init_image_path input)
                   (Input.StyleTransfer.style_image_path input)
                   (Input.StyleTransfer.prompt input)
                   (Input.StyleTransfer.negative_prompt input)
                   (Input.StyleTransfer.seed input)
                   (Input.StyleTransfer.output_format input)) ;;
    respond result (Input.StyleTransfer.output_format input)
      (Input.StyleTransfer.save_path input) "transferred"
      (fun savedTo => "Style transferred. Saved to: " ++ savedTo).

Definition handle_generate_3d (input : Input.Generate3D.t num)
  : M ToolResult :=
  if negb (existsSync w (resolve w (Input.Generate3D.image_path input)))
  then
    not_found ("Image not found: " ++ Input.Generate3D.image_path input)
  else
    result <- Client.generate3D toString w client
                (Options.Generate3D.mk
                   (Input.Generate3D.image_path input)
                   (Input.Generate3D.model input)
                   (Input.Generate3D.texture_resolution input)
                   (Input.Generate3D.foreground_ratio input)
                   (Input.Generate3D.remesh input)
                   (Input.Generate3D.guidance_scale input)) ;;
    let savePath :=
      match Js.if_truthy (Input.Generate3D.save_path input) with
      | Some p => p
      | None => getAutoSavePath (Config.output3dDir config) "model" "glb"
      end in
    savedTo <- saveFile (Client.data3d result) savePath ;;
    ret (mkResult
           [TextContent
              ("3D model generated and saved to: " ++ savedTo
                 ++ newline ++ "Format: glTF Binary (.glb)"
                 ++ newline ++ "Model: "
                 ++ match Input.Generate3D.model input with
                    | Some m => threeD_key m
                    | None => "stable-fast-3d"
                    end
                 ++ newline ++ "Size: "
                 ++ kilobytes
                      (Z.of_nat (String.length (Client.data3d result)))
                 ++ " KB")]
           false).

(** Without a [credits] property the call of [toFixed] throws. *)
Definition handle_check_balance : M ToolResult :=
  result <- Client.checkBalance w client ;;
  match Client.credits result with
  | Some credits =>
      ret (mkResult
             [TextContent ("Stability AI Credits: " ++ toFixed credits 2)]
             false)
  | None =>
      throw (Js.mkError "TypeError"
               "Cannot read properties of undefined (reading 'toFixed')")
  end.

(** The [catch] clause of the request handler. *)
Definition on_error (error : Js.Error) : M ToolResult :=
  ret (mkResult
         [TextContent ("Stability AI error: "
                         ++ (if Js.truthy (Js.message error)
                             then Js.message error
                             else Js.name error))]
         true).

(** The handler of [CallToolRequestSchema]: the [switch] on the name of
    the tool inside its [try]. *)
Definition call_tool (request : ToolCall num) : M ToolResult :=
  try_catch
    (match request with
     | generate_image input => handle_generate_image input
     | erase_object input => handle_erase_object input
     | inpaint input => handle_inpaint input
     | outpaint input => handle_outpaint input
     | search_and_replace input => handle_search_and_replace input
     | search_and_recolor input => handle_search_and_recolor input
     | remove_background input => handle_remove_background input
     | replace_background input => handle_replace_background input
     | upscale_image input => handle_upscale_image input
     | control_sketch input => handle_control_sketch input
     | control_structure input => handle_control_structure input
     | control_style input => handle_control_style input
     | style_transfer input => handle_style_transfer input
     | generate_3d input => handle_generate_3d input
     | check_balance => handle_check_balance
     | unknown_tool name => throw (Js.new_Error ("Unknown tool: " ++ name))
     end)
    on_error.

End Handlers.

End Server.

(* ===================================================================== *)
(** ** The operations as one type *)
(* ===================================================================== *)

(** A call of one public method of [StabilityClient] with its argument. *)
Module Dispatch.
Import Http.
Local Open Scope async_scope.

Inductive Operation (num : Type) :=
| GenerateImage (o : Options.GenerateImage.t num)
| EraseObject (o : Options.EraseObject.t)
| Inpaint (o : Options.Inpaint.t num)
| Outpaint (o : Options.Outpaint.t num)
| SearchAndReplace (o : Options.SearchAndReplace.t num)
| SearchAndRecolor (o : Options.SearchAndRecolor.t num)
| RemoveBackground (o : Options.RemoveBackground.t)
| ReplaceBackground (o : Options.ReplaceBackground.t num)
| UpscaleImage (o : Options.UpscaleImage.t num)
| ControlSketch (o : Options.ControlSketch.t num)
| ControlStructure (o : Options.ControlSketch.t num)
| ControlStyle (o : Options.ControlStyle.t num)
| StyleTransfer (o : Options.StyleTransfer.t num)
| Generate3D (o : Options.Generate3D.t num)
| CheckBalance.
Arguments GenerateImage {num}.
Arguments EraseObject {num}.
Arguments Inpaint {num}.
Arguments Outpaint {num}.
Arguments SearchAndReplace {num}.
Arguments SearchAndRecolor {num}.
Arguments RemoveBackground {num}.
Arguments ReplaceBackground {num}.
Arguments UpscaleImage {num}.
Arguments ControlSketch {num}.
Arguments ControlStructure {num}.
Arguments ControlStyle {num}.
Arguments StyleTransfer {num}.
Arguments Generate3D {num}.
Arguments CheckBalance {num}.

Inductive Result (num : Type) :=
| Image (r : Client.ImageResult)
| ThreeD (r : Client.ThreeDResult)
| Balance (r : Client.BalanceResult num).
Arguments Image {num}.
Arguments ThreeD {num}.
Arguments Balance {num}.

Definition map {A B} (f : A -> B) (c : M A) : M B :=
  a <- c ;; ret (f a).

Section Dispatch.

Context {num : Type}.
Variable toString : num -> string.
Variable w : World num.
Variable this : Client.StabilityClient.

(** The multipart body the method builds; [checkBalance] sends none. *)
Definition build (op : Operation num) : M FormData :=
  match op with
  | GenerateImage o => Client.generateImage_form toString w o
  | EraseObject o => Client.eraseObject_form w o
  | Inpaint o => Client.inpaint_form toString w o
  | Outpaint o => Client.outpaint_form toString w o
  | SearchAndReplace o => Client.searchAndReplace_form toString w o
  | SearchAndRecolor o => Client.searchAndRecolor_form toString w o
  | RemoveBackground o => Client.removeBackground_form w o
  | ReplaceBackground o => Client.replaceBackground_form toString w o
  | UpscaleImage o => Client.upscaleImage_form toString w o
  | ControlSketch o => Client.controlSketch_form toString w o
  | ControlStructure o => Client.controlSketch_form toString w o
  | ControlStyle o => Client.controlStyle_form toString w o
  | StyleTransfer o => Client.styleTransfer_form toString w o
  | Generate3D o => Client.generate3D_form toString w o
  | CheckBalance => ret []
  end.

(** The call itself. *)
Definition perform (op : Operation num) : M (Result num) :=
  match op with
  | GenerateImage o => map Image (Client.generateImage toString w this o)
  | EraseObject o => map Image (Client.eraseObject w this o)
  | Inpaint o => map Image (Client.inpaint toString w this o)
  | Outpaint o => map Image (Client.outpaint toString w this o)
  | SearchAndReplace o =>
      map Image (Client.searchAndReplace toString w this o)
  | SearchAndRecolor o =>
      map Image (Client.searchAndRecolor toString w this o)
  | RemoveBackground o => map Image (Client.removeBackground w this o)
  | ReplaceBackground o =>
      map Image (Client.replaceBackground toString w this o)
  | UpscaleImage o => map Image (Client.upscaleImage toString w this o)
  | ControlSketch o => map Image (Client.controlSketch toString w this o)
  | ControlStructure o =>
      map Image (Client.controlStructure toString w this o)
  | ControlStyle o => map Image (Client.controlStyle toString w this o)
  | StyleTransfer o => map Image (Client.styleTransfer toString w this o)
  | Generate3D o => map ThreeD (Client.generate3D toString w this o)
  | CheckBalance => map Balance (Client.checkBalance w this)
  end.

End Dispatch.

End Dispatch.

(* ===================================================================== *)
(** ** Vocabulary of the properties *)
(* ===================================================================== *)

Module Spec.
Import Http.

(** The text values of the parts of [form] named [name], in order. *)
Fixpoint texts (form : FormData) (name : string) : list string :=
  match form with
  | [] => []
  | (n, Text v) :: rest =>
      if (n =? name)%string then v :: texts rest name else texts rest name
  | (_, File _) :: rest => texts rest name
  end.

(** The file parts of [form] named [name], in order. *)
Fixpoint files (form : FormData) (name : string) : list Blob :=
  match form with
  | [] => []
  | (n, File b) :: rest =>
      if (n =? name)%string then b :: files rest name else files rest name
  | (_, Text _) :: rest => files rest name
  end.

(** Whether [form] has a part named [name], of either kind. *)
Definition has_part (form : FormData) (name : string) : bool :=
  existsb (fun p => (fst p =? name)%string) form.

(** The request of the job submission of [postImageAsync]. *)
Definition submit_request (this : Client.StabilityClient)
  (endpoint : string) (form : FormData) : Request :=
  mkRequest (Config.API_BASE ++ endpoint) "POST"
    ("Bearer " ++ Client.apiKey this) (Some "application/json") (Some form)
    (Client.timeout this).

(** The request of one poll of the results endpoint. *)
Definition poll_request (this : Client.StabilityClient)
  (generationId : string) : Request :=
  mkRequest (Config.API_BASE ++ "/v2beta/results/" ++ generationId) "GET"
    ("Bearer " ++ Client.apiKey this) (Some "image/*") None
    (Client.timeout this).

(** [n] rounds of the polling loop: a delay of the poll interval, then a
    poll. *)
Fixpoint rounds (req : Request) (n : nat) : list Event :=
  match n with
  | O => []
  | S k => Sleep Client.pollInterval :: Fetch req :: rounds req k
  end.

(** The format [decode] derives from a content-type header. *)
Definition format_of (contentType : option string) : string :=
  let ct := Js.or_else contentType "image/png" in
  if Js.includes ct "jpeg" then "jpeg"
  else if Js.includes ct "webp" then "webp"
  else "png".

End Spec.

(* ===================================================================== *)
(** ** Vocabulary of the transport properties *)
(* ===================================================================== *)

Module Transport.
Import Http.

(** A computation that leaves the trace as it found it. *)
Definition silent {A} (c : M A) : Prop := forall t, snd (c t) = t.



(** The two classes of requests: calls whose answer is the generated
    binary, and JSON or status calls. *)
Inductive Kind := BinaryCall | StatusCall.

Definition results_prefix : string := Config.API_BASE ++ "/v2beta/results/".

(** A request is a status call when it polls the results endpoint, reads
    the balance, or submits a job to the asynchronous upscale endpoint. *)
Definition kind (req : Request) : Kind :=
  if (method req =? "GET")%string
     && Js.startsWith (url req) results_prefix
  then StatusCall
  else if (url req =? Config.API_BASE ++ "/v1/user/balance")%string
  then StatusCall
  else if (method req =? "POST")%string
          && (url req
              =? Config.API_BASE
                   ++ Config.UPSCALE_ENDPOINTS Config.creative)%string
  then StatusCall
  else BinaryCall.


End Transport.

(* ===================================================================== *)
(** ** Vocabulary of the request builder properties *)
(* ===================================================================== *)

Module Fields.
Import Http Dispatch.

(** The elements of an optional value. *)
Definition olist {A} (o : option A) : list A :=
  match o with
  | Some a => [a]
  | None => []
  end.

(** What the caller gave for an optional field. *)
Inductive Supplied (num : Type) :=
| TextField (value : option string)
| NumberField (value : option num).
Arguments TextField {num}.
Arguments NumberField {num}.

(** The caller supplied a value. *)
Definition supplied {num} (f : Supplied num) : bool :=
  match f with
  | TextField (Some _) => true
  | NumberField (Some _) => true
  | _ => false
  end.

(** The generation models that take an image. *)
Definition takes_image (m : option Config.GenerationModel) : bool :=
  match m with
  | Some Config.ultra => true
  | Some Config.sd3_5_large => true
  | Some Config.sd3_5_large_turbo => true
  | Some Config.sd3_5_medium => true
  | Some Config.core => false
  | None => false
  end.

Section Fields.

Context {num : Type}.
Variable toString : num -> string.

(** The text a supplied value is sent as: a text as it is unless it is
    empty, a number in its string form. *)
Definition wire (f : Supplied num) : option string :=
  match f with
  | TextField value => Js.if_truthy value
  | NumberField value => option_map toString value
  end.

(** The optional text and numeric fields of each operation, by the name
    of their part, with what the caller gave. *)
Definition optional_fields (op : Operation num)
  : list (string * Supplied num) :=
  match op with
  | GenerateImage o =>
      [ ("negative_prompt", TextField (Options.GenerateImage.negativePrompt o));
        ("seed", NumberField (Options.GenerateImage.seed o));
        ("aspect_ratio", TextField (Options.GenerateImage.aspectRatio o));
        ("strength", NumberField (Options.GenerateImage.strength o));
        ("style_preset", TextField (Options.GenerateImage.stylePreset o)) ]
  | EraseObject _ => []
  | Inpaint o =>
      [ ("negative_prompt", TextField (Options.Inpaint.negativePrompt o));
        ("seed", NumberField (Options.Inpaint.seed o)) ]
  | Outpaint o =>
      [ ("prompt", TextField (Options.Outpaint.prompt o));
        ("left", NumberField (Options.Outpaint.left o));
        ("right", NumberField (Options.Outpaint.right o));
        ("top", NumberField (Options.Outpaint.top o));
        ("bottom", NumberField (Options.Outpaint.bottom o));
        ("creativity", NumberField (Options.Outpaint.creativity o)) ]
  | SearchAndReplace o =>
      [ ("negative_prompt",
         TextField (Options.SearchAndReplace.negativePrompt o));
        ("seed", NumberField (Options.SearchAndReplace.seed o)) ]
  | SearchAndRecolor o =>
      [ ("negative_prompt",
         TextField (Options.SearchAndRecolor.negativePrompt o));
        ("seed", NumberField (Options.SearchAndRecolor.seed o)) ]
  | RemoveBackground _ => []
  | ReplaceBackground o =>
      [ ("foreground_prompt",
         TextField (Options.ReplaceBackground.foregroundPrompt o));
        ("negative_prompt",
         TextField (Options.ReplaceBackground.negativePrompt o));
        ("light_source_direction",
         TextField (Options.ReplaceBackground.lightSourceDirection o));
        ("light_source_strength",
         NumberField (Options.ReplaceBackground.lightSourceStrength o)) ]
  | UpscaleImage o =>
      [ ("prompt", TextField (Options.UpscaleImage.prompt o));
        ("negative_prompt", TextField (Options.UpscaleImage.negativePrompt o));
        ("seed", NumberField (Options.UpscaleImage.seed o));
        ("creativity", NumberField (Options.UpscaleImage.creativity o)) ]
  | ControlSketch o | ControlStructure o =>
      [ ("negative_prompt", TextField (Options.ControlSketch.negativePrompt o));
        ("seed", NumberField (Options.ControlSketch.seed o));
        ("control_strength",
         NumberField (Options.ControlSketch.controlStrength o)) ]
  | ControlStyle o =>
      [ ("negative_prompt", TextField (Options.ControlStyle.negativePrompt o));
        ("seed", NumberField (Options.ControlStyle.seed o));
        ("fidelity", NumberField (Options.ControlStyle.fidelity o)) ]
  | StyleTransfer o =>
      [ ("prompt", TextField (Options.StyleTransfer.prompt o));
        ("negative_prompt", TextField (Options.StyleTransfer.negativePrompt o));
        ("seed", NumberField (Options.StyleTransfer.seed o)) ]
  | Generate3D o =>
      [ ("texture_resolution",
         NumberField (Options.Generate3D.textureResolution o));
        ("foreground_ratio",
         NumberField (Options.Generate3D.foregroundRatio o));
        ("remesh", TextField (Options.Generate3D.remesh o));
        ("guidance_scale", NumberField (Options.Generate3D.guidanceScale o)) ]
  | CheckBalance => []
  end.

(** Whether the variant of the operation takes the optional field
    [name]: a generation takes a strength with the image it attaches and a
    style preset for the core and sd3.5 models; an upscale takes its
    prompts, seed and creativity in the modes other than fast; each 3D
    model takes its own knobs. *)
Definition takes (op : Operation num) (name : string) : bool :=
  match op with
  | GenerateImage o =>
      if (name =? "strength")%string then
        takes_image (Options.GenerateImage.model o)
        && match Js.if_truthy (Options.GenerateImage.image o) with
           | Some _ => true
           | None => false
           end
      else if (name =? "style_preset")%string then
        match Options.GenerateImage.model o with
        | Some Config.ultra => false
        | _ => true
        end
      else true
  | UpscaleImage o =>
      match Options.UpscaleImage.mode o with
      | Some Config.conservative | Some Config.creative => true
      | Some Config.fast | None => false
      end
  | Generate3D o =>
      if (name =? "texture_resolution")%string then true
      else if (name =? "guidance_scale")%string then
        match Options.Generate3D.model o with
        | Some Config.spar3d => true
        | _ => false
        end
      else
        match Options.Generate3D.model o with
        | Some Config.spar3d => false
        | _ => true
        end
  | _ => true
  end.

(** The files the request builder of an operation attaches, in the order
    in which it reads them. *)
Definition attached (op : Operation num) : list string :=
  match op with
  | GenerateImage o =>
      if takes_image (Options.GenerateImage.model o)
      then olist (Js.if_truthy (Options.GenerateImage.image o))
      else []
  | EraseObject o =>
      Options.EraseObject.image o
        :: olist (Js.if_truthy (Options.EraseObject.mask o))
  | Inpaint o =>
      Options.Inpaint.image o
        :: olist (Js.if_truthy (Options.Inpaint.mask o))
  | Outpaint o => [Options.Outpaint.image o]
  | SearchAndReplace o => [Options.SearchAndReplace.image o]
  | SearchAndRecolor o => [Options.SearchAndRecolor.image o]
  | RemoveBackground o => [Options.RemoveBackground.image o]
  | ReplaceBackground o => [Options.ReplaceBackground.image o]
  | UpscaleImage o => [Options.UpscaleImage.image o]
  | ControlSketch o | ControlStructure o => [Options.ControlSketch.image o]
  | ControlStyle o => [Options.ControlStyle.image o]
  | StyleTransfer o =>
      [Options.StyleTransfer.initImage o; Options.StyleTransfer.styleImage o]
  | Generate3D o => [Options.Generate3D.image o]
  | CheckBalance => []
  end.

End Fields.

End Fields.

(* ===================================================================== *)
(** ** Vocabulary of the handler properties *)
(* ===================================================================== *)

Module Rejection.
Import Http.

(** The outcome of a tool call is an error that carries the path [abs]:
    a thrown error whose message contains it, or an error result with a
    text that contains it. *)
Definition carries_path (outcome : Js.Error + Server.ToolResult)
  (abs : string) : Prop :=
  match outcome with
  | inl e => Js.includes (Js.message e) abs = true
  | inr r =>
      Server.isError r = true
      /\ exists text,
           In (Server.TextContent text) (Server.content r)
           /\ Js.includes text abs = true
  end.

(** The error result of a handler with the one text [text]. *)
Definition error_result (text : string) : Server.ToolResult :=
  Server.mkResult [Server.TextContent text] true.

(** The paths a handler checks before it calls the client, in the order
    of the checks, each with the words its answer starts with. *)
Definition checked {num} (request : Server.ToolCall num)
  : list (string * string) :=
  match request with
  | Server.generate_image input =>
      match Js.if_truthy (Input.GenerateImage.image_path input) with
      | Some p => [("Source image", p)]
      | None => []
      end
  | Server.erase_object input =>
      [("Image", Input.EraseObject.image_path input)]
  | Server.inpaint input => [("Image", Input.Inpaint.image_path input)]
  | Server.outpaint input => [("Image", Input.Outpaint.image_path input)]
  | Server.search_and_replace input =>
      [("Image", Input.SearchAndReplace.image_path input)]
  | Server.search_and_recolor input =>
      [("Image", Input.SearchAndRecolor.image_path input)]
  | Server.remove_background input =>
      [("Image", Input.RemoveBackground.image_path input)]
  | Server.replace_background input =>
      [("Image", Input.ReplaceBackground.image_path input)]
  | Server.upscale_image input =>
      [("Image", Input.UpscaleImage.image_path input)]
  | Server.control_sketch input =>
      [("Sketch image", Input.ControlSketch.image_path input)]
  | Server.control_structure input =>
      [("Reference image", Input.ControlSketch.image_path input)]
  | Server.control_style input =>
      [("Style reference", Input.ControlStyle.image_path input)]
  | Server.style_transfer input =>
      [("Content image", Input.StyleTransfer.init_image_path input);
       ("Style image", Input.StyleTransfer.style_image_path input)]
  | Server.generate_3d input =>
      [("Image", Input.Generate3D.image_path input)]
  | Server.check_balance => []
  | Server.unknown_tool _ => []
  end.

End Rejection.

(* ===================================================================== *)
(** ** Concrete worlds *)
(* ===================================================================== *)

(** Small worlds on which the properties are run, with integers as
    numbers. *)
Module Examples.
Import Http.

Definition not_json : Js.Error :=
  Js.mkError "SyntaxError" "Unexpected end of JSON input".

Definition submitted (generationId : string) : Response Z :=
  mkResponse 200 [("content-type", "application/json")] "{}"
    (inr (mkJson (Some generationId) None)).

Definition pending : Response Z := mkResponse 202 [] "" (inl not_json).

Definition image (contentType bytes : string) : Response Z :=
  mkResponse 200 [("content-type", contentType)] bytes (inl not_json).

Definition failure (code : Z) (text : string) : Response Z :=
  mkResponse code [("content-type", "application/json")] text (inl not_json).

(** [path.resolve] in the working directory [/work]. *)
Definition resolve_work (p : string) : string :=
  match p with
  | String "/" _ => p
  | _ => "/work/" ++ p
  end.

(** A service that accepts the job, answers the first [n] polls with 202
    and then with a WebP image; every file exists. *)
Definition world_done_after (n : nat) : World Z :=
  mkWorld resolve_work (fun _ => true) (fun _ => inr "PNG-BYTES")
    (fun k _ =>
       if Nat.eqb k 0 then Responded (submitted "abc123")
       else if Nat.leb k n then Responded pending
       else Responded (image "image/webp" "WEBP-BYTES")).

(** A service whose job never finishes. *)
Definition world_pending : World Z :=
  mkWorld resolve_work (fun _ => true) (fun _ => inr "PNG-BYTES")
    (fun k _ =>
       if Nat.eqb k 0 then Responded (submitted "abc123")
       else Responded pending).

(** A service that answers every request with [r]; the files of [present]
    exist. *)
Definition world_answering (r : Response Z) (present : list string)
  : World Z :=
  mkWorld resolve_work
    (fun p => existsb (fun q => (q =? p)%string) present)
    (fun _ => inr "PNG-BYTES")
    (fun _ _ => Responded r).

(** A world where [in.JPG] is the one file and the service answers with
    a PNG image. *)
Definition w_jpg : World Z :=
  world_answering (image "image/png" "OUT") ["/work/in.JPG"].

(** A world with no file at all. *)
Definition w_empty : World Z :=
  world_answering (image "image/png" "OUT") [].

(** A world where [in.png] is the one file. *)
Definition w_png : World Z :=
  world_answering (image "image/png" "OUT") ["/work/in.png"].

(** A service that accepts the job, answers the first [n] polls with 202
    and the next one with the status 500. *)
Definition world_failing_after (n : nat) : World Z :=
  mkWorld resolve_work (fun _ => true) (fun _ => inr "PNG-BYTES")
    (fun k _ =>
       if Nat.eqb k 0 then Responded (submitted "abc123")
       else if Nat.leb k n then Responded pending
       else Responded (failure 500 "boom")).

(** A service that answers no request: each one ends with [e]. *)
Definition world_rejecting (e : Js.Error) : World Z :=
  mkWorld resolve_work (fun _ => true) (fun _ => inr "PNG-BYTES")
    (fun _ _ => Rejected e).

(** The error of a request that its deadline aborts. *)
Definition aborted : Js.Error :=
  Js.mkError "TimeoutError" "The operation was aborted due to timeout".

Definition client : Client.StabilityClient :=
  Client.new "sk-test" (Js.Num 60000).

(** The client of a configuration whose timeout did not parse. *)
Definition client_nan : Client.StabilityClient :=
  Client.new "sk-test" Js.NaN.

(** An environment with the key and, when given, a timeout. *)
Definition env (timeout : option string) : Config.Env :=
  fun var =>
    if (var =? "STABILITY_API_KEY")%string then Some "sk-test"
    else if (var =? "STABILITY_TIMEOUT")%string then timeout
    else None.

Definition config : Config.Config :=
  Config.mkConfig "sk-test" (Js.Num 60000) "./generated-images"
    "./generated-3d".

(** A text-to-image request for sd3.5-large. *)
Definition sd35_text : Options.GenerateImage.t Z :=
  Options.GenerateImage.mk "a lighthouse" (Some Config.sd3_5_large)
    None None None None None None None.

(** The same request with an image and a strength. *)
Definition sd35_image : Options.GenerateImage.t Z :=
  Options.GenerateImage.mk "a lighthouse" (Some Config.sd3_5_large)
    None (Some "in.JPG") (Some 1) None None None None.

(** A request for the default model with an image, a strength and a
    style preset. *)
Definition core_image : Options.GenerateImage.t Z :=
  Options.GenerateImage.mk "a lighthouse" None
    None (Some "missing.png") (Some 1) None None None (Some "anime").

(** A request for the default model and nothing else. *)
Definition core_plain : Options.GenerateImage.t Z :=
  Options.GenerateImage.mk "a lighthouse" None
    None None None None None None None.

(** A fast upscale with a prompt. *)
Definition fast_upscale : Options.UpscaleImage.t Z :=
  Options.UpscaleImage.mk "in.png" None (Some "sharper") None None None None.

(** A creative upscale. *)
Definition creative_upscale : Options.UpscaleImage.t Z :=
  Options.UpscaleImage.mk "in.png" (Some Config.creative)
    (Some "sharper") None (Some 7) None None.

(** An erase with a mask. *)
Definition erase_masked : Options.EraseObject.t :=
  Options.EraseObject.mk "in.png" (Some "mask.png") None.

(** [path.dirname], the clock and [toFixed] of the example calls. *)
Definition dirname_out (p : string) : string := "/work/out".
Definition noon : string := "2025-01-01T12:00:00.000Z".
Definition toFixed_int (z : Z) (digits : Z) : string :=
  Js.Z_toString z ++ "." ++ string_of_list_ascii (repeat "0"%char (Z.to_nat digits)).

(** An erase of a picture given by a relative path. *)
Definition erase_pic : Input.EraseObject.t :=
  Input.EraseObject.mk "pic.png" None None None.

(** A generation with the default model. *)
Definition generate_plain : Input.GenerateImage.t Z :=
  Input.GenerateImage.mk "a lighthouse" None None None None None None
    None None None.

(** An erase of [in.png] with a mask that is not there. *)
Definition erase_unmasked : Input.EraseObject.t :=
  Input.EraseObject.mk "in.png" (Some "mask.png") None None.


(** The request handler on the example calls. *)
Definition call_tool (w : World Z) (request : Server.ToolCall Z)
  : M Server.ToolResult :=
  Server.call_tool Js.Z_toString toFixed_int w config dirname_out noon
    request.

End Examples.


(* ===================================================================== *)
(** ** Vocabulary of the wire properties *)
(* ===================================================================== *)

Module Wire.
Import Http Dispatch.

(** The entry of the endpoint tables that an operation resolves to; the
    path of the balance for [checkBalance]. *)
Definition endpoint {num} (op : Operation num) : string :=
  match op with
  | GenerateImage o =>
      Config.GENERATION_MODELS
        match Options.GenerateImage.model o with
        | Some m => m
        | None => Config.core
        end
  | EraseObject _ => Config.EDIT_ENDPOINTS Config.erase
  | Inpaint _ => Config.EDIT_ENDPOINTS Config.inpaint
  | Outpaint _ => Config.EDIT_ENDPOINTS Config.outpaint
  | SearchAndReplace _ => Config.EDIT_ENDPOINTS Config.search_and_replace
  | SearchAndRecolor _ => Config.EDIT_ENDPOINTS Config.search_and_recolor
  | RemoveBackground _ => Config.EDIT_ENDPOINTS Config.remove_background
  | ReplaceBackground _ =>
      Config.EDIT_ENDPOINTS Config.replace_background_and_relight
  | UpscaleImage o =>
      Config.UPSCALE_ENDPOINTS
        match Options.UpscaleImage.mode o with
        | Some m => m
        | None => Config.fast
        end
  | ControlSketch _ => Config.CONTROL_ENDPOINTS Config.sketch
  | ControlStructure _ => Config.CONTROL_ENDPOINTS Config.structure
  | ControlStyle _ => Config.CONTROL_ENDPOINTS Config.style
  | StyleTransfer _ => Config.CONTROL_ENDPOINTS Config.style_transfer
  | Generate3D o =>
      Config.THREE_D_ENDPOINTS
        match Options.Generate3D.model o with
        | Some m => m
        | None => Config.stable_fast_3d
        end
  | CheckBalance => "/v1/user/balance"
  end.

(** The operation that is run as a job: the creative upscale. *)
Definition is_async {num} (op : Operation num) : bool :=
  match op with
  | UpscaleImage o =>
      match Options.UpscaleImage.mode o with
      | Some Config.creative => true
      | _ => false
      end
  | _ => false
  end.

(** The first request of an operation whose body is [form]. *)
Definition request {num} (this : Client.StabilityClient)
  (op : Operation num) (form : FormData) : Request :=
  match op with
  | CheckBalance =>
      mkRequest (Config.API_BASE ++ endpoint op) "GET"
        ("Bearer " ++ Client.apiKey this) None None (Client.timeout this)
  | Generate3D _ =>
      mkRequest (Config.API_BASE ++ endpoint op) "POST"
        ("Bearer " ++ Client.apiKey this) (Some "application/json")
        (Some form) (Js.mul (Client.timeout this) (Js.Num 3))
  | _ =>
      if is_async op then
        mkRequest (Config.API_BASE ++ endpoint op) "POST"
          ("Bearer " ++ Client.apiKey this) (Some "application/json")
          (Some form) (Client.timeout this)
      else
        mkRequest (Config.API_BASE ++ endpoint op) "POST"
          ("Bearer " ++ Client.apiKey this) (Some "image/*")
          (Some form) (Js.mul (Client.timeout this) (Js.Num 3))
  end.

(** Whether [AbortSignal.timeout] accepts the deadline of the requests
    of an operation. *)
Definition signalled {num} (this : Client.StabilityClient)
  (op : Operation num) : bool :=
  Js.is_uint32 (deadline (request this op [])).

(** A computation that keeps a property of the events of the trace. *)
Definition preserves {A} (Q : Event -> Prop) (c : M A) : Prop :=
  forall t, Forall Q t -> Forall Q (snd (c t)).

(** An event of the network: a request or a delay. *)
Definition on_network (e : Event) : Prop :=
  match e with
  | Fetch _ | Sleep _ => True
  | Mkdir _ | WriteFile _ _ => False
  end.

(** The files a trace writes, in order, with their contents. *)
Fixpoint written (t : list Event) : list (string * string) :=
  match t with
  | [] => []
  | WriteFile path data :: rest => (path, data) :: written rest
  | _ :: rest => written rest
  end.

(** The directories a trace creates. *)
Fixpoint created (t : list Event) : list string :=
  match t with
  | [] => []
  | Mkdir dir :: rest => dir :: created rest
  | _ :: rest => created rest
  end.

(** What a request must be to belong to an operation of a client: it
    bears the key of the client, and it is a POST of a body to the endpoint
    of the operation, or the GET of the balance, or, for the asynchronous
    operation, a GET of the results of a job. *)
Definition belongs {num} (this : Client.StabilityClient)
  (op : Operation num) (req : Request) : Prop :=
  authorization req = "Bearer " ++ Client.apiKey this
  /\ ((exists form, req = request this op form)
      \/ (is_async op = true
          /\ exists generationId, req = Spec.poll_request this generationId)).

End Wire.

Module Outcome.
Import Http Dispatch.

(** The words an operation starts the error of a refused request with. *)
Definition failure_words {num} (op : Operation num) : string :=
  match op with
  | Generate3D _ => "3D generation failed"
  | CheckBalance => "Failed to check balance"
  | _ => "Stability AI error"
  end.

(** What a synchronous operation makes of a successful answer. *)
Definition decoded {num} (op : Operation num) (r : Response num)
  : Js.Error + Result num :=
  match op with
  | Generate3D _ => inr (ThreeD (Client.mkThreeD (content r) "glb"))
  | CheckBalance =>
      match json r with
      | inl e => inl e
      | inr data => inr (Balance (Client.mkBalance (credits data)))
      end
  | _ => inr (Image (Client.decode r))
  end.

(** The error a poll ends the job with: the rejection of the request, or
    the status and the body of an answer outside the 2xx range. *)
Definition poll_error {num} (out : FetchOutcome num) : Js.Error :=
  match out with
  | Rejected e => e
  | Responded r =>
      Js.new_Error ("Polling failed (HTTP " ++ Js.Z_toString (status r)
                      ++ "): " ++ content r)
  end.

End Outcome.

(* ===================================================================== *)
(** ** Vocabulary of the tool results *)
(* ===================================================================== *)

Module Tool.
Import Server.

(** The [save_path] of the input of a tool call. *)
Definition save_path {num} (request : ToolCall num) : option string :=
  match request with
  | generate_image input => Input.GenerateImage.save_path input
  | erase_object input => Input.EraseObject.save_path input
  | inpaint input => Input.Inpaint.save_path input
  | outpaint input => Input.Outpaint.save_path input
  | search_and_replace input => Input.SearchAndReplace.save_path input
  | search_and_recolor input => Input.SearchAndRecolor.save_path input
  | remove_background input => Input.RemoveBackground.save_path input
  | replace_background input => Input.ReplaceBackground.save_path input
  | upscale_image input => Input.UpscaleImage.save_path input
  | control_sketch input => Input.ControlSketch.save_path input
  | control_structure input => Input.ControlSketch.save_path input
  | control_style input => Input.ControlStyle.save_path input
  | style_transfer input => Input.StyleTransfer.save_path input
  | generate_3d input => Input.Generate3D.save_path input
  | check_balance => None
  | unknown_tool _ => None
  end.

(** The [output_format] of the input of a call of an image tool. *)
Definition output_format {num} (request : ToolCall num)
  : option Config.OutputFormat :=
  match request with
  | generate_image input => Input.GenerateImage.output_format input
  | erase_object input => Input.EraseObject.output_format input
  | inpaint input => Input.Inpaint.output_format input
  | outpaint input => Input.Outpaint.output_format input
  | search_and_replace input => Input.SearchAndReplace.output_format input
  | search_and_recolor input => Input.SearchAndRecolor.output_format input
  | remove_background input => Input.RemoveBackground.output_format input
  | replace_background input => Input.ReplaceBackground.output_format input
  | upscale_image input => Input.UpscaleImage.output_format input
  | control_sketch input => Input.ControlSketch.output_format input
  | control_structure input => Input.ControlSketch.output_format input
  | control_style input => Input.ControlStyle.output_format input
  | style_transfer input => Input.StyleTransfer.output_format input
  | generate_3d _ => None
  | check_balance => None
  | unknown_tool _ => None
  end.

(** The kinds of tools: the image tools, the 3D tool, and the others. *)
Inductive Kind := ImageTool | MeshTool | OtherTool.

Definition kind {num} (request : ToolCall num) : Kind :=
  match request with
  | generate_3d _ => MeshTool
  | check_balance => OtherTool
  | unknown_tool _ => OtherTool
  | _ => ImageTool
  end.

(** What a successful call of a tool leaves behind, [t] being its trace
    and [r] its result: nothing for the balance; for the others one file,
    at the path the caller gave when there is one, and for an image tool
    the image in the result is the content of that file, labelled with the
    format that was asked for. *)
Definition saved_once {num} (request : ToolCall num)
  (r : ToolResult) (t : list Http.Event) : Prop :=
  match kind request with
  | OtherTool => Wire.written t = []
  | MeshTool =>
      exists path data,
        Wire.written t = [(path, data)]
        /\ (forall p, Js.if_truthy (save_path request) = Some p -> path = p)
  | ImageTool =>
      exists path data text,
        Wire.written t = [(path, data)]
        /\ (forall p, Js.if_truthy (save_path request) = Some p -> path = p)
        /\ content r
           = [ImageContent data
                ("image/" ++ Client.format_or_png (output_format request));
              TextContent text]
  end.

End Tool.

(* ===================================================================== *)
(** ** Vocabulary of the whole body *)
(* ===================================================================== *)

Module Body.
Import Http Dispatch Fields.

(** The values listed under [name], in order. *)
Definition named {A} (name : string) (l : list (string * A)) : list A :=
  flat_map (fun p => if (fst p =? name)%string then [snd p] else []) l.

Section Body.

Context {num : Type}.

(** The text parts an operation always sends, with their values: its
    required texts, the output format (png when the caller gives none) and,
    for the sd3.5 models, the model and the mode. *)
Definition fixed_texts (op : Operation num) : list (string * string) :=
  match op with
  | GenerateImage o =>
      [ ("prompt", Options.GenerateImage.prompt o);
        ("output_format",
         Client.format_or_png (Options.GenerateImage.outputFormat o)) ]
      ++ match Options.GenerateImage.model o with
         | Some Config.ultra | Some Config.core | None => []
         | Some m =>
             [ ("model", Config.model_key m);
               ("mode",
                match Js.if_truthy (Options.GenerateImage.image o) with
                | Some _ => "image-to-image"
                | None => "text-to-image"
                end) ]
         end
  | EraseObject o =>
      [ ("output_format",
         Client.format_or_png (Options.EraseObject.outputFormat o)) ]
  | Inpaint o =>
      [ ("prompt", Options.Inpaint.prompt o);
        ("output_format",
         Client.format_or_png (Options.Inpaint.outputFormat o)) ]
  | Outpaint o =>
      [ ("output_format",
         Client.format_or_png (Options.Outpaint.outputFormat o)) ]
  | SearchAndReplace o =>
      [ ("prompt", Options.SearchAndReplace.prompt o);
        ("search_prompt", Options.SearchAndReplace.searchPrompt o);
        ("output_format",
         Client.format_or_png (Options.SearchAndReplace.outputFormat o)) ]
  | SearchAndRecolor o =>
      [ ("prompt", Options.SearchAndRecolor.prompt o);
        ("select_prompt", Options.SearchAndRecolor.selectPrompt o);
        ("output_format",
         Client.format_or_png (Options.SearchAndRecolor.outputFormat o)) ]
  | RemoveBackground o =>
      [ ("output_format",
         Client.format_or_png (Options.RemoveBackground.outputFormat o)) ]
  | ReplaceBackground o =>
      [ ("background_prompt", Options.ReplaceBackground.backgroundPrompt o);
        ("output_format",
         Client.format_or_png (Options.ReplaceBackground.outputFormat o)) ]
  | UpscaleImage o =>
      [ ("output_format",
         Client.format_or_png (Options.UpscaleImage.outputFormat o)) ]
  | ControlSketch o | ControlStructure o =>
      [ ("prompt", Options.ControlSketch.prompt o);
        ("output_format",
         Client.format_or_png (Options.ControlSketch.outputFormat o)) ]
  | ControlStyle o =>
      [ ("prompt", Options.ControlStyle.prompt o);
        ("output_format",
         Client.format_or_png (Options.ControlStyle.outputFormat o)) ]
  | StyleTransfer o =>
      [ ("output_format",
         Client.format_or_png (Options.StyleTransfer.outputFormat o)) ]
  | Generate3D _ => []
  | CheckBalance => []
  end.

(** The file parts of an operation: the name of the part and the path
    of the file, in the order in which the builder reads them. *)
Definition attachments (op : Operation num) : list (string * string) :=
  match op with
  | GenerateImage o =>
      if takes_image (Options.GenerateImage.model o)
      then List.map (fun p => ("image", p))
             (olist (Js.if_truthy (Options.GenerateImage.image o)))
      else []
  | EraseObject o =>
      ("image", Options.EraseObject.image o)
        :: List.map (fun p => ("mask", p))
             (olist (Js.if_truthy (Options.EraseObject.mask o)))
  | Inpaint o =>
      ("image", Options.Inpaint.image o)
        :: List.map (fun p => ("mask", p))
             (olist (Js.if_truthy (Options.Inpaint.mask o)))
  | Outpaint o => [("image", Options.Outpaint.image o)]
  | SearchAndReplace o => [("image", Options.SearchAndReplace.image o)]
  | SearchAndRecolor o => [("image", Options.SearchAndRecolor.image o)]
  | RemoveBackground o => [("image", Options.RemoveBackground.image o)]
  | ReplaceBackground o => [("image", Options.ReplaceBackground.image o)]
  | UpscaleImage o => [("image", Options.UpscaleImage.image o)]
  | ControlSketch o | ControlStructure o =>
      [("image", Options.ControlSketch.image o)]
  | ControlStyle o => [("image", Options.ControlStyle.image o)]
  | StyleTransfer o =>
      [ ("init_image", Options.StyleTransfer.initImage o);
        ("style_image", Options.StyleTransfer.styleImage o) ]
  | Generate3D o => [("image", Options.Generate3D.image o)]
  | CheckBalance => []
  end.

(** The blob [fileBlob] makes of the file at a path: the bytes read at
    the resolved path, with the content type of its extension. *)
Definition blob (w : World num) (path : string) : option Blob :=
  if existsSync w (resolve w path) then
    match readFileSync w (resolve w path) with
    | inr bytes =>
        Some (mkBlob bytes (Client.getMimeType (resolve w path)))
    | inl _ => None
    end
  else None.

(** The files an operation sends: its file parts with their blobs. *)
Definition sent_files (w : World num) (op : Operation num)
  : list (string * Blob) :=
  flat_map
    (fun file =>
       match blob w (snd file) with
       | Some b => [(fst file, b)]
       | None => []
       end)
    (attachments op).

Variable toString : num -> string.

(** The optional fields that reach the body: those the variant takes
    and the caller gave a value that is sent. *)
Definition sent_optionals (op : Operation num) : list (string * string) :=
  flat_map
    (fun field =>
       match (if takes op (fst field) then wire toString (snd field)
              else None) with
       | Some v => [(fst field, v)]
       | None => []
       end)
    (optional_fields op).

End Body.

End Body.

(* ===================================================================== *)
(** ** Vocabulary of paths *)
(* ===================================================================== *)

Module Paths.

(** The string [s] has no character [c]. *)
Definition free_of (c : ascii) (s : string) : Prop :=
  Forall (fun x => x <> c) (list_ascii_of_string s).

(** What may stand before a file name in a path: nothing, or a prefix
    that ends with a slash. *)
Definition directory (dir : string) : Prop :=
  dir = "" \/ exists d, dir = d ++ "/".

End Paths.

(* ===================================================================== *)
(** * Properties *)
(* ===================================================================== *)

Local Open Scope list_scope.

(** ** The primitives on examples *)

Example parseInt_ex1 : Js.parseInt "  42px" 10 = Js.Num 42.
Proof. reflexivity. Qed.
Example parseInt_ex2 : Js.parseInt "abc" 10 = Js.NaN.
Proof. reflexivity. Qed.
Example parseInt_ex3 : Js.parseInt "-0x1f" 0 = Js.Num (-31).
Proof. reflexivity. Qed.
Example extname_ex1 : Js.extname "/a/b.c/x.tar.GZ" = ".GZ".
Proof. reflexivity. Qed.
Example extname_ex2 : Js.extname "/a/.bashrc" = "".
Proof. reflexivity. Qed.
Example extname_ex3 : Js.extname "/a/.." = "".
Proof. reflexivity. Qed.
Example extname_ex4 : Js.extname "/a/x.png//" = ".png".
Proof. reflexivity. Qed.
Example extname_ex5 : Js.extname "x." = ".".
Proof. reflexivity. Qed.

(** ** Traces *)

Section Traces.
Import Http.

Lemma fetches_app (t u : list Event) :
  fetches (t ++ u) = (fetches t + fetches u)%nat.
Proof.
  unfold fetches. rewrite filter_app, length_app. reflexivity.
Qed.

Lemma sleeps_app (t u : list Event) :
  sleeps (t ++ u) = (sleeps t + sleeps u)%nat.
Proof.
  unfold sleeps. rewrite filter_app, length_app. reflexivity.
Qed.

Lemma slept_app (t u : list Event) : slept (t ++ u) = slept t + slept u.
Proof.
  induction t as [|e t IH]; simpl; [reflexivity|].
  destruct e; rewrite IH; lia.
Qed.

Lemma fetches_rounds (req : Request) (n : nat) :
  fetches (Spec.rounds req n) = n.
Proof.
  induction n as [|n IH]; [reflexivity|].
  unfold fetches in *. simpl. now rewrite IH.
Qed.

Lemma sleeps_rounds (req : Request) (n : nat) :
  sleeps (Spec.rounds req n) = n.
Proof.
  induction n as [|n IH]; [reflexivity|].
  unfold sleeps in *. simpl. now rewrite IH.
Qed.

Lemma slept_rounds (req : Request) (n : nat) :
  slept (Spec.rounds req n) = Client.pollInterval * Z.of_nat n.
Proof.
  induction n as [|n IH]; [reflexivity|].
  cbn [Spec.rounds slept]. rewrite IH. lia.
Qed.

Lemma rounds_snoc (req : Request) (n : nat) :
  (Spec.rounds req n ++ [Sleep Client.pollInterval; Fetch req])%list
  = Spec.rounds req (S n).
Proof.
  induction n as [|n IH]; [reflexivity|].
  cbn [Spec.rounds app]. now rewrite IH.
Qed.

End Traces.

(** ** The signal of a request *)

Lemma signal_valid (delay : Js.number) :
  Js.is_uint32 delay = true -> Js.AbortSignal_timeout delay = inr delay.
Proof.
  intros H. unfold Js.AbortSignal_timeout. now rewrite H.
Qed.

Lemma signal_invalid (delay : Js.number) :
  Js.is_uint32 delay = false ->
  Js.AbortSignal_timeout delay = inl (Js.out_of_range delay).
Proof.
  intros H. unfold Js.AbortSignal_timeout. now rewrite H.
Qed.

(** An integer below 2^53 is a double. *)
Lemma round_double_small (z : Z) :
  Z.abs z < 2 ^ 53 -> Js.round_double z = Js.Num z.
Proof.
  intros H. unfold Js.round_double.
  now replace (Z.abs z <? 2 ^ 53) with true by (symmetry; now apply Z.ltb_lt).
Qed.

(** The double of an integer that is not positive is not positive. *)
Lemma round_double_nonpos (z : Z) :
  z <= 0 ->
  match Js.round_double z with
  | Js.Num v => v <= 0
  | Js.NegInfinity => True
  | _ => False
  end.
Proof.
  intros Hz. unfold Js.round_double.
  destruct (Z.ltb_spec (Z.abs z) (2 ^ 53)) as [Hsmall|Hbig]; [exact Hz|].
  assert (Hneg : z < 0).
  { change (2 ^ 53) with 9007199254740992 in Hbig. lia. }
  replace (z <? 0) with true by (symmetry; now apply Z.ltb_lt).
  cbv zeta. destruct (2 ^ 1024 <=? _); [exact I|].
  match goal with
  | |- - Z.shiftl ?m ?e <= 0 =>
      assert (Hv : 0 <= Z.shiftl m e); [|lia]
  end.
  apply Z.shiftl_nonneg.
  match goal with
  | |- 0 <= (if ?b then ?n + 1 else ?n) =>
      assert (Hm : 0 <= n) by (apply Z.shiftr_nonneg; lia);
      destruct b; lia
  end.
Qed.

(** Three times a delay of at most 1431655765 ms is a valid delay. *)
Lemma signal_tripled (z : Z) :
  0 <= z <= 1431655765 ->
  Js.is_uint32 (Js.mul (Js.Num z) (Js.Num 3)) = true.
Proof.
  intros H. unfold Js.mul. cbn [Js.double].
  rewrite (round_double_small z)
    by (change (2 ^ 53) with 9007199254740992; lia).
  rewrite (round_double_small 3) by reflexivity.
  unfold Js.is_uint32, Js.double.
  rewrite !round_double_small
    by (change (2 ^ 53) with 9007199254740992; lia).
  apply andb_true_intro. split; apply Z.leb_le; lia.
Qed.

(** ** The job poller *)

Section Poller.
Import Http.

Context {num : Type}.
Variable w : World num.
Variable this : Client.StabilityClient.

(** The client's timeout is a delay that [AbortSignal.timeout] accepts. *)
Hypothesis valid : Js.is_uint32 (Client.timeout this) = true.

(** One round of the loop on a pending job: the delay, the poll, and the
    loop goes on with one attempt less. *)
Lemma poll_pending_step (gid : string) (remaining : nat) (t : list Event)
  (r : Response num) :
  server w (fetches t) (Spec.poll_request this gid) = Responded r ->
  status r = 202 ->
  Client.poll w this gid (S remaining) t
  = Client.poll w this gid remaining
      (t ++ [Sleep Client.pollInterval;
             Fetch (Spec.poll_request this gid)]).
Proof.
  intros Hsrv H202.
  cbn [Client.poll]. unfold bind at 1. unfold sleep, emit.
  unfold bind at 1. unfold lift. rewrite (signal_valid _ valid).
  unfold bind at 1. unfold fetch.
  rewrite fetches_app. cbn [fetches filter is_fetch length].
  rewrite Nat.add_0_r.
  fold (Spec.poll_request this gid). rewrite Hsrv.
  rewrite H202. cbn [Z.eqb Pos.eqb].
  rewrite <- app_assoc. reflexivity.
Qed.

(** [n] rounds on a job that stays pending. *)
Lemma poll_pending (gid : string) (n : nat) :
  forall (remaining : nat) (t : list Event),
    (forall j, (j < n)%nat ->
       exists r, server w (fetches t + j) (Spec.poll_request this gid)
                 = Responded r /\ status r = 202) ->
    Client.poll w this gid (n + remaining) t
    = Client.poll w this gid remaining
        (t ++ Spec.rounds (Spec.poll_request this gid) n).
Proof.
  induction n as [|n IH]; intros remaining t Hpending.
  - cbn [Spec.rounds plus]. now rewrite app_nil_r.
  - destruct (Hpending 0%nat) as [r [Hr H202]]; [lia|].
    rewrite Nat.add_0_r in Hr.
    cbn [plus]. rewrite (poll_pending_step gid _ t r Hr H202).
    rewrite IH.
    + rewrite <- app_assoc. reflexivity.
    + intros j Hj. destruct (Hpending (S j)) as [r' [Hr' H']]; [lia|].
      exists r'. split; [|exact H'].
      rewrite fetches_app. cbn [fetches filter is_fetch length].
      rewrite <- Hr'. f_equal. lia.
Qed.

(** The round that receives the result. *)
Lemma poll_done_step (gid : string) (remaining : nat) (t : list Event)
  (r : Response num) :
  server w (fetches t) (Spec.poll_request this gid) = Responded r ->
  status r <> 202 ->
  ok r = true ->
  Client.poll w this gid (S remaining) t
  = (inr (Client.decode r),
     t ++ [Sleep Client.pollInterval; Fetch (Spec.poll_request this gid)]).
Proof.
  intros Hsrv Hnot Hok.
  cbn [Client.poll]. unfold bind at 1. unfold sleep, emit.
  unfold bind at 1. unfold lift. rewrite (signal_valid _ valid).
  unfold bind at 1. unfold fetch.
  rewrite fetches_app. cbn [fetches filter is_fetch length].
  rewrite Nat.add_0_r.
  fold (Spec.poll_request this gid). rewrite Hsrv.
  apply Z.eqb_neq in Hnot. rewrite Hnot, Hok. cbn [negb].
  unfold ret. rewrite <- app_assoc. reflexivity.
Qed.

End Poller.

Section PollerProperties.
Import Http.

Context {num : Type}.
Variable w : World num.
Variable this : Client.StabilityClient.

(** The submission of a job that the service accepts with identifier
    [gid]: the loop starts with all its attempts. *)
Lemma submit_accepted (endpoint : string) (form : FormData) (gid : string)
  (r0 : Response num) (data0 : JsonBody num) :
  Js.is_uint32 (Client.timeout this) = true ->
  server w 0 (Spec.submit_request this endpoint form) = Responded r0 ->
  ok r0 = true ->
  json r0 = inr data0 ->
  Js.if_truthy (id data0) = Some gid ->
  run (Client.postImageAsync w this endpoint form)
  = Client.poll w this gid 60
      [Fetch (Spec.submit_request this endpoint form)].
Proof.
  intros Hvalid Hsrv Hok Hjson Hid.
  unfold run, Client.postImageAsync.
  unfold bind at 1. unfold lift. rewrite (signal_valid _ Hvalid).
  unfold bind at 1. unfold fetch.
  cbn [fetches filter length].
  fold (Spec.submit_request this endpoint form). rewrite Hsrv.
  rewrite Hok. cbn [negb]. unfold bind at 1. unfold lift.
  rewrite Hjson, Hid. reflexivity.
Qed.

(** C1.  For a client whose timeout is a delay that [AbortSignal.timeout]
    accepts (an integer from 0 to 4294967295, as the default 60000 is):
    when the service accepts the job, answers 202 to the first [n]
    polls (fewer than the 60 attempts) and a non-202 success to the next
    one, the poller returns the body of that response, with the format
    derived from its content-type header, and what it did is: the
    submission, then [n + 1] rounds of a 5000 ms delay followed by a poll;
    so it waited exactly [n + 1] intervals. *)
Theorem poller_returns_first_result (endpoint : string) (form : FormData)
  (gid : string) (n : nat) (r0 R : Response num) (data0 : JsonBody num) :
  Js.is_uint32 (Client.timeout this) = true ->
  server w 0 (Spec.submit_request this endpoint form) = Responded r0 ->
  ok r0 = true ->
  json r0 = inr data0 ->
  Js.if_truthy (id data0) = Some gid ->
  (n < 60)%nat ->
  (forall j, (j < n)%nat ->
     exists r, server w (1 + j) (Spec.poll_request this gid) = Responded r
               /\ status r = 202) ->
  server w (1 + n) (Spec.poll_request this gid) = Responded R ->
  status R <> 202 ->
  ok R = true ->
  let trace :=
    Fetch (Spec.submit_request this endpoint form)
      :: Spec.rounds (Spec.poll_request this gid) (S n) in
  run (Client.postImageAsync w this endpoint form)
  = (inr (Client.decode R), trace)
  /\ Client.data (Client.decode R) = content R
  /\ Client.format (Client.decode R)
     = Spec.format_of (headers_get (headers R) "content-type")
  /\ sleeps trace = S n
  /\ slept trace = 5000 * Z.of_nat (S n)
  /\ fetches trace = S (S n).
Proof.
  intros Hvalid Hsrv Hok Hjson Hid Hn Hpending HR Hnot HokR trace.
  split; [|split; [|split; [|split; [|split]]]].
  - rewrite (submit_accepted endpoint form gid r0 data0
               Hvalid Hsrv Hok Hjson Hid).
    replace 60%nat with (n + S (59 - n))%nat by lia.
    rewrite (poll_pending w this Hvalid) by exact Hpending.
    rewrite (poll_done_step w this Hvalid gid _ _ R).
    + subst trace. cbn [app]. rewrite rounds_snoc. reflexivity.
    + rewrite fetches_app, fetches_rounds. exact HR.
    + exact Hnot.
    + exact HokR.
  - reflexivity.
  - reflexivity.
  - subst trace. change (sleeps (Fetch ?r :: ?l)) with (sleeps l).
    apply sleeps_rounds.
  - subst trace. change (slept (Fetch ?r :: ?l)) with (slept l).
    apply slept_rounds.
  - subst trace. change (fetches (Fetch ?r :: ?l)) with (S (fetches l)).
    now rewrite fetches_rounds.
Qed.

(** C2.  For a client whose timeout is a delay that [AbortSignal.timeout]
    accepts: when the service accepts the job and answers 202 to each of the
    60 polls, the poller stops after exactly 60 rounds and throws the error
    "Async generation timed out after 300 seconds": an [Error] that is not
    the [TimeoutError] of an aborted request and whose message is not of
    one of the transport forms, which carry the HTTP status. *)
Theorem poller_times_out (endpoint : string) (form : FormData)
  (gid : string) (r0 : Response num) (data0 : JsonBody num) :
  Js.is_uint32 (Client.timeout this) = true ->
  server w 0 (Spec.submit_request this endpoint form) = Responded r0 ->
  ok r0 = true ->
  json r0 = inr data0 ->
  Js.if_truthy (id data0) = Some gid ->
  (forall j, (j < 60)%nat ->
     exists r, server w (1 + j) (Spec.poll_request this gid) = Responded r
               /\ status r = 202) ->
  let e := Js.new_Error "Async generation timed out after 300 seconds" in
  let polls := Spec.rounds (Spec.poll_request this gid) 60 in
  run (Client.postImageAsync w this endpoint form)
  = (inl e, Fetch (Spec.submit_request this endpoint form) :: polls)
  /\ fetches polls = 60%nat
  /\ sleeps polls = 60%nat
  /\ Js.name e <> "TimeoutError"%string
  /\ (forall code text,
        Js.message e
        <> ("Stability AI error (HTTP " ++ code ++ "): " ++ text)%string)
  /\ (forall code text,
        Js.message e
        <> ("Polling failed (HTTP " ++ code ++ "): " ++ text)%string).
Proof.
  intros Hvalid Hsrv Hok Hjson Hid Hpending e polls.
  split; [|split; [|split; [|split; [|split]]]].
  - rewrite (submit_accepted endpoint form gid r0 data0
               Hvalid Hsrv Hok Hjson Hid).
    replace 60%nat with (60 + 0)%nat at 1 by lia.
    rewrite (poll_pending w this Hvalid) by exact Hpending.
    reflexivity.
  - apply fetches_rounds.
  - apply sleeps_rounds.
  - discriminate.
  - intros code text. discriminate.
  - intros code text. discriminate.
Qed.

End PollerProperties.

(** The service of the example: job "abc123", three polls answered 202,
    the fourth 200 with a WebP body. *)
Lemma poller_returns_first_result_witness :
  let w := Examples.world_done_after 3 in
  let this := Examples.client in
  let endpoint := Config.UPSCALE_ENDPOINTS Config.creative in
  Http.run (Client.postImageAsync w this endpoint [])
  = (inr (Client.mkImage "WEBP-BYTES" "webp" None None),
     Http.Fetch (Spec.submit_request this endpoint [])
       :: Spec.rounds (Spec.poll_request this "abc123") 4)
  /\ Http.slept (Spec.rounds (Spec.poll_request this "abc123") 4) = 20000.
Proof.
  intros w this endpoint.
  destruct (poller_returns_first_result w this endpoint [] "abc123" 3
              (Examples.submitted "abc123")
              (Examples.image "image/webp" "WEBP-BYTES")
              (Http.mkJson (Some "abc123") None))
    as [Hrun [_ [_ [_ [Hslept _]]]]].
  - reflexivity.
  - reflexivity.
  - reflexivity.
  - reflexivity.
  - reflexivity.
  - lia.
  - intros j Hj. exists Examples.pending. split; [|reflexivity].
    destruct j as [|[|[|j]]]; try reflexivity; lia.
  - reflexivity.
  - discriminate.
  - reflexivity.
  - split; [exact Hrun | exact Hslept].
Defined.

Lemma poller_times_out_witness :
  let w := Examples.world_pending in
  let this := Examples.client in
  let endpoint := Config.UPSCALE_ENDPOINTS Config.creative in
  Http.run (Client.postImageAsync w this endpoint [])
  = (inl (Js.new_Error "Async generation timed out after 300 seconds"),
     Http.Fetch (Spec.submit_request this endpoint [])
       :: Spec.rounds (Spec.poll_request this "abc123") 60).
Proof.
  intros w this endpoint.
  destruct (poller_times_out w this endpoint [] "abc123"
              (Examples.submitted "abc123")
              (Http.mkJson (Some "abc123") None))
    as [Hrun _].
  - reflexivity.
  - reflexivity.
  - reflexivity.
  - reflexivity.
  - reflexivity.
  - intros j Hj. exists Examples.pending. split; reflexivity.
  - exact Hrun.
Defined.

(** ** Configuration *)

Section Configuration.

(** [loadConfig] throws exactly when the key is unset or empty, or the
    parsed timeout compares as at most zero. *)
Lemma loadConfig_throws_iff (env : Config.Env) :
  (exists e, Config.loadConfig env = inl e)
  <-> (Js.if_truthy (env "STABILITY_API_KEY") = None
       \/ exists str,
            Js.if_truthy (env "STABILITY_TIMEOUT") = Some str
            /\ Js.le (Js.parseInt str 10) (Js.Num 0) = true).
Proof.
  unfold Config.loadConfig.
  destruct (Js.if_truthy (env "STABILITY_API_KEY")) as [key|].
  - destruct (Js.if_truthy (env "STABILITY_TIMEOUT")) as [str|].
    + destruct (Js.le (Js.parseInt str 10) (Js.Num 0)) eqn:Hle.
      * split; [|intros _; eexists; reflexivity].
        intros _. right. exists str. auto.
      * split.
        -- intros [e He]. discriminate.
        -- intros [H0|[s [H Hs]]]; [discriminate|].
           injection H as <-. congruence.
    + cbn [Js.le Z.leb Z.compare]. split.
      * intros [e He]. discriminate.
      * intros [H0|[s [H _]]]; discriminate.
  - split; [intros _; now left | intros _; eexists; reflexivity].
Qed.

(** With no timeout supplied the configuration has 60000 ms. *)
Lemma loadConfig_default_timeout (env : Config.Env) (c : Config.Config) :
  Js.if_truthy (env "STABILITY_TIMEOUT") = None ->
  Config.loadConfig env = inr c ->
  Config.timeout c = Js.Num 60000.
Proof.
  unfold Config.loadConfig. intros Hnone.
  destruct (Js.if_truthy (env "STABILITY_API_KEY")); [|discriminate].
  rewrite Hnone. cbn. intros H. injection H as <-. reflexivity.
Qed.

(** The timeout of a loaded configuration is a positive integer, NaN or
    Infinity. *)
Lemma loadConfig_timeout (env : Config.Env) (c : Config.Config) :
  Config.loadConfig env = inr c ->
  Config.timeout c = Js.NaN
  \/ Config.timeout c = Js.Infinity
  \/ exists z, Config.timeout c = Js.Num z /\ 0 < z.
Proof.
  unfold Config.loadConfig.
  destruct (Js.if_truthy (env "STABILITY_API_KEY")); [|discriminate].
  match goal with
  | |- context [Js.le ?x _] => destruct x as [|z| |] eqn:Ht
  end.
  - cbn. intros H. injection H as <-. now left.
  - destruct (Js.le (Js.Num z) (Js.Num 0)) eqn:Hle; [discriminate|].
    intros H. injection H as <-. right. right.
    exists z. split; [reflexivity|].
    destruct (Z.ltb_spec 0 z) as [Hpos|Hnonpos]; [exact Hpos|].
    pose proof (round_double_nonpos z Hnonpos) as Hround.
    unfold Js.le in Hle. cbn [Js.double] in Hle.
    rewrite (round_double_small 0) in Hle by reflexivity.
    destruct (Js.round_double z) as [|x| |]; try contradiction;
      [|discriminate].
    apply Z.leb_le in Hround. congruence.
  - cbn. intros H. injection H as <-. right. now left.
  - cbn. discriminate.
Qed.

(** C9.  With the key set and [STABILITY_TIMEOUT=abc], [loadConfig] does
    not throw: it returns a configuration whose timeout is NaN, which is
    not a positive integer. *)
Theorem loadConfig_unparsable_timeout :
  Config.loadConfig
    (fun var =>
       if (var =? "STABILITY_API_KEY")%string then Some "sk-test"
       else if (var =? "STABILITY_TIMEOUT")%string then Some "abc"
       else None)
  = inr (Config.mkConfig "sk-test" Js.NaN "./generated-images"
           "./generated-3d").
Proof. reflexivity. Qed.

End Configuration.

(** ** Content types *)

Section ContentTypes.

(** C6.  The content type [getMimeType] gives to a path depends on the
    path only through its extension with the case of its letters ignored;
    it is a value of the table, [image/png] when the table has no entry;
    [x.jpeg], [x.JPG], [x.webp], [x.png] and [x.unknown_ext] get
    [image/jpeg], [image/jpeg], [image/webp], [image/png] and
    [image/png]. *)
Theorem mime_type_by_extension (p q : string) :
  Js.toLowerCase (Js.extname p) = Js.toLowerCase (Js.extname q) ->
  Client.getMimeType p = Client.getMimeType q
  /\ In (Client.getMimeType p)
        ["image/png"; "image/jpeg"; "image/webp"; "image/gif"; "image/bmp"]
  /\ (Client.lookup Client.mimeTypes (Js.toLowerCase (Js.extname p)) = None
      -> Client.getMimeType p = "image/png")
  /\ Client.getMimeType "x.jpeg" = "image/jpeg"
  /\ Client.getMimeType "x.JPG" = "image/jpeg"
  /\ Client.getMimeType "x.webp" = "image/webp"
  /\ Client.getMimeType "x.png" = "image/png"
  /\ Client.getMimeType "x.unknown_ext" = "image/png".
Proof.
  intros Hext.
  split; [unfold Client.getMimeType; now rewrite Hext|].
  split.
  - unfold Client.getMimeType.
    generalize (Js.toLowerCase (Js.extname p)) as ext. intros ext.
    unfold Client.mimeTypes. cbn [Client.lookup].
    repeat match goal with
           | |- context [if (?k =? ext)%string then _ else _] =>
               destruct (k =? ext)%string; [cbn; tauto|]
           end.
    cbn. tauto.
  - split; [|repeat split; reflexivity].
    unfold Client.getMimeType. intros ->. reflexivity.
Qed.

Lemma mime_type_by_extension_witness :
  Client.getMimeType "/work/photos/Cat.JPEG"
  = Client.getMimeType "scan.jpeg".
Proof.
  apply (mime_type_by_extension "/work/photos/Cat.JPEG" "scan.jpeg").
  reflexivity.
Defined.

End ContentTypes.

(** ** The effect monad *)

Section Effects.
Import Http Transport.

Lemma silent_ret {A} (a : A) : silent (ret a).
Proof. intros t. reflexivity. Qed.

Lemma silent_throw {A} (e : Js.Error) : silent (@throw A e).
Proof. intros t. reflexivity. Qed.

Lemma silent_lift {A} (r : Js.Error + A) : silent (lift r).
Proof. intros t. reflexivity. Qed.

Lemma silent_bind {A B} (c : M A) (k : A -> M B) :
  silent c -> (forall a, silent (k a)) -> silent (bind c k).
Proof.
  intros Hc Hk t. unfold bind. specialize (Hc t).
  destruct (c t) as [[e|a] t']; cbn [snd] in *; subst t'.
  - reflexivity.
  - apply Hk.
Qed.







(** A silent computation that fails makes the computation it starts fail
    with the same error, the trace untouched. *)
Lemma bind_fails {A B} (c : M A) (k : A -> M B) (e : Js.Error)
  (t : list Event) :
  c t = (inl e, t) -> bind c k t = (inl e, t).
Proof. intros H. unfold bind. now rewrite H. Qed.

Lemma bind_returns {A B} (c : M A) (k : A -> M B) (a : A)
  (t t' : list Event) :
  c t = (inr a, t') -> bind c k t = k a t'.
Proof. intros H. unfold bind. now rewrite H. Qed.

End Effects.

(** ** The request builder leaves no trace *)

Section BuilderSilent.
Import Http Transport.

Context {num : Type}.
Variable toString : num -> string.
Variable w : World num.

Lemma silent_fileBlob (filePath : string) :
  silent (Client.fileBlob w filePath).
Proof.
  unfold Client.fileBlob.
  destruct (negb (existsSync w (resolve w filePath))).
  - apply silent_throw.
  - apply silent_bind; [apply silent_lift | intros; apply silent_ret].
Qed.

Lemma silent_build (op : Dispatch.Operation num) :
  silent (Dispatch.build toString w op).
Proof.
  destruct op as [o|o|o|o|o|o|o|o|o|o|o|o|o|o|]; cbn [Dispatch.build];
    try apply silent_ret;
    [ unfold Client.generateImage_form
    | unfold Client.eraseObject_form
    | unfold Client.inpaint_form
    | unfold Client.outpaint_form
    | unfold Client.searchAndReplace_form
    | unfold Client.searchAndRecolor_form
    | unfold Client.removeBackground_form
    | unfold Client.replaceBackground_form
    | unfold Client.upscaleImage_form
    | unfold Client.controlSketch_form
    | unfold Client.controlSketch_form
    | unfold Client.controlStyle_form
    | unfold Client.styleTransfer_form
    | unfold Client.generate3D_form ];
    repeat first
      [ apply silent_ret
      | apply silent_throw
      | apply silent_fileBlob
      | apply silent_bind; [|intros ?]
      | match goal with
        | |- silent (match ?x with _ => _ end) => destruct x
        | |- silent (if ?x then _ else _) => destruct x
        end ].
Qed.

End BuilderSilent.

(** ** Transport: deadlines and errors *)

Section Deadlines.
Import Http Transport.

Context {num : Type}.
Variable toString : num -> string.
Variable w : World num.
Variable this : Client.StabilityClient.









(** A timeout whose triple [AbortSignal.timeout] refuses makes
    [postImage] throw the [RangeError] before anything is sent. *)
Lemma postImage_invalid_timeout (endpoint : string) (form : FormData)
  (t : list Event) :
  Js.is_uint32 (Js.mul (Client.timeout this) (Js.Num 3)) = false ->
  Client.postImage w this endpoint form t
  = (inl (Js.out_of_range (Js.mul (Client.timeout this) (Js.Num 3))), t).
Proof.
  intros Hinvalid. unfold Client.postImage, bind, lift.
  now rewrite (signal_invalid _ Hinvalid).
Qed.

(** A response outside the 2xx range makes [postImage] throw the generic
    transport error, which carries the status and the body. *)
Lemma postImage_not_ok (endpoint : string) (form : FormData)
  (r : Response num) (t : list Event) :
  Js.is_uint32 (Js.mul (Client.timeout this) (Js.Num 3)) = true ->
  server w (fetches t)
    (mkRequest (Config.API_BASE ++ endpoint) "POST"
       ("Bearer " ++ Client.apiKey this) (Some "image/*") (Some form)
       (Js.mul (Client.timeout this) (Js.Num 3)))
  = Responded r ->
  ok r = false ->
  fst (Client.postImage w this endpoint form t)
  = inl (Js.new_Error
           ("Stability AI error (HTTP " ++ Js.Z_toString (status r)
              ++ "): " ++ content r)%string).
Proof.
  intros Hvalid Hsrv Hok. unfold Client.postImage, bind, lift, fetch.
  rewrite (signal_valid _ Hvalid), Hsrv, Hok. reflexivity.
Qed.

(** A response in the 2xx range is decoded. *)
Lemma postImage_ok (endpoint : string) (form : FormData)
  (r : Response num) (t : list Event) :
  Js.is_uint32 (Js.mul (Client.timeout this) (Js.Num 3)) = true ->
  server w (fetches t)
    (mkRequest (Config.API_BASE ++ endpoint) "POST"
       ("Bearer " ++ Client.apiKey this) (Some "image/*") (Some form)
       (Js.mul (Client.timeout this) (Js.Num 3)))
  = Responded r ->
  ok r = true ->
  fst (Client.postImage w this endpoint form t) = inr (Client.decode r).
Proof.
  intros Hvalid Hsrv Hok. unfold Client.postImage, bind, lift, fetch.
  rewrite (signal_valid _ Hvalid), Hsrv, Hok. reflexivity.
Qed.


End Deadlines.

(** ** The parts of a body *)

Section Parts.
Import Http Spec Fields.

Context {num : Type}.
Variable toString : num -> string.

Lemma texts_app (f g : FormData) (name : string) :
  texts (f ++ g) name = texts f name ++ texts g name.
Proof.
  induction f as [|[n [v|b]] f IH]; cbn [texts app].
  - reflexivity.
  - destruct (n =? name)%string; cbn [app]; now rewrite IH.
  - exact IH.
Qed.

Lemma files_app (f g : FormData) (name : string) :
  files (f ++ g) name = files f name ++ files g name.
Proof.
  induction f as [|[n [v|b]] f IH]; cbn [files app].
  - reflexivity.
  - exact IH.
  - destruct (n =? name)%string; cbn [app]; now rewrite IH.
Qed.

Lemma has_part_app (f g : FormData) (name : string) :
  has_part (f ++ g) name = has_part f name || has_part g name.
Proof. unfold has_part. apply existsb_app. Qed.

Lemma texts_append_text (f : FormData) (n v name : string) :
  texts (append f n (Text v)) name
  = texts f name ++ (if (n =? name)%string then [v] else []).
Proof.
  unfold append. rewrite texts_app. cbn [texts].
  now destruct (n =? name)%string.
Qed.

Lemma texts_append_file (f : FormData) (n : string) (b : Blob)
  (name : string) :
  texts (append f n (File b)) name = texts f name.
Proof. unfold append. rewrite texts_app. cbn [texts]. apply app_nil_r. Qed.

Lemma texts_append_truthy (f : FormData) (n : string) (o : option string)
  (name : string) :
  texts (Client.append_truthy f n o) name
  = texts f name ++ (if (n =? name)%string then olist (Js.if_truthy o)
                     else []).
Proof.
  unfold Client.append_truthy. destruct (Js.if_truthy o) as [v|].
  - apply texts_append_text.
  - cbn [olist]. destruct (n =? name)%string; now rewrite app_nil_r.
Qed.

Lemma texts_append_defined (f : FormData) (n : string) (o : option num)
  (name : string) :
  texts (Client.append_defined toString f n o) name
  = texts f name ++ (if (n =? name)%string
                     then olist (option_map toString o) else []).
Proof.
  unfold Client.append_defined. destruct o as [v|].
  - apply texts_append_text.
  - cbn [olist option_map]. destruct (n =? name)%string; now rewrite app_nil_r.
Qed.

Lemma files_append_text (f : FormData) (n v name : string) :
  files (append f n (Text v)) name = files f name.
Proof. unfold append. rewrite files_app. cbn [files]. apply app_nil_r. Qed.

Lemma files_append_file (f : FormData) (n : string) (b : Blob)
  (name : string) :
  files (append f n (File b)) name
  = files f name ++ (if (n =? name)%string then [b] else []).
Proof.
  unfold append. rewrite files_app. cbn [files].
  now destruct (n =? name)%string.
Qed.

Lemma files_append_truthy (f : FormData) (n : string) (o : option string)
  (name : string) :
  files (Client.append_truthy f n o) name = files f name.
Proof.
  unfold Client.append_truthy. destruct (Js.if_truthy o);
    [apply files_append_text | reflexivity].
Qed.

Lemma files_append_defined (f : FormData) (n : string) (o : option num)
  (name : string) :
  files (Client.append_defined toString f n o) name = files f name.
Proof.
  unfold Client.append_defined. destruct o;
    [apply files_append_text | reflexivity].
Qed.

(** A body has a part of a name when it has a text or a file of that
    name. *)
Lemma has_part_texts_files (f : FormData) (name : string) :
  has_part f name = false <-> texts f name = [] /\ files f name = [].
Proof.
  unfold has_part.
  induction f as [|[n [v|b]] f IH]; cbn [existsb texts files fst].
  - tauto.
  - destruct (n =? name)%string; cbn [orb].
    + split; [discriminate | intros [H _]; discriminate].
    + exact IH.
  - destruct (n =? name)%string; cbn [orb].
    + split; [discriminate | intros [_ H]; discriminate].
    + exact IH.
Qed.

End Parts.

Create Rewrite HintDb parts.

#[local] Hint Rewrite @texts_append_text @texts_append_file
  @texts_append_truthy @texts_append_defined
  @files_append_text @files_append_file
  @files_append_truthy @files_append_defined : parts.

(** ** Reading files *)

Section FileBlob.
Import Http.

Context {num : Type}.
Variable w : World num.

Lemma fileBlob_missing (p : string) (t : list Event) :
  existsSync w (resolve w p) = false ->
  Client.fileBlob w p t
  = (inl (Js.new_Error ("File not found: " ++ resolve w p)%string), t).
Proof.
  intros H. unfold Client.fileBlob. rewrite H. reflexivity.
Qed.

Lemma fileBlob_read (p : string) (bytes : string) (t : list Event) :
  existsSync w (resolve w p) = true ->
  readFileSync w (resolve w p) = inr bytes ->
  Client.fileBlob w p t
  = (inr (mkBlob bytes (Client.getMimeType (resolve w p))), t).
Proof.
  intros H Hr. unfold Client.fileBlob. rewrite H. cbn [negb].
  unfold bind, lift. rewrite Hr. reflexivity.
Qed.

Lemma fileBlob_unreadable (p : string) (e : Js.Error) (t : list Event) :
  existsSync w (resolve w p) = true ->
  readFileSync w (resolve w p) = inl e ->
  Client.fileBlob w p t = (inl e, t).
Proof.
  intros H Hr. unfold Client.fileBlob. rewrite H. cbn [negb].
  unfold bind, lift. rewrite Hr. reflexivity.
Qed.

(** [fileBlob] fails or gives the blob of the file, without a trace. *)
Lemma fileBlob_cases (p : string) (t : list Event) :
  (exists e, Client.fileBlob w p t = (inl e, t))
  \/ (exists bytes,
        existsSync w (resolve w p) = true
        /\ readFileSync w (resolve w p) = inr bytes
        /\ Client.fileBlob w p t
           = (inr (mkBlob bytes (Client.getMimeType (resolve w p))), t)).
Proof.
  destruct (existsSync w (resolve w p)) eqn:Hex.
  - destruct (readFileSync w (resolve w p)) as [e|bytes] eqn:Hr.
    + left. exists e. now apply fileBlob_unreadable.
    + right. exists bytes. repeat split. now apply fileBlob_read.
  - left. eexists. now apply fileBlob_missing.
Qed.

End FileBlob.

(** ** Image generation: the body *)

Ltac parts_simpl :=
  autorewrite with parts;
  cbn [String.eqb Ascii.eqb Bool.eqb app Fields.olist Spec.texts Spec.files].

(** Evaluates the tests [model.startsWith('sd3.5')] on a known model. *)
Ltac eval_startsWith :=
  repeat match goal with
         | |- context [Js.startsWith (Config.model_key ?m) ?p] =>
             let v := eval vm_compute in (Js.startsWith (Config.model_key m) p)
             in change (Js.startsWith (Config.model_key m) p) with v
         end.

Section Generation.
Import Http Spec Fields.

Context {num : Type}.
Variable toString : num -> string.
Variable w : World num.

(** C5.  For the model sd3.5-large: without an image the body has the
    parts mode=text-to-image and model=sd3.5-large and no part named image
    or strength; with the path of a readable file it has
    mode=image-to-image, model=sd3.5-large, the file as the one image part,
    and a strength part exactly when the caller supplied a strength. *)
Theorem sd35_large_modes (o : Options.GenerateImage.t num)
  (t : list Event) :
  Options.GenerateImage.model o = Some Config.sd3_5_large ->
  (Js.if_truthy (Options.GenerateImage.image o) = None ->
   exists form,
     Client.generateImage_form toString w o t = (inr form, t)
     /\ texts form "mode" = ["text-to-image"]
     /\ texts form "model" = ["sd3.5-large"]
     /\ has_part form "image" = false
     /\ has_part form "strength" = false)
  /\ (forall p bytes,
        Js.if_truthy (Options.GenerateImage.image o) = Some p ->
        existsSync w (resolve w p) = true ->
        readFileSync w (resolve w p) = inr bytes ->
        exists form,
          Client.generateImage_form toString w o t = (inr form, t)
          /\ texts form "mode" = ["image-to-image"]
          /\ texts form "model" = ["sd3.5-large"]
          /\ files form "image"
             = [mkBlob bytes (Client.getMimeType (resolve w p))]
          /\ texts form "image" = []
          /\ texts form "strength"
             = olist (option_map toString (Options.GenerateImage.strength o))
          /\ files form "strength" = []).
Proof.
  intros Hmodel. split.
  - intros Himage.
    unfold Client.generateImage_form. rewrite Hmodel, Himage.
    cbv beta iota zeta. eval_startsWith.
    cbv beta iota zeta. unfold bind, ret.
    destruct (Js.if_truthy (Options.GenerateImage.stylePreset o));
      cbn [orb]; eexists; (split; [reflexivity|]);
      rewrite !has_part_texts_files; parts_simpl; repeat split.
  - intros p bytes Himage Hex Hread.
    unfold Client.generateImage_form. rewrite Hmodel, Himage.
    cbv beta iota zeta. eval_startsWith.
    cbv beta iota zeta. unfold bind, ret. cbv beta.
    rewrite (fileBlob_read w p bytes t Hex Hread).
    destruct (Js.if_truthy (Options.GenerateImage.stylePreset o));
      cbn [orb]; eexists; (split; [reflexivity|]);
      parts_simpl; rewrite ?app_nil_r; repeat split.
Qed.

(** The image part of a generation body: with a model that takes an
    image, the file of the image the caller gave; none otherwise. *)
Lemma generation_image_part (o : Options.GenerateImage.t num)
  (t t' : list Event) (form : FormData) :
  Client.generateImage_form toString w o t = (inr form, t') ->
  has_part form "image" = true ->
  takes_image (Options.GenerateImage.model o) = true
  /\ exists p, Js.if_truthy (Options.GenerateImage.image o) = Some p.
Proof.
  unfold Client.generateImage_form.
  destruct (Options.GenerateImage.model o) as [[| | | |]|];
    cbv beta iota zeta; eval_startsWith; cbv beta iota zeta;
    (destruct (Js.if_truthy (Options.GenerateImage.image o)) as [p|];
     [ try (split; [reflexivity | now exists p]) | ]);
    unfold bind, ret; cbv beta;
    destruct (Js.if_truthy (Options.GenerateImage.stylePreset o));
    cbn [orb]; intros Hform; injection Hform as <- _; intros Hpart;
    exfalso; revert Hpart;
    (assert (Hno : forall f, has_part f "image" = false ->
                             has_part f "image" = true -> False)
       by (intros f ->; discriminate));
    apply Hno; rewrite has_part_texts_files; parts_simpl; now split.
Qed.

(** C10.  For the model core, given or by default, the body of a
    generation request is built whatever the image path is, with no part
    named image, strength or mode; and a generation body with an image
    part is one of a request for the ultra or an sd3.5 model. *)
Theorem core_ignores_image (o : Options.GenerateImage.t num)
  (t : list Event) :
  Options.GenerateImage.model o = None
  \/ Options.GenerateImage.model o = Some Config.core ->
  (exists form,
     Client.generateImage_form toString w o t = (inr form, t)
     /\ has_part form "image" = false
     /\ has_part form "strength" = false
     /\ has_part form "mode" = false)
  /\ (forall o' u u' form',
        Client.generateImage_form toString w o' u = (inr form', u') ->
        has_part form' "image" = true ->
        In (Options.GenerateImage.model o')
           [Some Config.ultra; Some Config.sd3_5_large;
            Some Config.sd3_5_large_turbo; Some Config.sd3_5_medium]).
Proof.
  intros Hmodel. split.
  - unfold Client.generateImage_form.
    destruct Hmodel as [-> | ->];
      cbv beta iota zeta; eval_startsWith; cbv beta iota zeta;
      unfold bind, ret; cbv beta;
      destruct (Js.if_truthy (Options.GenerateImage.image o));
      destruct (Js.if_truthy (Options.GenerateImage.stylePreset o));
      cbn [orb]; eexists; (split; [reflexivity|]);
      rewrite !has_part_texts_files; parts_simpl; repeat split.
  - intros o' u u' form' Hform Hpart.
    destruct (generation_image_part o' u u' form' Hform Hpart) as [Htakes _].
    destruct (Options.GenerateImage.model o') as [[| | | |]|];
      cbn [takes_image] in Htakes; try discriminate; cbn; tauto.
Qed.

End Generation.

(** ** Optional fields *)

(** Splits on the outcome of the next [fileBlob] of a builder. *)
Ltac fileBlob_step w :=
  match goal with
  | |- context [Client.fileBlob w ?p ?t] =>
      let e := fresh "e" in
      let He := fresh "He" in
      let bytes := fresh "bytes" in
      let Hb := fresh "Hb" in
      destruct (fileBlob_cases w p t) as [[e He]|[bytes [_ [_ Hb]]]];
      [ rewrite He | rewrite Hb ]; cbv beta iota
  end.

Ltac build_outcome w :=
  unfold Http.bind, Http.ret; cbv beta iota zeta;
  repeat (fileBlob_step w);
  try discriminate.

(** Takes each optional field of the operation in turn. *)
Ltac each_field :=
  let Hform := fresh "Hform" in
  let Hin := fresh "Hin" in
  intros Hform Hin;
  repeat destruct Hin as [Hin|Hin]; try contradiction;
  injection Hin as <- <-; revert Hform;
  cbn [Fields.takes Fields.wire String.eqb Ascii.eqb Bool.eqb].

(** Reads the parts of the body that the builder returned. *)
Ltac read_parts :=
  let Hform := fresh "Hform" in
  intros Hform; injection Hform as <- _;
  cbn [Fields.takes_image andb];
  parts_simpl; rewrite ?app_nil_r; split; reflexivity.

Section OptionalFields.
Import Http Spec Fields Dispatch.

Context {num : Type}.
Variable toString : num -> string.
Variable w : World num.

(** In the body an operation builds, an optional text or numeric field
    that its variant takes has one text part when the caller gave it a
    value (a non-empty one, for a text) and this part holds that value; it
    has no part when the caller gave none, or an empty text, or when the
    variant does not take the field. *)
Theorem optional_fields_on_the_wire (op : Operation num)
  (t t' : list Event) (form : FormData) (name : string)
  (f : Supplied num) :
  build toString w op t = (inr form, t') ->
  In (name, f) (optional_fields op) ->
  texts form name = olist (if takes op name then wire toString f else None)
  /\ files form name = [].
Proof.
  destruct op as [o|o|o|o|o|o|o|o|o|o|o|o|o|o|];
    cbn [build optional_fields In]; try tauto; each_field.
  1-5:
    unfold Client.generateImage_form;
    destruct (Options.GenerateImage.model o) as [[| | | |]|];
    cbv beta iota zeta; eval_startsWith; cbv beta iota zeta;
    destruct (Js.if_truthy (Options.GenerateImage.image o));
    build_outcome w;
    destruct (Js.if_truthy (Options.GenerateImage.stylePreset o));
    cbn [orb]; read_parts.
  1-2:
    unfold Client.inpaint_form; build_outcome w;
    destruct (Js.if_truthy (Options.Inpaint.mask o));
    build_outcome w; read_parts.
  1-6: unfold Client.outpaint_form; build_outcome w; read_parts.
  1-2: unfold Client.searchAndReplace_form; build_outcome w; read_parts.
  1-2: unfold Client.searchAndRecolor_form; build_outcome w; read_parts.
  1-4: unfold Client.replaceBackground_form; build_outcome w; read_parts.
  1-4:
    unfold Client.upscaleImage_form, Client.upscale_mode; build_outcome w;
    destruct (Options.UpscaleImage.mode o) as [[| |]|]; read_parts.
  1-6: unfold Client.controlSketch_form; build_outcome w; read_parts.
  1-3: unfold Client.controlStyle_form; build_outcome w; read_parts.
  1-3: unfold Client.styleTransfer_form; build_outcome w; read_parts.
  all:
    unfold Client.generate3D_form, Client.threeD_model; build_outcome w;
    destruct (Options.Generate3D.model o) as [[|]|]; read_parts.
Qed.

End OptionalFields.

(** ** Missing files *)

Ltac in_list := cbn [In Fields.olist]; repeat (first [left; reflexivity | right]).

(** Splits on the state of the next file the builder reads; the goal
    that remains is the one where the file was read. *)
Ltac file_cases w :=
  match goal with
  | |- context [Client.fileBlob w ?p ?t] =>
      let Hex := fresh "Hex" in
      let Hrd := fresh "Hrd" in
      let Hr := fresh "Hr" in
      let e := fresh "e" in
      let bytes := fresh "bytes" in
      destruct (Http.existsSync w (Http.resolve w p)) eqn:Hex;
      [ destruct (Http.readFileSync w (Http.resolve w p)) as [e|bytes] eqn:Hrd;
        [ rewrite (fileBlob_unreadable w p e t Hex Hrd); cbv beta iota;
          eexists; split; [reflexivity|];
          intros Hr; exfalso;
          destruct (Hr p) as [? ?]; [ in_list | assumption | congruence ]
        | rewrite (fileBlob_read w p bytes t Hex Hrd); cbv beta iota ]
      | rewrite (fileBlob_missing w p t Hex); cbv beta iota;
        eexists; split; [reflexivity|]; intros _; exists p;
        split; [in_list | split; [assumption | reflexivity]] ]
  end.

(** Every attached file was found: no file is missing. *)
Ltac none_missing :=
  match goal with
  | Hin : In _ _, Hmiss : _ = false |- _ =>
      exfalso; cbn [In Fields.olist] in Hin;
      repeat (destruct Hin as [Hin|Hin]; [subst; congruence|]);
      try contradiction
  end.

Section MissingFiles.
Import Http Spec Fields Dispatch.

Context {num : Type}.
Variable toString : num -> string.
Variable w : World num.

(** When a file to attach is missing the builder throws and leaves no
    trace; when moreover the files that exist can be read, the error names
    the resolved path of a missing file. *)
Lemma build_missing (op : Operation num) (t : list Event) :
  (exists p, In p (attached op) /\ existsSync w (resolve w p) = false) ->
  exists e,
    build toString w op t = (inl e, t)
    /\ ((forall p, In p (attached op) ->
           existsSync w (resolve w p) = true ->
           exists bytes, readFileSync w (resolve w p) = inr bytes) ->
        exists q,
          In q (attached op)
          /\ existsSync w (resolve w q) = false
          /\ e = Js.new_Error ("File not found: " ++ resolve w q)%string).
Proof.
  intros [p [Hin Hmiss]].
  destruct op as [o|o|o|o|o|o|o|o|o|o|o|o|o|o|];
    cbn [build attached] in *.
  - unfold Client.generateImage_form.
    destruct (Options.GenerateImage.model o) as [[| | | |]|];
      cbn [takes_image] in *; try contradiction;
      cbv beta iota zeta; eval_startsWith; cbv beta iota zeta;
      (destruct (Js.if_truthy (Options.GenerateImage.image o)) as [q|];
       [|contradiction]);
      unfold bind, ret; cbv beta iota; file_cases w; none_missing.
  - unfold Client.eraseObject_form, bind, ret. cbv beta iota zeta.
    file_cases w.
    destruct (Js.if_truthy (Options.EraseObject.mask o)) as [q|];
      [file_cases w|]; none_missing.
  - unfold Client.inpaint_form, bind, ret. cbv beta iota zeta.
    file_cases w.
    destruct (Js.if_truthy (Options.Inpaint.mask o)) as [q|];
      [file_cases w|]; none_missing.
  - unfold Client.outpaint_form, bind, ret. cbv beta iota zeta.
    file_cases w. none_missing.
  - unfold Client.searchAndReplace_form, bind, ret. cbv beta iota zeta.
    file_cases w. none_missing.
  - unfold Client.searchAndRecolor_form, bind, ret. cbv beta iota zeta.
    file_cases w. none_missing.
  - unfold Client.removeBackground_form, bind, ret. cbv beta iota zeta.
    file_cases w. none_missing.
  - unfold Client.replaceBackground_form, bind, ret. cbv beta iota zeta.
    file_cases w. none_missing.
  - unfold Client.upscaleImage_form, bind, ret. cbv beta iota zeta.
    file_cases w. none_missing.
  - unfold Client.controlSketch_form, bind, ret. cbv beta iota zeta.
    file_cases w. none_missing.
  - unfold Client.controlSketch_form, bind, ret. cbv beta iota zeta.
    file_cases w. none_missing.
  - unfold Client.controlStyle_form, bind, ret. cbv beta iota zeta.
    file_cases w. none_missing.
  - unfold Client.styleTransfer_form, bind, ret. cbv beta iota zeta.
    file_cases w. file_cases w. none_missing.
  - unfold Client.generate3D_form, bind, ret. cbv beta iota zeta.
    file_cases w. none_missing.
  - contradiction.
Qed.

Variable this : Client.StabilityClient.

(** A call whose body cannot be built fails as the builder did, before
    its request. *)
Lemma perform_build_fails (op : Operation num) (e : Js.Error)
  (t : list Event) :
  build toString w op t = (inl e, t) ->
  perform toString w this op t = (inl e, t).
Proof.
  intros Hbuild.
  destruct op as [o|o|o|o|o|o|o|o|o|o|o|o|o|o|];
    cbn [build perform] in *; unfold map;
    try discriminate;
    apply bind_fails;
    [ unfold Client.generateImage
    | unfold Client.eraseObject
    | unfold Client.inpaint
    | unfold Client.outpaint
    | unfold Client.searchAndReplace
    | unfold Client.searchAndRecolor
    | unfold Client.removeBackground
    | unfold Client.replaceBackground
    | unfold Client.upscaleImage
    | unfold Client.controlSketch
    | unfold Client.controlStructure
    | unfold Client.controlStyle
    | unfold Client.styleTransfer
    | unfold Client.generate3D ];
    now apply bind_fails.
Qed.

End MissingFiles.

(** ** The tool handlers and missing files *)

Section HandlerChecks.
Import Http Spec Fields Dispatch Rejection.

Context {num : Type}.
Variable toString : num -> string.
Variable toFixed : num -> Z -> string.
Variable w : World num.
Variable config : Config.Config.
Variable dirname : string -> string.
Variable now : string.

Lemma if_truthy_some (o : option string) (p : string) :
  Js.if_truthy o = Some p -> o = Some p.
Proof.
  destruct o as [s|]; cbn; [|discriminate].
  destruct (Js.truthy s); [now intros [= ->] | discriminate].
Qed.

(** The check of each handler: a missing file is answered with the words
    of the handler and the path as the caller gave it, and nothing else
    happens. *)
Lemma call_tool_missing (request : Server.ToolCall num) (t : list Event) :
  (exists label p,
     In (label, p) (checked request)
     /\ existsSync w (resolve w p) = false) ->
  exists label q,
    In (label, q) (checked request)
    /\ existsSync w (resolve w q) = false
    /\ Server.call_tool toString toFixed w config dirname now request t
       = (inr (error_result (label ++ " not found: " ++ q)%string), t).
Proof.
  intros [label [p [Hin Hmiss]]].
  destruct request as [i|i|i|i|i|i|i|i|i|i|i|i|i|i| |name];
    cbn [checked] in *; try contradiction;
    unfold Server.call_tool, try_catch.
  - unfold Server.handle_generate_image.
    destruct (Js.if_truthy (Input.GenerateImage.image_path i)) as [q|] eqn:Hq;
      [|contradiction].
    destruct Hin as [[= <- <-]|[]]. rewrite Hmiss.
    rewrite (if_truthy_some _ _ Hq).
    exists "Source image", q. split; [in_list | split; [exact Hmiss | reflexivity]].
  - unfold Server.handle_erase_object.
    destruct Hin as [[= <- <-]|[]]. rewrite Hmiss.
    eexists _, _. split; [in_list | split; [exact Hmiss | reflexivity]].
  - unfold Server.handle_inpaint.
    destruct Hin as [[= <- <-]|[]]. rewrite Hmiss.
    eexists _, _. split; [in_list | split; [exact Hmiss | reflexivity]].
  - unfold Server.handle_outpaint.
    destruct Hin as [[= <- <-]|[]]. rewrite Hmiss.
    eexists _, _. split; [in_list | split; [exact Hmiss | reflexivity]].
  - unfold Server.handle_search_and_replace.
    destruct Hin as [[= <- <-]|[]]. rewrite Hmiss.
    eexists _, _. split; [in_list | split; [exact Hmiss | reflexivity]].
  - unfold Server.handle_search_and_recolor.
    destruct Hin as [[= <- <-]|[]]. rewrite Hmiss.
    eexists _, _. split; [in_list | split; [exact Hmiss | reflexivity]].
  - unfold Server.handle_remove_background.
    destruct Hin as [[= <- <-]|[]]. rewrite Hmiss.
    eexists _, _. split; [in_list | split; [exact Hmiss | reflexivity]].
  - unfold Server.handle_replace_background.
    destruct Hin as [[= <- <-]|[]]. rewrite Hmiss.
    eexists _, _. split; [in_list | split; [exact Hmiss | reflexivity]].
  - unfold Server.handle_upscale_image.
    destruct Hin as [[= <- <-]|[]]. rewrite Hmiss.
    eexists _, _. split; [in_list | split; [exact Hmiss | reflexivity]].
  - unfold Server.handle_control_sketch.
    destruct Hin as [[= <- <-]|[]]. rewrite Hmiss.
    eexists _, _. split; [in_list | split; [exact Hmiss | reflexivity]].
  - unfold Server.handle_control_structure.
    destruct Hin as [[= <- <-]|[]]. rewrite Hmiss.
    eexists _, _. split; [in_list | split; [exact Hmiss | reflexivity]].
  - unfold Server.handle_control_style.
    destruct Hin as [[= <- <-]|[]]. rewrite Hmiss.
    eexists _, _. split; [in_list | split; [exact Hmiss | reflexivity]].
  - unfold Server.handle_style_transfer.
    destruct (existsSync w
                (resolve w (Input.StyleTransfer.init_image_path i)))
      eqn:Hinit.
    + destruct Hin as [[= <- <-]|[[= <- <-]|[]]]; [congruence|].
      rewrite Hmiss.
      exists "Style image", (Input.StyleTransfer.style_image_path i).
      split; [in_list | split; [exact Hmiss | reflexivity]].
    + exists "Content image", (Input.StyleTransfer.init_image_path i).
      split; [in_list | split; [exact Hinit | reflexivity]].
  - unfold Server.handle_generate_3d.
    destruct Hin as [[= <- <-]|[]]. rewrite Hmiss.
    eexists _, _. split; [in_list | split; [exact Hmiss | reflexivity]].
Qed.

(** The mask of [erase_object] is checked by the builder only: the
    handler answers with the error of [fileBlob]. *)
Lemma erase_object_missing_mask (input : Input.EraseObject.t)
  (mask bytes : string) (t : list Event) :
  existsSync w (resolve w (Input.EraseObject.image_path input)) = true ->
  readFileSync w (resolve w (Input.EraseObject.image_path input))
  = inr bytes ->
  Js.if_truthy (Input.EraseObject.mask_path input) = Some mask ->
  existsSync w (resolve w mask) = false ->
  Server.call_tool toString toFixed w config dirname now
    (Server.erase_object input) t
  = (inr (error_result
            ("Stability AI error: File not found: " ++ resolve w mask)%string),
     t).
Proof.
  intros Hex Hrd Hmask Hmiss.
  unfold Server.call_tool, try_catch, Server.handle_erase_object.
  rewrite Hex. cbn [negb].
  unfold Client.eraseObject, Client.eraseObject_form.
  cbn [Options.EraseObject.image Options.EraseObject.mask].
  unfold bind, ret. cbv beta iota zeta.
  rewrite (fileBlob_read w _ bytes t Hex Hrd). rewrite Hmask.
  cbv beta iota zeta.
  rewrite (fileBlob_missing w mask t Hmiss).
  reflexivity.
Qed.

Variable this : Client.StabilityClient.

(** C8, as the code has it.  When a file that the request builder of a
    client operation attaches does not exist, the call throws before any
    request: nothing is fetched, nothing is written; and where the files
    that do exist can be read, the error is "File not found: " followed by
    the resolved path of a missing file.  A tool handler checks its image
    paths before it calls the client: when one is missing it answers with
    an error result, "Image not found: " (or the words of the tool)
    followed by the path as the caller gave it, without a trace either. *)
Theorem missing_file_rejected (op : Operation num) :
  (exists p, In p (attached op) /\ existsSync w (resolve w p) = false) ->
  (exists e,
     run (perform toString w this op) = (inl e, [])
     /\ ((forall p, In p (attached op) ->
            existsSync w (resolve w p) = true ->
            exists bytes, readFileSync w (resolve w p) = inr bytes) ->
         exists q,
           In q (attached op)
           /\ existsSync w (resolve w q) = false
           /\ e = Js.new_Error ("File not found: " ++ resolve w q)%string))
  /\ (forall request,
        (exists label p,
           In (label, p) (checked request)
           /\ existsSync w (resolve w p) = false) ->
        exists label q,
          In (label, q) (checked request)
          /\ existsSync w (resolve w q) = false
          /\ run (Server.call_tool toString toFixed w config dirname now
                    request)
             = (inr (error_result (label ++ " not found: " ++ q)%string),
                [])).
Proof.
  intros Hmissing. split.
  - destruct (build_missing toString w op [] Hmissing) as [e [Hbuild Hmsg]].
    exists e. split; [|exact Hmsg].
    unfold run. now apply perform_build_fails.
  - intros request Hmiss. unfold run. now apply call_tool_missing.
Qed.

End HandlerChecks.

(** ** The properties on concrete calls *)

Section Concrete.
Import Http Spec Fields Dispatch Rejection.

Lemma sd35_large_modes_witness :
  (exists form,
     run (Client.generateImage_form Js.Z_toString Examples.w_jpg
            Examples.sd35_text)
     = (inr form, [])
     /\ texts form "mode" = ["text-to-image"]
     /\ texts form "model" = ["sd3.5-large"]
     /\ has_part form "image" = false
     /\ has_part form "strength" = false)
  /\ (exists form,
        run (Client.generateImage_form Js.Z_toString Examples.w_jpg
               Examples.sd35_image)
        = (inr form, [])
        /\ texts form "mode" = ["image-to-image"]
        /\ files form "image" = [mkBlob "PNG-BYTES" "image/jpeg"]
        /\ texts form "strength" = ["1"]).
Proof.
  split.
  - apply (sd35_large_modes Js.Z_toString Examples.w_jpg
             Examples.sd35_text []); reflexivity.
  - destruct (sd35_large_modes Js.Z_toString Examples.w_jpg
                Examples.sd35_image []) as [_ H]; [reflexivity|].
    destruct (H "in.JPG" "PNG-BYTES") as [form [Hrun [Hmode [_ [Hf [_ [Hs _]]]]]]];
      try reflexivity.
    exists form. repeat split; assumption.
Defined.

Lemma core_ignores_image_witness :
  exists form,
    run (Client.generateImage_form Js.Z_toString Examples.w_empty
           Examples.core_image)
    = (inr form, [])
    /\ has_part form "image" = false
    /\ has_part form "strength" = false
    /\ has_part form "mode" = false.
Proof.
  apply (core_ignores_image Js.Z_toString Examples.w_empty
           Examples.core_image []).
  left. reflexivity.
Defined.

(** C4, as it is stated, fails: a fast upscale is given a prompt and its
    body has no prompt part. *)
Lemma supplied_field_dropped :
  ~ (forall (op : Operation Z) (form : FormData) (name : string)
            (f : Supplied Z),
       fst (run (build Js.Z_toString Examples.w_png op)) = inr form ->
       In (name, f) (optional_fields op) ->
       (texts form name <> [] <-> supplied f = true)).
Proof.
  intros Hall.
  destruct (Hall (UpscaleImage Examples.fast_upscale)
              [("image", File (mkBlob "PNG-BYTES" "image/png"));
               ("output_format", Text "png")]
              "prompt" (TextField (Some "sharper"))) as [_ Hdropped].
  - reflexivity.
  - left. reflexivity.
  - apply Hdropped; reflexivity.
Qed.

Lemma optional_fields_on_the_wire_witness :
  exists form,
    run (build Js.Z_toString Examples.w_png
           (UpscaleImage Examples.creative_upscale))
    = (inr form, [])
    /\ texts form "seed" = ["7"]
    /\ texts form "prompt" = ["sharper"]
    /\ texts form "creativity" = [].
Proof.
  eexists. split; [reflexivity|].
  split; [|split].
  - apply (optional_fields_on_the_wire Js.Z_toString Examples.w_png
             (UpscaleImage Examples.creative_upscale) [] []
             _ "seed" (NumberField (Some 7))).
    + reflexivity.
    + in_list.
  - apply (optional_fields_on_the_wire Js.Z_toString Examples.w_png
             (UpscaleImage Examples.creative_upscale) [] []
             _ "prompt" (TextField (Some "sharper"))).
    + reflexivity.
    + in_list.
  - apply (optional_fields_on_the_wire Js.Z_toString Examples.w_png
             (UpscaleImage Examples.creative_upscale) [] []
             _ "creativity" (NumberField None)).
    + reflexivity.
    + in_list.
Defined.


(** C8, as it is stated, fails: the picture of an erase is missing and
    the answer names "pic.png", not the resolved path "/work/pic.png". *)
Lemma erase_object_names_given_path :
  let outcome :=
    run (Examples.call_tool Examples.w_empty
           (Server.erase_object Examples.erase_pic)) in
  existsSync Examples.w_empty (resolve Examples.w_empty "pic.png") = false
  /\ resolve Examples.w_empty "pic.png" = "/work/pic.png"
  /\ outcome = (inr (error_result "Image not found: pic.png"), [])
  /\ ~ carries_path (fst outcome) (resolve Examples.w_empty "pic.png").
Proof.
  split; [reflexivity|]. split; [reflexivity|]. split; [reflexivity|].
  intros [_ [text [Hin Hinc]]].
  destruct Hin as [Heq|[]]. injection Heq as <-. discriminate.
Qed.

Lemma missing_file_rejected_witness :
  run (perform Js.Z_toString Examples.w_png Examples.client
         (EraseObject Examples.erase_masked))
  = (inl (Js.new_Error "File not found: /work/mask.png"), [])
  /\ run (Examples.call_tool Examples.w_png
            (Server.style_transfer
               (Input.StyleTransfer.mk "in.png" "style.png" None None None
                  None None)))
     = (inr (error_result "Style image not found: style.png"), []).
Proof.
  destruct (missing_file_rejected Js.Z_toString Examples.toFixed_int
              Examples.w_png Examples.config
              Examples.dirname_out Examples.noon Examples.client
              (EraseObject Examples.erase_masked))
    as [[e [Hrun Hmsg]] Hhandler].
  - exists "mask.png". split; [in_list | reflexivity].
  - split.
    + rewrite Hrun. f_equal. f_equal.
      destruct Hmsg as [q [Hin [Hmiss ->]]].
      * intros p _ _. exists "PNG-BYTES". reflexivity.
      * cbn in Hin. destruct Hin as [<-|[<-|[]]]; [discriminate|reflexivity].
    + destruct (Hhandler
                  (Server.style_transfer
                     (Input.StyleTransfer.mk "in.png" "style.png" None None
                        None None None)))
        as [label [q [Hin [Hmiss Hcall]]]].
      * exists "Style image", "style.png". split; [in_list | reflexivity].
      * unfold Examples.call_tool. rewrite Hcall.
        cbn in Hin. destruct Hin as [[= <- <-]|[[= <- <-]|[]]];
          [discriminate | reflexivity].
Defined.

(** C3.  The transport answers a 401, a 403, a 429 and a 402 with the
    generic error that carries the status code and the body, and the
    handler hands it on as it is; the messages of [handleError] are not
    used, although [handleError] would map the error of a 401 to its
    message about the key. *)
Theorem status_errors_are_generic :
  Forall
    (fun code =>
       let w := Examples.world_answering (Examples.failure code "denied") [] in
       let req :=
         mkRequest
           "https://api.stability.ai/v2beta/stable-image/generate/core"
           "POST" "Bearer sk-test" (Some "image/*")
           (Some [("prompt", Text "a lighthouse");
                  ("output_format", Text "png")])
           (Js.Num 180000) in
       run (Client.generateImage Js.Z_toString w Examples.client
              Examples.core_plain)
       = (inl (Js.new_Error
                 ("Stability AI error (HTTP " ++ Js.Z_toString code
                    ++ "): denied")%string),
          [Fetch req])
       /\ run (Examples.call_tool w
                 (Server.generate_image Examples.generate_plain))
          = (inr (error_result
                    ("Stability AI error: Stability AI error (HTTP "
                       ++ Js.Z_toString code ++ "): denied")%string),
             [Fetch req]))
    [401; 403; 429; 402]
  /\ Client.handleError
       (Js.new_Error "Stability AI error (HTTP 401): denied")
     = Js.new_Error
         "Invalid Stability AI API key. Please check your STABILITY_API_KEY environment variable.".
Proof.
  split; [|reflexivity].
  repeat constructor.
Qed.

End Concrete.

(** ** What a call does on the network *)

Section Events.
Import Http Wire.

Lemma preserves_silent {A} (Q : Event -> Prop) (c : M A) :
  Transport.silent c -> preserves Q c.
Proof. intros Hc t Ht. now rewrite Hc. Qed.

Lemma preserves_bind {A B} (Q : Event -> Prop) (c : M A) (k : A -> M B) :
  preserves Q c -> (forall a, preserves Q (k a)) -> preserves Q (bind c k).
Proof.
  intros Hc Hk t Ht. unfold bind. specialize (Hc t Ht).
  destruct (c t) as [[e|a] t']; cbn [snd] in *.
  - exact Hc.
  - apply Hk, Hc.
Qed.

Lemma preserves_fetch {num} (Q : Event -> Prop) (w : World num)
  (req : Request) :
  Q (Fetch req) -> preserves Q (fetch w req).
Proof.
  intros Hreq t Ht. unfold fetch.
  destruct (server w (fetches t) req); cbn [snd];
    (apply Forall_app; split; [exact Ht|]; constructor;
     [exact Hreq|constructor]).
Qed.

Lemma preserves_signal {A} (Q : Event -> Prop) (delay : Js.number)
  (k : Js.number -> M A) :
  preserves Q (k delay) ->
  preserves Q (bind (lift (Js.AbortSignal_timeout delay)) k).
Proof.
  intros Hk t Ht. unfold bind, lift, Js.AbortSignal_timeout.
  destruct (Js.is_uint32 delay); cbn [snd]; [now apply Hk | exact Ht].
Qed.

Lemma preserves_sleep (Q : Event -> Prop) (ms : Z) :
  Q (Sleep ms) -> preserves Q (sleep ms).
Proof.
  intros Hq t Ht. unfold sleep, emit. cbn [snd].
  apply Forall_app; split; [exact Ht|]. now repeat constructor.
Qed.

Lemma preserves_map {A B} (Q : Event -> Prop) (f : A -> B) (c : M A) :
  preserves Q c -> preserves Q (Dispatch.map f c).
Proof.
  intros Hc. unfold Dispatch.map. apply preserves_bind; [exact Hc|].
  intros a. apply preserves_silent, silent_ret.
Qed.

(** Mapping the result of a computation does not change its trace. *)
Lemma snd_map {A B} (f : A -> B) (c : M A) (t : list Event) :
  snd (Dispatch.map f c t) = snd (c t).
Proof.
  unfold Dispatch.map, bind, ret. now destruct (c t) as [[e|a] t'].
Qed.

End Events.

Section ClientEvents.
Import Http Wire Dispatch.

Context {num : Type}.
Variable toString : num -> string.
Variable w : World num.
Variable this : Client.StabilityClient.
Variable Q : Event -> Prop.

Lemma preserves_postImage (endpoint : string) (form : FormData) :
  Q (Fetch (mkRequest (Config.API_BASE ++ endpoint) "POST"
              ("Bearer " ++ Client.apiKey this) (Some "image/*") (Some form)
              (Js.mul (Client.timeout this) (Js.Num 3)))) ->
  preserves Q (Client.postImage w this endpoint form).
Proof.
  intros Hreq. unfold Client.postImage. apply preserves_signal.
  apply preserves_bind; [now apply preserves_fetch|].
  intros r. destruct (negb (ok r)); apply preserves_silent;
    [apply silent_throw | apply silent_ret].
Qed.

Lemma preserves_poll (gid : string) (remaining : nat) :
  Q (Sleep Client.pollInterval) ->
  Q (Fetch (Spec.poll_request this gid)) ->
  preserves Q (Client.poll w this gid remaining).
Proof.
  intros Hsleep Hpoll.
  induction remaining as [|remaining IH]; cbn [Client.poll].
  - apply preserves_silent, silent_throw.
  - apply preserves_bind; [now apply preserves_sleep|]. intros _.
    apply preserves_signal.
    apply preserves_bind; [now apply preserves_fetch|].
    intros r. destruct (status r =? 202); [exact IH|].
    destruct (negb (ok r)); apply preserves_silent;
      [apply silent_throw | apply silent_ret].
Qed.

Lemma preserves_postImageAsync (endpoint : string) (form : FormData) :
  Q (Fetch (Spec.submit_request this endpoint form)) ->
  Q (Sleep Client.pollInterval) ->
  (forall gid, Q (Fetch (Spec.poll_request this gid))) ->
  preserves Q (Client.postImageAsync w this endpoint form).
Proof.
  intros Hsubmit Hsleep Hpoll. unfold Client.postImageAsync.
  apply preserves_signal.
  apply preserves_bind; [now apply preserves_fetch|].
  intros r. destruct (negb (ok r)); [apply preserves_silent, silent_throw|].
  apply preserves_bind; [apply preserves_silent, silent_lift|].
  intros data. destruct (Js.if_truthy (id data)).
  - now apply preserves_poll.
  - apply preserves_silent, silent_throw.
Qed.

(** A property of the first request of an operation, and of the delays
    and polls of the asynchronous one, holds of all that a call does. *)
Lemma perform_events (op : Operation num) :
  (forall form, Q (Fetch (request this op form))) ->
  (is_async op = true ->
   Q (Sleep Client.pollInterval)
   /\ forall gid, Q (Fetch (Spec.poll_request this gid))) ->
  preserves Q (perform toString w this op).
Proof.
  intros Hfirst Hasync.
  pose proof (silent_build toString w op) as Hbuild.
  destruct op as [o|o|o|o|o|o|o|o|o|o|o|o|o|o|];
    cbn [perform build] in *;
    apply preserves_map;
    [ unfold Client.generateImage
    | unfold Client.eraseObject
    | unfold Client.inpaint
    | unfold Client.outpaint
    | unfold Client.searchAndReplace
    | unfold Client.searchAndRecolor
    | unfold Client.removeBackground
    | unfold Client.replaceBackground
    | unfold Client.upscaleImage
    | unfold Client.controlSketch
    | unfold Client.controlStructure
    | unfold Client.controlStyle
    | unfold Client.styleTransfer
    | unfold Client.generate3D
    | ];
    try (apply preserves_bind;
         [apply preserves_silent, Hbuild | intros form;
          specialize (Hfirst form)]).
  - apply preserves_postImage. exact Hfirst.
  - apply preserves_postImage. exact Hfirst.
  - apply preserves_postImage. exact Hfirst.
  - apply preserves_postImage. exact Hfirst.
  - apply preserves_postImage. exact Hfirst.
  - apply preserves_postImage. exact Hfirst.
  - apply preserves_postImage. exact Hfirst.
  - apply preserves_postImage. exact Hfirst.
  - unfold Client.upscale_mode. unfold request, endpoint in Hfirst.
    cbn [is_async] in *.
    destruct (Options.UpscaleImage.mode o) as [[| |]|];
      try (apply preserves_postImage; exact Hfirst).
    destruct (Hasync eq_refl) as [Hsleep Hpoll].
    apply preserves_postImageAsync; assumption.
  - apply preserves_postImage. exact Hfirst.
  - apply preserves_postImage. exact Hfirst.
  - apply preserves_postImage. exact Hfirst.
  - apply preserves_postImage. exact Hfirst.
  - apply preserves_bind.
    + unfold Client.postRaw. apply preserves_signal.
      apply preserves_fetch. exact Hfirst.
    + intros r. destruct (negb (ok r)); apply preserves_silent;
        [apply silent_throw | apply silent_ret].
  - unfold Client.checkBalance. apply preserves_signal.
    apply preserves_bind; [apply preserves_fetch; exact (Hfirst [])|].
    intros r. destruct (negb (ok r)); [apply preserves_silent, silent_throw|].
    apply preserves_bind; [apply preserves_silent, silent_lift|].
    intros data. apply preserves_silent, silent_ret.
Qed.

End ClientEvents.

(** ** Requests of an operation *)

Section Requests.
Import Http Wire Dispatch.

Context {num : Type}.
Variable toString : num -> string.
Variable w : World num.
Variable this : Client.StabilityClient.

Lemma request_authorization (op : Operation num) (form : FormData) :
  authorization (request this op form)
  = ("Bearer " ++ Client.apiKey this)%string.
Proof.
  destruct op; cbn [request]; try reflexivity;
    destruct (is_async _); reflexivity.
Qed.

(** Each request of a call bears the key of the client and is either the
    request of the operation (a POST of a body to the endpoint of its
    variant, the GET of the balance) or, for the creative upscale, a poll
    of the results endpoint. *)
Theorem requests_belong (op : Operation num) (req : Request) :
  In (Fetch req) (snd (run (perform toString w this op))) ->
  belongs this op req.
Proof.
  intros Hin.
  pose (Q := fun e => match e with
                      | Fetch r => belongs this op r
                      | _ => True
                      end).
  assert (Hall : Forall Q (snd (run (perform toString w this op)))).
  { apply (perform_events toString w this Q); [| |constructor].
    - intros form. split; [apply request_authorization|].
      left. now exists form.
    - intros Hasync. split; [exact I|].
      intros gid. split; [reflexivity|]. right. split; [exact Hasync|].
      now exists gid. }
  rewrite Forall_forall in Hall. exact (Hall _ Hin).
Qed.

Lemma postImage_trace (endpoint : string) (form : FormData)
  (t : list Event) :
  Js.is_uint32 (Js.mul (Client.timeout this) (Js.Num 3)) = true ->
  snd (Client.postImage w this endpoint form t)
  = t ++ [Fetch (mkRequest (Config.API_BASE ++ endpoint)%string "POST"
                   ("Bearer " ++ Client.apiKey this)%string (Some "image/*")
                   (Some form) (Js.mul (Client.timeout this) (Js.Num 3)))].
Proof.
  intros Hvalid. unfold Client.postImage, bind, lift, fetch.
  rewrite (signal_valid _ Hvalid).
  destruct (server w (fetches t) _) as [r|e]; [|reflexivity].
  now destruct (negb (ok r)).
Qed.

(** What the polling loop does, whatever the service answers: some
    rounds, no more than the attempts it has. *)
Lemma poll_trace (gid : string) (remaining : nat) (t : list Event) :
  Js.is_uint32 (Client.timeout this) = true ->
  exists k, (k <= remaining)%nat
    /\ snd (Client.poll w this gid remaining t)
       = t ++ Spec.rounds (Spec.poll_request this gid) k.
Proof.
  intros Hvalid.
  revert t. induction remaining as [|remaining IH]; intros t.
  - exists 0%nat. split; [lia|]. cbn. now rewrite app_nil_r.
  - cbn [Client.poll]. unfold bind at 1. unfold sleep, emit.
    unfold bind at 1. unfold lift. rewrite (signal_valid _ Hvalid).
    unfold bind at 1. unfold fetch.
    fold (Spec.poll_request this gid).
    destruct (server w _ (Spec.poll_request this gid)) as [r|e].
    + destruct (status r =? 202).
      * destruct (IH ((t ++ [Sleep Client.pollInterval])
                        ++ [Fetch (Spec.poll_request this gid)]))
          as [k [Hk Htrace]].
        exists (S k). split; [lia|]. rewrite Htrace.
        rewrite <- !app_assoc. reflexivity.
      * exists 1%nat. split; [lia|].
        destruct (negb (ok r)); cbn [snd]; rewrite <- app_assoc;
          reflexivity.
    + exists 1%nat. split; [lia|]. cbn [snd]. rewrite <- app_assoc.
      reflexivity.
Qed.

(** A timeout that [AbortSignal.timeout] refuses makes [postImageAsync]
    throw the [RangeError] before anything is sent. *)
Theorem poller_invalid_timeout (endpoint : string) (form : FormData) :
  Js.is_uint32 (Client.timeout this) = false ->
  run (Client.postImageAsync w this endpoint form)
  = (inl (Js.out_of_range (Client.timeout this)), []).
Proof.
  intros Hinvalid. unfold run, Client.postImageAsync, bind, lift.
  now rewrite (signal_invalid _ Hinvalid).
Qed.

(** What [postImageAsync] does with a timeout that [AbortSignal.timeout]
    accepts: the submission, then some rounds of the loop. *)
Lemma postImageAsync_trace (endpoint : string) (form : FormData) :
  Js.is_uint32 (Client.timeout this) = true ->
  exists k gid,
    (k <= 60)%nat
    /\ snd (run (Client.postImageAsync w this endpoint form))
       = Fetch (Spec.submit_request this endpoint form)
           :: Spec.rounds (Spec.poll_request this gid) k.
Proof.
  intros Hvalid. unfold run, Client.postImageAsync.
  unfold bind at 1. unfold lift. rewrite (signal_valid _ Hvalid).
  unfold bind at 1. unfold fetch.
  fold (Spec.submit_request this endpoint form).
  cbn [fetches filter length app].
  destruct (server w 0 _) as [r|e];
    [|exists 0%nat, ""%string; split; [lia|reflexivity]].
  destruct (negb (ok r));
    [exists 0%nat, ""%string; split; [lia|reflexivity]|].
  unfold bind, lift.
  destruct (json r) as [e|data];
    [exists 0%nat, ""%string; split; [lia|reflexivity]|].
  destruct (Js.if_truthy (id data)) as [gid|];
    [|exists 0%nat, ""%string; split; [lia|reflexivity]].
  destruct (poll_trace gid (Z.to_nat Client.maxAttempts)
              [Fetch (Spec.submit_request this endpoint form)] Hvalid)
    as [k [Hk Htrace]].
  exists k, gid. split; [exact Hk|]. rewrite Htrace. reflexivity.
Qed.

(** Whatever the service answers, what [postImageAsync] does with a
    timeout that [AbortSignal.timeout] accepts is the submission followed
    by at most 60 rounds, each a delay of 5000 ms and a poll of one and the
    same job: at most 61 requests and 300 seconds of delays. *)
Theorem poller_bounded (endpoint : string) (form : FormData) :
  Js.is_uint32 (Client.timeout this) = true ->
  let trace := snd (run (Client.postImageAsync w this endpoint form)) in
  (exists k gid,
     (k <= 60)%nat
     /\ trace = Fetch (Spec.submit_request this endpoint form)
                  :: Spec.rounds (Spec.poll_request this gid) k)
  /\ (fetches trace <= 61)%nat
  /\ (sleeps trace <= 60)%nat
  /\ slept trace <= 300000.
Proof.
  intros Hvalid trace.
  pose proof (postImageAsync_trace endpoint form Hvalid) as Hshape.
  fold trace in Hshape.
  split; [exact Hshape|].
  destruct Hshape as [k [gid [Hk ->]]].
  change (fetches (Fetch ?r :: ?l)) with (S (fetches l)).
  change (sleeps (Fetch ?r :: ?l)) with (sleeps l).
  change (slept (Fetch ?r :: ?l)) with (slept l).
  rewrite fetches_rounds, sleeps_rounds, slept_rounds.
  unfold Client.pollInterval. repeat split; lia.
Qed.

End Requests.

(** ** The body built is the body sent *)

Section FirstRequest.
Import Http Wire Dispatch.

Context {num : Type}.
Variable toString : num -> string.
Variable w : World num.
Variable this : Client.StabilityClient.

Lemma build_result (op : Operation num) (form : FormData) :
  fst (run (build toString w op)) = inr form ->
  build toString w op [] = (inr form, []).
Proof.
  intros Hfst. pose proof (silent_build toString w op []) as Hsnd.
  unfold run in Hfst.
  destruct (build toString w op []) as [r t]. cbn in *. now subst.
Qed.

Lemma postRaw_trace (endpoint : string) (form : FormData)
  (t : list Event) :
  Js.is_uint32 (Js.mul (Client.timeout this) (Js.Num 3)) = true ->
  snd (Client.postRaw w this endpoint form t)
  = t ++ [Fetch (mkRequest (Config.API_BASE ++ endpoint)%string "POST"
                   ("Bearer " ++ Client.apiKey this)%string
                   (Some "application/json") (Some form)
                   (Js.mul (Client.timeout this) (Js.Num 3)))].
Proof.
  intros Hvalid. unfold Client.postRaw, bind, lift, fetch.
  rewrite (signal_valid _ Hvalid).
  now destruct (server w (fetches t) _).
Qed.

Lemma first_request_shape (op : Operation num) (form : FormData) :
  signalled this op = true ->
  fst (run (build toString w op)) = inr form ->
  exists rest,
    snd (run (perform toString w this op))
    = Fetch (request this op form) :: rest
    /\ (is_async op = false -> rest = []).
Proof.
  intros Hvalid Hform. apply build_result in Hform.
  unfold run, signalled in *.
  destruct op as [o|o|o|o|o|o|o|o|o|o|o|o|o|o|];
    cbn [perform build request is_async deadline] in *; rewrite snd_map;
    [ unfold Client.generateImage
    | unfold Client.eraseObject
    | unfold Client.inpaint
    | unfold Client.outpaint
    | unfold Client.searchAndReplace
    | unfold Client.searchAndRecolor
    | unfold Client.removeBackground
    | unfold Client.replaceBackground
    | unfold Client.upscaleImage
    | unfold Client.controlSketch
    | unfold Client.controlStructure
    | unfold Client.controlStyle
    | unfold Client.styleTransfer
    | unfold Client.generate3D
    | ];
    try rewrite (bind_returns _ _ _ _ _ Hform);
    try (rewrite postImage_trace by exact Hvalid;
         exists []; split; reflexivity).
  - unfold Client.upscale_mode, endpoint. cbn [is_async].
    destruct (Options.UpscaleImage.mode o) as [[| |]|];
      cbn [deadline] in Hvalid;
      try (rewrite postImage_trace by exact Hvalid;
           exists []; split; reflexivity).
    destruct (postImageAsync_trace w this
                (Config.UPSCALE_ENDPOINTS Config.creative) form Hvalid)
      as [k [gid [_ Htrace]]].
    unfold run in Htrace. rewrite Htrace.
    eexists. split; [reflexivity | discriminate].
  - unfold bind. pose proof (postRaw_trace
                               (Config.THREE_D_ENDPOINTS
                                  (Client.threeD_model o)) form [] Hvalid)
      as Hraw.
    destruct (Client.postRaw w this _ form []) as [[e|r] t'];
      cbn [snd] in *; subst t'.
    + exists []. split; reflexivity.
    + exists []. destruct (negb (ok r)); split; reflexivity.
  - injection Hform as <-.
    unfold Client.checkBalance, bind, fetch, lift.
    rewrite (signal_valid _ Hvalid).
    cbn [fetches filter length app].
    destruct (server w 0 _) as [r|e]; [|exists []; split; reflexivity].
    destruct (negb (ok r)); [exists []; split; reflexivity|].
    destruct (json r); exists []; split; reflexivity.
Qed.

(** When the body of an operation can be built and the deadline is one
    that [AbortSignal.timeout] accepts, the first thing the call does is
    to send the request of the operation with that very body; and
    an operation other than the creative upscale does nothing else,
    whatever the answer is: one request, no second try. *)
Theorem first_request (op : Operation num) (form : FormData) :
  signalled this op = true ->
  fst (run (build toString w op)) = inr form ->
  exists rest,
    snd (run (perform toString w this op))
    = Fetch (request this op form) :: rest
    /\ (is_async op = false -> rest = []).
Proof. exact (first_request_shape op form). Qed.

(** Unfolds the call of an operation whose body is [form] down to the
    answer of the service to its first request. *)
Ltac to_first_answer Hform Hsrv :=
  unfold Http.run, Wire.signalled in *;
  cbn [Dispatch.perform Dispatch.build Wire.request Wire.endpoint
       Wire.is_async Http.deadline] in *;
  unfold Dispatch.map;
  try unfold Client.generateImage;
  try unfold Client.eraseObject;
  try unfold Client.inpaint;
  try unfold Client.outpaint;
  try unfold Client.searchAndReplace;
  try unfold Client.searchAndRecolor;
  try unfold Client.removeBackground;
  try unfold Client.replaceBackground;
  try unfold Client.upscaleImage;
  try unfold Client.upscale_mode;
  try unfold Client.controlSketch;
  try unfold Client.controlStructure;
  try unfold Client.controlStyle;
  try unfold Client.styleTransfer;
  try unfold Client.generate3D;
  try unfold Client.threeD_model;
  try unfold Client.checkBalance;
  unfold Http.bind; cbv beta;
  first [ rewrite Hform | unfold Http.ret in Hform; injection Hform as <- ].

Ltac answer Hvalid Hsrv :=
  cbn [Http.deadline] in Hvalid;
  unfold Client.postImage, Client.postImageAsync, Client.postRaw,
    Http.bind, Http.fetch, Http.ret, Http.lift;
  rewrite (signal_valid _ Hvalid);
  cbn [Http.fetches filter length app];
  rewrite Hsrv.

Lemma invalid_timeout_fails (op : Operation num) (form : FormData) :
  fst (run (build toString w op)) = inr form ->
  signalled this op = false ->
  run (perform toString w this op)
  = (inl (Js.out_of_range (deadline (request this op []))), []).
Proof.
  intros Hform Hinvalid. apply build_result in Hform.
  destruct op as [o|o|o|o|o|o|o|o|o|o|o|o|o|o|];
    to_first_answer Hform Hinvalid;
    try (unfold Client.postImage, Client.postRaw, Http.bind, Http.lift;
         rewrite (signal_invalid _ Hinvalid); reflexivity).
  destruct (Options.UpscaleImage.mode o) as [[| |]|];
    cbn [Http.deadline] in *;
    unfold Client.postImage, Client.postImageAsync, Http.bind, Http.lift;
    rewrite (signal_invalid _ Hinvalid); reflexivity.
Qed.

(** A deadline that [AbortSignal.timeout] refuses makes the call fail
    with the [RangeError] once the body is built, before anything is
    sent. *)
Theorem invalid_timeout_surfaces (op : Operation num) (form : FormData) :
  fst (run (build toString w op)) = inr form ->
  signalled this op = false ->
  run (perform toString w this op)
  = (inl (Js.out_of_range (deadline (request this op []))), []).
Proof. exact (invalid_timeout_fails op form). Qed.

(** A first request that the service does not answer (a network failure,
    the [TimeoutError] of the deadline) makes the call fail with that very
    error, and the call does nothing more. *)
Theorem rejection_surfaces (op : Operation num) (form : FormData)
  (e : Js.Error) :
  signalled this op = true ->
  fst (run (build toString w op)) = inr form ->
  server w 0 (request this op form) = Rejected e ->
  run (perform toString w this op)
  = (inl e, [Fetch (request this op form)]).
Proof.
  intros Hvalid Hform Hsrv. apply build_result in Hform.
  destruct op as [o|o|o|o|o|o|o|o|o|o|o|o|o|o|];
    to_first_answer Hform Hsrv;
    try (answer Hvalid Hsrv; reflexivity).
  destruct (Options.UpscaleImage.mode o) as [[| |]|];
    answer Hvalid Hsrv; reflexivity.
Qed.

(** An answer to the first request outside the 2xx range makes the call
    fail with an error that carries the status and the body as they came,
    and the call does nothing more: no poll, no second try. *)
Theorem error_status_surfaces (op : Operation num) (form : FormData)
  (r : Response num) :
  signalled this op = true ->
  fst (run (build toString w op)) = inr form ->
  server w 0 (request this op form) = Responded r ->
  ok r = false ->
  run (perform toString w this op)
  = (inl (Js.new_Error
            (Outcome.failure_words op ++ " (HTTP "
               ++ Js.Z_toString (status r) ++ "): " ++ content r)%string),
     [Fetch (request this op form)]).
Proof.
  intros Hvalid Hform Hsrv Hok. apply build_result in Hform.
  destruct op as [o|o|o|o|o|o|o|o|o|o|o|o|o|o|];
    to_first_answer Hform Hsrv;
    try (answer Hvalid Hsrv; rewrite Hok; reflexivity).
  destruct (Options.UpscaleImage.mode o) as [[| |]|];
    answer Hvalid Hsrv; rewrite Hok; reflexivity.
Qed.

(** A 2xx answer to the request of a synchronous operation is the
    result: the body of the answer as the data, with the format of its
    content type for an image, as a glb for a 3D model; the credits of the
    parsed body for the balance. *)
Theorem success_decoded (op : Operation num) (form : FormData)
  (r : Response num) :
  is_async op = false ->
  signalled this op = true ->
  fst (run (build toString w op)) = inr form ->
  server w 0 (request this op form) = Responded r ->
  ok r = true ->
  run (perform toString w this op)
  = (Outcome.decoded op r, [Fetch (request this op form)]).
Proof.
  intros Hsync Hvalid Hform Hsrv Hok. apply build_result in Hform.
  destruct op as [o|o|o|o|o|o|o|o|o|o|o|o|o|o|];
    to_first_answer Hform Hsrv;
    try (answer Hvalid Hsrv; rewrite Hok; reflexivity).
  - destruct (Options.UpscaleImage.mode o) as [[| |]|];
      try discriminate; answer Hvalid Hsrv; rewrite Hok; reflexivity.
  - answer Hvalid Hsrv. rewrite Hok. cbn [negb Outcome.decoded].
    destruct (json r); reflexivity.
Qed.

End FirstRequest.

(** ** The job poller: how a job fails *)

Section PollerFailures.
Import Http.

Context {num : Type}.
Variable w : World num.
Variable this : Client.StabilityClient.

(** The client's timeout is a delay that [AbortSignal.timeout] accepts. *)
Hypothesis valid : Js.is_uint32 (Client.timeout this) = true.

(** The round that ends the job with an error. *)
Lemma poll_fail_step (gid : string) (remaining : nat) (t : list Event)
  (out : FetchOutcome num) :
  server w (fetches t) (Spec.poll_request this gid) = out ->
  match out with
  | Rejected _ => True
  | Responded r => ok r = false
  end ->
  Client.poll w this gid (S remaining) t
  = (inl (Outcome.poll_error out),
     t ++ [Sleep Client.pollInterval; Fetch (Spec.poll_request this gid)]).
Proof.
  intros Hsrv Hout.
  cbn [Client.poll]. unfold bind at 1. unfold sleep, emit.
  unfold bind at 1. unfold lift. rewrite (signal_valid _ valid).
  unfold bind at 1. unfold fetch.
  rewrite fetches_app. cbn [fetches filter is_fetch length].
  rewrite Nat.add_0_r.
  fold (Spec.poll_request this gid). rewrite Hsrv.
  destruct out as [r|e]; cbn [Outcome.poll_error].
  - assert (H202 : (status r =? 202) = false).
    { unfold ok in Hout. destruct (Z.eqb_spec (status r) 202) as [Heq|];
        [|reflexivity]. rewrite Heq in Hout. discriminate. }
    rewrite H202, Hout. cbn [negb]. unfold throw.
    rewrite <- app_assoc. reflexivity.
  - rewrite <- app_assoc. reflexivity.
Qed.

(** (The client's timeout being a delay that [AbortSignal.timeout]
    accepts.)  When the service accepts the job, answers 202 to the first
    [n] polls and then fails the next one, by an answer outside the 2xx range or by
    not answering, the job is given up at once with the error of that
    poll: "Polling failed" with the status and the body, or the rejection
    itself; the later attempts are not made. *)
Theorem poller_stops_at_failure (endpoint : string) (form : FormData)
  (gid : string) (n : nat) (r0 : Response num) (data0 : JsonBody num)
  (out : FetchOutcome num) :
  server w 0 (Spec.submit_request this endpoint form) = Responded r0 ->
  ok r0 = true ->
  json r0 = inr data0 ->
  Js.if_truthy (id data0) = Some gid ->
  (n < 60)%nat ->
  (forall j, (j < n)%nat ->
     exists r, server w (1 + j) (Spec.poll_request this gid) = Responded r
               /\ status r = 202) ->
  server w (1 + n) (Spec.poll_request this gid) = out ->
  match out with
  | Rejected _ => True
  | Responded r => ok r = false
  end ->
  run (Client.postImageAsync w this endpoint form)
  = (inl (Outcome.poll_error out),
     Fetch (Spec.submit_request this endpoint form)
       :: Spec.rounds (Spec.poll_request this gid) (S n)).
Proof.
  intros Hsrv Hok Hjson Hid Hn Hpending Hout Hfail.
  rewrite (submit_accepted w this endpoint form gid r0 data0 valid Hsrv Hok
             Hjson Hid).
  replace 60%nat with (n + S (59 - n))%nat by lia.
  rewrite (poll_pending w this valid) by exact Hpending.
  rewrite (poll_fail_step gid _ _ out).
  - cbn [app]. rewrite rounds_snoc. reflexivity.
  - rewrite fetches_app, fetches_rounds. exact Hout.
  - exact Hfail.
Qed.

(** (The client's timeout being a delay that [AbortSignal.timeout]
    accepts.)  An accepted submission starts the polls only with an
    identifier: when
    the answer is not JSON the error of its parsing is thrown, when it has
    no identifier, or an empty one, "No generation ID returned from async
    endpoint" is; in both cases no poll is made. *)
Theorem poller_needs_identifier (endpoint : string) (form : FormData)
  (r0 : Response num) :
  server w 0 (Spec.submit_request this endpoint form) = Responded r0 ->
  ok r0 = true ->
  match json r0 with
  | inr data => Js.if_truthy (id data) = None
  | inl _ => True
  end ->
  run (Client.postImageAsync w this endpoint form)
  = (inl match json r0 with
         | inl e => e
         | inr _ =>
             Js.new_Error "No generation ID returned from async endpoint"
         end,
     [Fetch (Spec.submit_request this endpoint form)]).
Proof.
  intros Hsrv Hok Hid.
  unfold run, Client.postImageAsync.
  unfold bind at 1. unfold lift. rewrite (signal_valid _ valid).
  unfold bind at 1. unfold fetch.
  cbn [fetches filter length].
  fold (Spec.submit_request this endpoint form). rewrite Hsrv.
  rewrite Hok. cbn [negb]. unfold bind, lift.
  destruct (json r0) as [e|data]; [reflexivity|].
  rewrite Hid. reflexivity.
Qed.

End PollerFailures.

(** ** What a tool call leaves behind *)

Section ToolOutcome.
Import Http Wire Dispatch.

Context {num : Type}.
Variable toString : num -> string.
Variable toFixed : num -> Z -> string.
Variable w : World num.
Variable config : Config.Config.
Variable dirname : string -> string.
Variable now : string.

Lemma written_app (t u : list Event) :
  written (t ++ u) = written t ++ written u.
Proof.
  induction t as [|e t IH]; [reflexivity|].
  destruct e; cbn [written app]; now rewrite IH.
Qed.

Lemma created_app (t u : list Event) :
  created (t ++ u) = created t ++ created u.
Proof.
  induction t as [|e t IH]; [reflexivity|].
  destruct e; cbn [created app]; now rewrite IH.
Qed.

(** The network writes no file and creates no directory. *)
Lemma on_network_writes (t : list Event) :
  Forall on_network t -> written t = [] /\ created t = [].
Proof.
  induction 1 as [|e t He _ [IHw IHc]]; [now split|].
  destruct e; cbn in *; try contradiction; now split.
Qed.

(** What a call of a client method does is on the network. *)
Lemma client_on_network (op : Operation num) :
  Forall on_network
    (snd (perform toString w (Server.client config) op [])).
Proof.
  apply (perform_events toString w (Server.client config) on_network);
    [| |constructor].
  - intros form. exact I.
  - intros _. split; [exact I | intros gid; exact I].
Qed.

(** The save of a result: the directory is created when it is missing,
    the file is written, and its resolved path is returned. *)
Lemma saveFile_outcome (data savePath : string) (t : list Event) :
  Server.saveFile w dirname data savePath t
  = (inr (resolve w savePath),
     t ++ (if negb (existsSync w (dirname savePath))
           then [Mkdir (dirname savePath)] else [])
       ++ [WriteFile savePath data]).
Proof.
  unfold Server.saveFile, bind, emit, ret.
  destruct (negb (existsSync w (dirname savePath))); cbn.
  - now rewrite <- app_assoc.
  - reflexivity.
Qed.

(** The outcome of the [try] of an image tool whose files are there:
    [c] is the call of the client, which stays on the network. *)
Lemma image_tool_outcome (c : M Client.ImageResult)
  (output_format : option Config.OutputFormat) (save_path : option string)
  (prefix : string) (text : Client.ImageResult -> string -> string) :
  Forall on_network (snd (c [])) ->
  exists r t,
    try_catch
      (bind c (fun result =>
                 Server.respond w config dirname now result output_format
                   save_path prefix (text result)))
      Server.on_error []
    = (inr r, t)
    /\ (Server.isError r = true -> written t = [] /\ created t = [])
    /\ (Server.isError r = false ->
        exists path data txt,
          written t = [(path, data)]
          /\ (forall p, Js.if_truthy save_path = Some p -> path = p)
          /\ Server.content r
             = [Server.ImageContent data
                  ("image/" ++ Client.format_or_png output_format)%string;
                Server.TextContent txt]).
Proof.
  intros Hnet. unfold try_catch, bind.
  destruct (c []) as [[e|result] t']; cbn [snd] in Hnet.
  - eexists _, t'. split; [reflexivity|]. split.
    + intros _. now apply on_network_writes.
    + cbn. discriminate.
  - unfold Server.respond, bind. rewrite saveFile_outcome. unfold ret.
    eexists _, _. split; [reflexivity|]. split; [cbn; discriminate|].
    intros _. destruct (on_network_writes t' Hnet) as [Hw _].
    eexists _, (Client.data result), _. split; [|split].
    + rewrite !written_app, Hw.
      destruct (negb (existsSync w _)); reflexivity.
    + intros p Hp. now rewrite Hp.
    + reflexivity.
Qed.

(** The network trace of the call of a client method. *)
Ltac client_network op :=
  let H := fresh "Hnet" in
  pose proof (client_on_network op) as H;
  cbn [perform] in H; rewrite snd_map in H; exact H.

(** Every tool call ends in a result; a result that is an error leaves
    no file and no directory behind, and a result that is not has saved
    its one file. *)
Lemma call_tool_outcome (request : Server.ToolCall num) :
  exists r t,
    run (Server.call_tool toString toFixed w config dirname now request)
    = (inr r, t)
    /\ (Server.isError r = true -> written t = [] /\ created t = [])
    /\ (Server.isError r = false -> Tool.saved_once request r t).
Proof.
  unfold run, Tool.saved_once.
  destruct request as [i|i|i|i|i|i|i|i|i|i|i|i|i|i| |name];
    unfold Server.call_tool;
    cbn [Tool.kind Tool.save_path Tool.output_format];
    [ unfold Server.handle_generate_image
    | unfold Server.handle_erase_object
    | unfold Server.handle_inpaint
    | unfold Server.handle_outpaint
    | unfold Server.handle_search_and_replace
    | unfold Server.handle_search_and_recolor
    | unfold Server.handle_remove_background
    | unfold Server.handle_replace_background
    | unfold Server.handle_upscale_image
    | unfold Server.handle_control_sketch
    | unfold Server.handle_control_structure
    | unfold Server.handle_control_style
    | unfold Server.handle_style_transfer
    | unfold Server.handle_generate_3d
    | unfold Server.handle_check_balance
    | ];
    repeat match goal with
           | |- context [if ?b then Server.not_found _ else _] =>
               destruct b;
               [ eexists _, []; split; [reflexivity|];
                 split; [intros _; now split | cbn; discriminate] | ]
           end.
  - apply image_tool_outcome.
    client_network (GenerateImage
                      (Options.GenerateImage.mk
                         (Input.GenerateImage.prompt i)
                         (Input.GenerateImage.model i)
                         (Input.GenerateImage.negative_prompt i)
                         (Input.GenerateImage.image_path i)
                         (Input.GenerateImage.strength i)
                         (Input.GenerateImage.seed i)
                         (Input.GenerateImage.aspect_ratio i)
                         (Input.GenerateImage.output_format i)
                         (Input.GenerateImage.style_preset i))).
  - apply image_tool_outcome.
    match goal with
    | |- context [Client.eraseObject _ _ ?o] => client_network (@EraseObject num o)
    end.
  - match goal with
    | |- context [Client.inpaint _ _ _ ?o] =>
        pose proof (client_on_network (Inpaint o)) as Hnet
    end.
    cbn [perform] in Hnet. rewrite snd_map in Hnet.
    apply (image_tool_outcome _ (Input.Inpaint.output_format i)
             (Input.Inpaint.save_path i) "inpainted"
             (fun _ savedTo => ("Inpainted image saved to: " ++ savedTo)%string)
             Hnet).
  - apply image_tool_outcome.
    match goal with
    | |- context [Client.outpaint _ _ _ ?o] => client_network (Outpaint o)
    end.
  - apply image_tool_outcome.
    match goal with
    | |- context [Client.searchAndReplace _ _ _ ?o] =>
        client_network (SearchAndReplace o)
    end.
  - apply image_tool_outcome.
    match goal with
    | |- context [Client.searchAndRecolor _ _ _ ?o] =>
        client_network (SearchAndRecolor o)
    end.
  - apply image_tool_outcome.
    match goal with
    | |- context [Client.removeBackground _ _ ?o] =>
        client_network (@RemoveBackground num o)
    end.
  - apply image_tool_outcome.
    match goal with
    | |- context [Client.replaceBackground _ _ _ ?o] =>
        client_network (ReplaceBackground o)
    end.
  - apply image_tool_outcome.
    match goal with
    | |- context [Client.upscaleImage _ _ _ ?o] =>
        client_network (UpscaleImage o)
    end.
  - apply image_tool_outcome.
    match goal with
    | |- context [Client.controlSketch _ _ _ ?o] =>
        client_network (ControlSketch o)
    end.
  - apply image_tool_outcome.
    match goal with
    | |- context [Client.controlStructure _ _ _ ?o] =>
        client_network (ControlStructure o)
    end.
  - apply image_tool_outcome.
    match goal with
    | |- context [Client.controlStyle _ _ _ ?o] =>
        client_network (ControlStyle o)
    end.
  - apply image_tool_outcome.
    match goal with
    | |- context [Client.styleTransfer _ _ _ ?o] =>
        client_network (StyleTransfer o)
    end.
  - match goal with
    | |- context [Client.generate3D _ _ _ ?o] =>
        pose proof (client_on_network (Generate3D o)) as Hnet
    end.
    cbn [perform] in Hnet. rewrite snd_map in Hnet.
    unfold try_catch, bind.
    destruct (Client.generate3D _ _ _ _ []) as [[e|result] t'];
      cbn [snd] in Hnet.
    + eexists _, t'. split; [reflexivity|]. split.
      * intros _. now apply on_network_writes.
      * cbn. discriminate.
    + rewrite saveFile_outcome. unfold ret.
      eexists _, _. split; [reflexivity|]. split; [cbn; discriminate|].
      intros _. destruct (on_network_writes t' Hnet) as [Hw _].
      eexists _, (Client.data3d result). split.
      * rewrite !written_app, Hw.
        destruct (negb (existsSync w _)); reflexivity.
      * intros p Hp. now rewrite Hp.
  - pose proof (client_on_network CheckBalance) as Hnet.
    cbn [perform] in Hnet. rewrite snd_map in Hnet.
    unfold try_catch, bind.
    destruct (Client.checkBalance w _ []) as [[e|result] t'];
      cbn [snd] in Hnet.
    + eexists _, t'. split; [reflexivity|]. split.
      * intros _. now apply on_network_writes.
      * cbn. discriminate.
    + destruct (Client.credits result); unfold ret, throw;
        eexists _, t'; (split; [reflexivity|]); split;
        try (intros _; now apply on_network_writes);
        try (cbn; discriminate);
        intros _; now apply on_network_writes.
  - eexists _, []. split; [reflexivity|].
    split; [intros _; now split | cbn; discriminate].
Qed.


(** A tool call whose result is not an error has written exactly one
    file (none for the balance), at the path the caller gave when there is
    one; for an image tool the image of the result is the content of that
    file, labelled with the output format of the input, png by default. *)
Theorem successful_call_saves_once (request : Server.ToolCall num)
  (r : Server.ToolResult) (t : list Event) :
  run (Server.call_tool toString toFixed w config dirname now request)
  = (inr r, t) ->
  Server.isError r = false ->
  Tool.saved_once request r t.
Proof.
  intros Hrun Hok.
  destruct (call_tool_outcome request) as [r' [t' [Hrun' [_ Hsaved]]]].
  rewrite Hrun in Hrun'. injection Hrun' as <- <-. now apply Hsaved.
Qed.

End ToolOutcome.

(** ** The whole body *)

(** As [fileBlob_step], keeping what is known of the file. *)
Ltac fileBlob_step_keep w :=
  match goal with
  | |- context [Client.fileBlob w ?p ?t] =>
      let e := fresh "e" in
      let He := fresh "He" in
      let bytes := fresh "bytes" in
      let Hex := fresh "Hex" in
      let Hrd := fresh "Hrd" in
      let Hb := fresh "Hb" in
      destruct (fileBlob_cases w p t) as [[e He]|[bytes [Hex [Hrd Hb]]]];
      [ rewrite He | rewrite Hb ]; cbv beta iota
  end.

Ltac build_outcome_keep w :=
  unfold Http.bind, Http.ret; cbv beta iota zeta;
  repeat (fileBlob_step_keep w);
  try discriminate.

Ltac each_fixed :=
  let Hform := fresh "Hform" in
  let Hin := fresh "Hin" in
  intros Hform Hin;
  repeat destruct Hin as [Hin|Hin]; try contradiction;
  injection Hin as <- <-; revert Hform.

Ltac read_files :=
  let Hform := fresh "Hform" in
  intros Hform; injection Hform as <- _;
  (split; [assumption|]); eexists; (split; [eassumption|]);
  parts_simpl; rewrite ?app_nil_r; split; reflexivity.

Section WholeBody.
Import Http Spec Fields Dispatch Body.

Context {num : Type}.
Variable toString : num -> string.
Variable w : World num.

(** The parts an operation always sends are in its body, once each, with
    their values: the required texts, the output format with png as the
    default, and for a model of the sd3.5 family the model and the mode,
    image-to-image with an image and text-to-image without. *)
Theorem fixed_texts_on_the_wire (op : Operation num) (t t' : list Event)
  (form : FormData) (name value : string) :
  build toString w op t = (inr form, t') ->
  In (name, value) (fixed_texts op) ->
  texts form name = [value] /\ files form name = [].
Proof.
  destruct op as [o|o|o|o|o|o|o|o|o|o|o|o|o|o|]; cbn [build fixed_texts].
  - unfold Client.generateImage_form.
    destruct (Options.GenerateImage.model o) as [[| | | |]|];
      cbv beta iota zeta; eval_startsWith; cbv beta iota zeta;
      destruct (Js.if_truthy (Options.GenerateImage.image o));
      cbn [In app]; each_fixed;
      build_outcome w;
      destruct (Js.if_truthy (Options.GenerateImage.stylePreset o));
      cbn [orb]; read_parts.
  - cbn [In]; each_fixed.
    unfold Client.eraseObject_form; build_outcome w;
      destruct (Js.if_truthy (Options.EraseObject.mask o));
      build_outcome w; read_parts.
  - cbn [In]; each_fixed;
      unfold Client.inpaint_form; build_outcome w;
      destruct (Js.if_truthy (Options.Inpaint.mask o));
      build_outcome w; read_parts.
  - cbn [In]; each_fixed;
      unfold Client.outpaint_form; build_outcome w; read_parts.
  - cbn [In]; each_fixed;
      unfold Client.searchAndReplace_form; build_outcome w; read_parts.
  - cbn [In]; each_fixed;
      unfold Client.searchAndRecolor_form; build_outcome w; read_parts.
  - cbn [In]; each_fixed;
      unfold Client.removeBackground_form; build_outcome w; read_parts.
  - cbn [In]; each_fixed;
      unfold Client.replaceBackground_form; build_outcome w; read_parts.
  - cbn [In]; each_fixed;
      unfold Client.upscaleImage_form, Client.upscale_mode; build_outcome w;
      destruct (Options.UpscaleImage.mode o) as [[| |]|]; read_parts.
  - cbn [In]; each_fixed;
      unfold Client.controlSketch_form; build_outcome w; read_parts.
  - cbn [In]; each_fixed;
      unfold Client.controlSketch_form; build_outcome w; read_parts.
  - cbn [In]; each_fixed;
      unfold Client.controlStyle_form; build_outcome w; read_parts.
  - cbn [In]; each_fixed;
      unfold Client.styleTransfer_form; build_outcome w; read_parts.
  - cbn [In]; tauto.
  - cbn [In]; tauto.
Qed.

(** Each file of an operation is in its body as the one part of its
    name: a file part with the bytes read from the resolved path and the
    content type of the extension of that path. *)
Theorem file_parts_on_the_wire (op : Operation num) (t t' : list Event)
  (form : FormData) (name path : string) :
  build toString w op t = (inr form, t') ->
  In (name, path) (attachments op) ->
  existsSync w (resolve w path) = true
  /\ exists bytes,
       readFileSync w (resolve w path) = inr bytes
       /\ files form name
          = [mkBlob bytes (Client.getMimeType (resolve w path))]
       /\ texts form name = [].
Proof.
  destruct op as [o|o|o|o|o|o|o|o|o|o|o|o|o|o|]; cbn [build attachments].
  - unfold Client.generateImage_form.
    destruct (Options.GenerateImage.model o) as [[| | | |]|];
      cbv beta iota zeta; eval_startsWith; cbv beta iota zeta;
      destruct (Js.if_truthy (Options.GenerateImage.image o));
      cbn [takes_image List.map olist In]; try tauto; each_fixed;
      build_outcome_keep w;
      destruct (Js.if_truthy (Options.GenerateImage.stylePreset o));
      cbn [orb]; read_files.
  - unfold Client.eraseObject_form.
    destruct (Js.if_truthy (Options.EraseObject.mask o)) eqn:Hmask;
      cbn [List.map olist In]; each_fixed;
      build_outcome_keep w; rewrite ?Hmask; build_outcome_keep w;
      read_files.
  - unfold Client.inpaint_form.
    destruct (Js.if_truthy (Options.Inpaint.mask o)) eqn:Hmask;
      cbn [List.map olist In]; each_fixed;
      build_outcome_keep w; rewrite ?Hmask; build_outcome_keep w;
      read_files.
  - cbn [In]; each_fixed;
      unfold Client.outpaint_form; build_outcome_keep w; read_files.
  - cbn [In]; each_fixed;
      unfold Client.searchAndReplace_form; build_outcome_keep w; read_files.
  - cbn [In]; each_fixed;
      unfold Client.searchAndRecolor_form; build_outcome_keep w; read_files.
  - cbn [In]; each_fixed;
      unfold Client.removeBackground_form; build_outcome_keep w; read_files.
  - cbn [In]; each_fixed;
      unfold Client.replaceBackground_form; build_outcome_keep w; read_files.
  - cbn [In]; each_fixed;
      unfold Client.upscaleImage_form, Client.upscale_mode;
      build_outcome_keep w;
      destruct (Options.UpscaleImage.mode o) as [[| |]|]; read_files.
  - cbn [In]; each_fixed;
      unfold Client.controlSketch_form; build_outcome_keep w; read_files.
  - cbn [In]; each_fixed;
      unfold Client.controlSketch_form; build_outcome_keep w; read_files.
  - cbn [In]; each_fixed;
      unfold Client.controlStyle_form; build_outcome_keep w; read_files.
  - cbn [In]; each_fixed;
      unfold Client.styleTransfer_form; build_outcome_keep w; read_files.
  - cbn [In]; each_fixed;
      unfold Client.generate3D_form, Client.threeD_model;
      build_outcome_keep w;
      destruct (Options.Generate3D.model o) as [[|]|]; read_files.
  - cbn [In]; tauto.
Qed.

End WholeBody.

(** ** The body, part by part *)

Section PartsByName.
Import Http Spec Fields Body.

Lemma named_app {A} (name : string) (l m : list (string * A)) :
  named name (l ++ m) = named name l ++ named name m.
Proof. unfold named. apply flat_map_app. Qed.

Lemma In_named {A} (name : string) (v : A) (l : list (string * A)) :
  In v (named name l) <-> In (name, v) l.
Proof.
  unfold named. rewrite in_flat_map. split.
  - intros [[k x] [Hin Hv]]. cbn [fst snd] in Hv.
    destruct (String.eqb_spec k name) as [Heq|Hne]; [|contradiction].
    destruct Hv as [Hv|[]]. now subst.
  - intros Hin. exists (name, v). split; [exact Hin|].
    cbn [fst snd]. rewrite String.eqb_refl. now left.
Qed.

Lemma In_texts (form : FormData) (name v : string) :
  In (name, Text v) form <-> In v (texts form name).
Proof.
  induction form as [|[n [x|b]] form IH]; cbn [texts In].
  - tauto.
  - destruct (String.eqb_spec n name) as [Heq|Hne]; cbn [In].
    + rewrite <- IH. subst n. split.
      * intros [H|H]; [left; congruence | now right].
      * intros [H|H]; [left; congruence | now right].
    + rewrite <- IH. split; [|now right].
      intros [H|H]; [congruence | exact H].
  - rewrite <- IH. split; [|now right].
    intros [H|H]; [discriminate | exact H].
Qed.

Lemma In_files (form : FormData) (name : string) (b : Blob) :
  In (name, File b) form <-> In b (files form name).
Proof.
  induction form as [|[n [x|c]] form IH]; cbn [files In].
  - tauto.
  - rewrite <- IH. split; [|now right].
    intros [H|H]; [discriminate | exact H].
  - destruct (String.eqb_spec n name) as [Heq|Hne]; cbn [In].
    + rewrite <- IH. subst n. split.
      * intros [H|H]; [left; congruence | now right].
      * intros [H|H]; [left; congruence | now right].
    + rewrite <- IH. split; [|now right].
      intros [H|H]; [congruence | exact H].
Qed.

End PartsByName.

(** Takes the names of the parts in turn: the name is one of those the
    builder knows, or none of them. *)
Ltac by_name name :=
  let Hform := fresh "Hform" in
  intros Hform; injection Hform as <- _;
  autorewrite with parts;
  repeat match goal with
         | H : Http.existsSync _ _ = true |- _ => rewrite ?H; clear H
         | H : Http.readFileSync _ _ = inr _ |- _ => rewrite ?H; clear H
         end;
  repeat match goal with
         | |- context [(?k =? name)%string] =>
             destruct (String.eqb_spec k name);
             [ subst name;
               cbn [String.eqb Ascii.eqb Bool.eqb app flat_map List.map
                    fst snd andb Fields.olist Fields.takes
                    Fields.takes_image Fields.wire Spec.texts Spec.files];
               rewrite ?app_nil_r; split; reflexivity | ]
         end;
  cbn [app flat_map List.map fst snd Fields.olist Spec.texts Spec.files];
  rewrite ?app_nil_r; split; reflexivity.

Section BodyExactly.
Import Http Spec Fields Dispatch Body.

Context {num : Type}.
Variable toString : num -> string.
Variable w : World num.

(** The optional fields that reach the body, under one name. *)
Lemma named_sent_optionals (op : Operation num) (name : string) :
  named name (sent_optionals toString op)
  = flat_map
      (fun field =>
         if (fst field =? name)%string
         then olist (if takes op (fst field)
                     then wire toString (snd field) else None)
         else [])
      (optional_fields op).
Proof.
  unfold sent_optionals, named.
  induction (optional_fields op) as [|[k f] l IH]; [reflexivity|].
  cbn [flat_map fst snd]. rewrite flat_map_app, IH. f_equal.
  destruct (if takes op k then wire toString f else None);
    cbn [flat_map fst snd olist app]; destruct (k =? name)%string;
    reflexivity.
Qed.

(** The files that reach the body, under one name. *)
Lemma named_sent_files (op : Operation num) (name : string) :
  named name (sent_files w op)
  = flat_map
      (fun file =>
         if (fst file =? name)%string then olist (blob w (snd file))
         else [])
      (attachments op).
Proof.
  unfold sent_files, named.
  induction (attachments op) as [|[k p] l IH]; [reflexivity|].
  cbn [flat_map fst snd]. rewrite flat_map_app, IH. f_equal.
  destruct (blob w p);
    cbn [flat_map fst snd olist app]; destruct (k =? name)%string;
    reflexivity.
Qed.

(** Under each name, the texts of the body are the ones the operation
    always sends followed by the optional ones that reach it, and its
    files are the ones the operation attaches. *)
Lemma body_by_name (op : Operation num) (t t' : list Event)
  (form : FormData) (name : string) :
  build toString w op t = (inr form, t') ->
  texts form name
  = named name (fixed_texts op ++ sent_optionals toString op)
  /\ files form name = named name (sent_files w op).
Proof.
  rewrite named_app, named_sent_optionals, named_sent_files.
  unfold named, blob.
  destruct op as [o|o|o|o|o|o|o|o|o|o|o|o|o|o|];
    cbn [build fixed_texts attachments optional_fields flat_map fst snd
         takes wire].
  - unfold Client.generateImage_form.
    destruct (Options.GenerateImage.model o) as [[| | | |]|];
      cbv beta iota zeta; eval_startsWith; cbv beta iota zeta;
      destruct (Js.if_truthy (Options.GenerateImage.image o));
      cbn [takes_image List.map olist app flat_map fst snd];
      build_outcome_keep w;
      destruct (Js.if_truthy (Options.GenerateImage.stylePreset o));
      cbn [orb]; by_name name.
  - unfold Client.eraseObject_form.
    destruct (Js.if_truthy (Options.EraseObject.mask o)) eqn:Hmask;
      cbn [List.map olist app flat_map fst snd];
      build_outcome_keep w; rewrite ?Hmask; build_outcome_keep w;
      by_name name.
  - unfold Client.inpaint_form.
    destruct (Js.if_truthy (Options.Inpaint.mask o)) eqn:Hmask;
      cbn [List.map olist app flat_map fst snd];
      build_outcome_keep w; rewrite ?Hmask; build_outcome_keep w;
      by_name name.
  - unfold Client.outpaint_form; build_outcome_keep w; by_name name.
  - unfold Client.searchAndReplace_form; build_outcome_keep w;
      by_name name.
  - unfold Client.searchAndRecolor_form; build_outcome_keep w;
      by_name name.
  - unfold Client.removeBackground_form; build_outcome_keep w;
      by_name name.
  - unfold Client.replaceBackground_form; build_outcome_keep w;
      by_name name.
  - unfold Client.upscaleImage_form, Client.upscale_mode;
      build_outcome_keep w;
      destruct (Options.UpscaleImage.mode o) as [[| |]|]; by_name name.
  - unfold Client.controlSketch_form; build_outcome_keep w; by_name name.
  - unfold Client.controlSketch_form; build_outcome_keep w; by_name name.
  - unfold Client.controlStyle_form; build_outcome_keep w; by_name name.
  - unfold Client.styleTransfer_form; build_outcome_keep w; by_name name.
  - unfold Client.generate3D_form, Client.threeD_model;
      build_outcome_keep w;
      destruct (Options.Generate3D.model o) as [[|]|]; by_name name.
  - unfold ret. intros [= <- _]. split; reflexivity.
Qed.

(** C4, as the code has it.  The body an operation builds consists of
    exactly these parts: the texts the operation always sends (its
    required texts, the output format, which is png when the caller gives
    none, and the model and the mode for the sd3.5 models), the files it
    attaches, and one text for each optional text or numeric field that its
    variant takes and for which the caller gave a value (a non-empty one,
    for a text), holding that value.  Under every name the body has these
    texts and these files, in this order and as many times, and nothing
    else; so a text part of the body always is one of those always sent or
    a supplied optional field, a file part always is one of the attached
    files, and an optional field has its one part when the variant takes
    it and the caller gave a value that is sent, and no part otherwise: no
    empty text stands for an unset field. *)
Theorem body_parts_exactly (op : Operation num) (t t' : list Event)
  (form : FormData) :
  build toString w op t = (inr form, t') ->
  (forall name,
     texts form name
     = named name (fixed_texts op ++ sent_optionals toString op)
     /\ files form name = named name (sent_files w op))
  /\ (forall name v,
        In (name, Text v) form
        <-> In (name, v) (fixed_texts op)
            \/ In (name, v) (sent_optionals toString op))
  /\ (forall name b,
        In (name, File b) form <-> In (name, b) (sent_files w op))
  /\ (forall name f,
        In (name, f) (optional_fields op) ->
        texts form name
        = olist (if takes op name then wire toString f else None)).
Proof.
  intros Hform. split; [|split; [|split]].
  - intros name. exact (body_by_name op t t' form name Hform).
  - intros name v.
    destruct (body_by_name op t t' form name Hform) as [Htexts _].
    rewrite In_texts, Htexts, In_named. apply in_app_iff.
  - intros name b.
    destruct (body_by_name op t t' form name Hform) as [_ Hfiles].
    rewrite In_files, Hfiles. apply In_named.
  - intros name f Hin.
    exact (proj1 (optional_fields_on_the_wire toString w op t t' form name
                    f Hform Hin)).
Qed.

End BodyExactly.

(** The body of a creative upscale of [in.png] with a prompt and a seed,
    and no output format: the image, the prompt, the seed and the output
    format png, and nothing under another name. *)
Lemma body_parts_exactly_witness :
  exists form,
    Http.run (Dispatch.build Js.Z_toString Examples.w_png
                (Dispatch.UpscaleImage Examples.creative_upscale))
    = (inr form, [])
    /\ Spec.texts form "output_format" = ["png"%string]
    /\ Spec.texts form "prompt" = ["sharper"%string]
    /\ Spec.texts form "seed" = ["7"%string]
    /\ Spec.texts form "creativity" = []
    /\ Spec.texts form "style_preset" = []
    /\ Spec.files form "image"
       = [Http.mkBlob "PNG-BYTES" "image/png"]
    /\ Spec.files form "mask" = [].
Proof.
  eexists. split; [reflexivity|].
  destruct (body_parts_exactly Js.Z_toString Examples.w_png
              (Dispatch.UpscaleImage Examples.creative_upscale) [] [] _
              eq_refl) as [Hname _].
  split; [exact (proj1 (Hname "output_format"%string))|].
  split; [exact (proj1 (Hname "prompt"%string))|].
  split; [exact (proj1 (Hname "seed"%string))|].
  split; [exact (proj1 (Hname "creativity"%string))|].
  split; [exact (proj1 (Hname "style_preset"%string))|].
  split; [exact (proj2 (Hname "image"%string))|].
  exact (proj2 (Hname "mask"%string)).
Defined.

(** ** The properties on the example worlds *)

Section Runs.
Import Http Dispatch.

(** A creative upscale polls the results of its job. *)
Lemma requests_belong_witness :
  Wire.belongs Examples.client (UpscaleImage Examples.creative_upscale)
    (Spec.poll_request Examples.client "abc123").
Proof.
  apply (requests_belong Js.Z_toString (Examples.world_done_after 3)
           Examples.client (UpscaleImage Examples.creative_upscale)).
  vm_compute. right. right. left. reflexivity.
Defined.

(** A job that never finishes costs 61 requests. *)
Lemma poller_bounded_witness :
  (fetches
     (snd (run (Client.postImageAsync Examples.world_pending
                  Examples.client
                  (Config.UPSCALE_ENDPOINTS Config.creative) [])))
   <= 61)%nat.
Proof.
  destruct (poller_bounded Examples.world_pending Examples.client
              (Config.UPSCALE_ENDPOINTS Config.creative) [] eq_refl)
    as [_ [Hfetches _]].
  exact Hfetches.
Defined.

(** With the timeout NaN no job is submitted. *)
Lemma poller_invalid_timeout_witness :
  run (Client.postImageAsync Examples.world_pending Examples.client_nan
         (Config.UPSCALE_ENDPOINTS Config.creative) [])
  = (inl (Js.out_of_range Js.NaN), []).
Proof.
  apply (poller_invalid_timeout Examples.world_pending Examples.client_nan).
  reflexivity.
Defined.

(** A generation with the default model is one request. *)
Lemma first_request_witness :
  exists rest,
    snd (run (perform Js.Z_toString Examples.w_empty Examples.client
                (GenerateImage Examples.core_plain)))
    = Fetch (Wire.request Examples.client
               (GenerateImage Examples.core_plain)
               [("prompt"%string, Text "a lighthouse");
                ("output_format"%string, Text "png")])
        :: rest
    /\ (Wire.is_async (GenerateImage Examples.core_plain) = false ->
        rest = []).
Proof.
  apply (first_request Js.Z_toString Examples.w_empty Examples.client
           (GenerateImage Examples.core_plain)).
  - reflexivity.
  - reflexivity.
Defined.

(** With the timeout NaN a generation fails before its request. *)
Lemma invalid_timeout_surfaces_witness :
  run (perform Js.Z_toString Examples.w_empty Examples.client_nan
         (GenerateImage Examples.core_plain))
  = (inl (Js.out_of_range Js.NaN), []).
Proof.
  apply (invalid_timeout_surfaces Js.Z_toString Examples.w_empty
           Examples.client_nan (GenerateImage Examples.core_plain)
           [("prompt"%string, Text "a lighthouse");
            ("output_format"%string, Text "png")]).
  - reflexivity.
  - reflexivity.
Defined.

(** A request that its deadline aborts fails with the [TimeoutError]. *)
Lemma rejection_surfaces_witness :
  run (perform Js.Z_toString (Examples.world_rejecting Examples.aborted)
         Examples.client (GenerateImage Examples.core_plain))
  = (inl Examples.aborted,
     [Fetch (Wire.request Examples.client
               (GenerateImage Examples.core_plain)
               [("prompt"%string, Text "a lighthouse");
                ("output_format"%string, Text "png")])]).
Proof.
  apply (rejection_surfaces Js.Z_toString
           (Examples.world_rejecting Examples.aborted) Examples.client
           (GenerateImage Examples.core_plain)).
  - reflexivity.
  - reflexivity.
  - reflexivity.
Defined.

(** A 402 answer to the balance check. *)
Lemma error_status_surfaces_witness :
  run (perform Js.Z_toString
         (Examples.world_answering (Examples.failure 402 "no credits") [])
         Examples.client CheckBalance)
  = (inl (Js.new_Error "Failed to check balance (HTTP 402): no credits"),
     [Fetch (Wire.request Examples.client (@CheckBalance Z) [])]).
Proof.
  apply (error_status_surfaces Js.Z_toString
           (Examples.world_answering (Examples.failure 402 "no credits") [])
           Examples.client CheckBalance []
           (Examples.failure 402 "no credits")).
  - reflexivity.
  - reflexivity.
  - reflexivity.
  - reflexivity.
Defined.

(** A generation that the service answers with a PNG image. *)
Lemma success_decoded_witness :
  run (perform Js.Z_toString Examples.w_empty Examples.client
         (GenerateImage Examples.core_plain))
  = (inr (Image (Client.mkImage "OUT" "png" None None)),
     [Fetch (Wire.request Examples.client
               (GenerateImage Examples.core_plain)
               [("prompt"%string, Text "a lighthouse");
                ("output_format"%string, Text "png")])]).
Proof.
  apply (success_decoded Js.Z_toString Examples.w_empty Examples.client
           (GenerateImage Examples.core_plain)
           [("prompt"%string, Text "a lighthouse");
            ("output_format"%string, Text "png")]
           (Examples.image "image/png" "OUT")).
  - reflexivity.
  - reflexivity.
  - reflexivity.
  - reflexivity.
  - reflexivity.
Defined.

(** A job whose third poll is answered with the status 500. *)
Lemma poller_stops_at_failure_witness :
  run (Client.postImageAsync (Examples.world_failing_after 2)
         Examples.client (Config.UPSCALE_ENDPOINTS Config.creative) [])
  = (inl (Js.new_Error "Polling failed (HTTP 500): boom"),
     Fetch (Spec.submit_request Examples.client
              (Config.UPSCALE_ENDPOINTS Config.creative) [])
       :: Spec.rounds (Spec.poll_request Examples.client "abc123") 3).
Proof.
  apply (poller_stops_at_failure (Examples.world_failing_after 2)
           Examples.client eq_refl
           (Config.UPSCALE_ENDPOINTS Config.creative) [] "abc123" 2
           (Examples.submitted "abc123")
           (mkJson (Some "abc123"%string) None)
           (Responded (Examples.failure 500 "boom"))).
  - reflexivity.
  - reflexivity.
  - reflexivity.
  - reflexivity.
  - lia.
  - intros j Hj. exists Examples.pending. split; [|reflexivity].
    destruct j as [|[|j]]; try reflexivity; lia.
  - reflexivity.
  - reflexivity.
Defined.

(** A submission answered with an image, which is no JSON. *)
Lemma poller_needs_identifier_witness :
  run (Client.postImageAsync Examples.w_empty Examples.client
         (Config.UPSCALE_ENDPOINTS Config.creative) [])
  = (inl Examples.not_json,
     [Fetch (Spec.submit_request Examples.client
               (Config.UPSCALE_ENDPOINTS Config.creative) [])]).
Proof.
  apply (poller_needs_identifier Examples.w_empty Examples.client eq_refl
           (Config.UPSCALE_ENDPOINTS Config.creative) []
           (Examples.image "image/png" "OUT")).
  - reflexivity.
  - reflexivity.
  - exact I.
Defined.

(** A generation that succeeds saves its image once. *)
Lemma successful_call_saves_once_witness :
  exists r t,
    run (Examples.call_tool Examples.w_empty
           (Server.generate_image Examples.generate_plain))
    = (inr r, t)
    /\ Tool.saved_once (Server.generate_image Examples.generate_plain) r t.
Proof.
  eexists _, _. split; [reflexivity|].
  apply (successful_call_saves_once Js.Z_toString Examples.toFixed_int
           Examples.w_empty Examples.config Examples.dirname_out
           Examples.noon (Server.generate_image Examples.generate_plain)).
  - reflexivity.
  - reflexivity.
Defined.

(** The mode of a text-to-image request for sd3.5-large. *)
Lemma fixed_texts_on_the_wire_witness :
  exists form,
    run (build Js.Z_toString Examples.w_empty
           (GenerateImage Examples.sd35_text))
    = (inr form, [])
    /\ Spec.texts form "mode" = ["text-to-image"%string]
    /\ Spec.files form "mode" = [].
Proof.
  eexists. split; [reflexivity|].
  apply (fixed_texts_on_the_wire Js.Z_toString Examples.w_empty
           (GenerateImage Examples.sd35_text) [] []).
  - reflexivity.
  - cbn. right. right. right. left. reflexivity.
Defined.

(** The image of an upscale. *)
Lemma file_parts_on_the_wire_witness :
  exists form,
    run (build Js.Z_toString Examples.w_png
           (UpscaleImage Examples.creative_upscale))
    = (inr form, [])
    /\ existsSync Examples.w_png (resolve Examples.w_png "in.png") = true
    /\ exists bytes,
         readFileSync Examples.w_png (resolve Examples.w_png "in.png")
         = inr bytes
         /\ Spec.files form "image"
            = [mkBlob bytes
                 (Client.getMimeType (resolve Examples.w_png "in.png"))]
         /\ Spec.texts form "image" = [].
Proof.
  eexists. split; [reflexivity|].
  apply (file_parts_on_the_wire Js.Z_toString Examples.w_png
           (UpscaleImage Examples.creative_upscale) [] []).
  - reflexivity.
  - left. reflexivity.
Defined.

End Runs.

Section Settings.

(** Without [STABILITY_TIMEOUT] the timeout is 60000 ms. *)
Lemma loadConfig_default_timeout_witness :
  Config.timeout
    (Config.mkConfig "sk-test" (Js.Num 60000) "./generated-images"
       "./generated-3d")
  = Js.Num 60000.
Proof.
  apply (loadConfig_default_timeout (Examples.env None)).
  - reflexivity.
  - reflexivity.
Defined.

(** With [STABILITY_TIMEOUT=30000] the timeout is 30000 ms. *)
Lemma loadConfig_timeout_witness :
  let c := Config.mkConfig "sk-test" (Js.Num 30000) "./generated-images"
             "./generated-3d" in
  Config.timeout c = Js.NaN
  \/ Config.timeout c = Js.Infinity
  \/ exists z, Config.timeout c = Js.Num z /\ 0 < z.
Proof.
  apply (loadConfig_timeout (Examples.env (Some "30000"%string))).
  reflexivity.
Defined.

(** Three times the default timeout is a delay that is accepted. *)
Lemma signal_tripled_witness :
  Js.is_uint32 (Js.mul (Js.Num 60000) (Js.Num 3)) = true.
Proof. apply (signal_tripled 60000). lia. Defined.

End Settings.

(** ** The inpaint tool and the output format *)

Section InpaintFormat.
Import Http Wire Dispatch.

Context {num : Type}.
Variable toString : num -> string.
Variable toFixed : num -> Z -> string.
Variable w : World num.
Variable config : Config.Config.
Variable dirname : string -> string.
Variable now : string.




End InpaintFormat.


(** ** Numbers in decimal: [toString] and [parseInt] *)

Section Decimal.

Lemma digits_step (c : ascii) (d : Z) (rest : string) (acc : option Z) :
  Js.digit_value c = Some d ->
  (d <? 10) = true ->
  Js.digits 10 (String c rest) acc
  = Js.digits 10 rest
      (Some (match acc with Some a => a * 10 + d | None => d end)).
Proof. intros Hc Hd. cbn [Js.digits]. now rewrite Hc, Hd. Qed.

Ltac digits_step :=
  match goal with
  | |- context [Js.digits 10 (String ?c ?rest) ?acc] =>
      let d := eval vm_compute in (Js.digit_value c) in
      match d with
      | Some ?v => rewrite (digits_step c v rest acc eq_refl eq_refl)
      end
  end.

Lemma digits_acc (u : Decimal.uint) (p : positive) :
  Js.digits 10 (NilEmpty.string_of_uint u) (Some (Z.pos p))
  = Some (Z.pos (Pos.of_uint_acc u p)).
Proof.
  revert p.
  induction u as [|u IH|u IH|u IH|u IH|u IH|u IH|u IH|u IH|u IH|u IH];
    intros p; cbn [NilEmpty.string_of_uint Pos.of_uint_acc];
    [reflexivity|..];
    digits_step;
    rewrite <- IH; do 2 f_equal; lia.
Qed.

Lemma digits_zero (u : Decimal.uint) :
  Js.digits 10 (NilEmpty.string_of_uint u) (Some 0)
  = Some (Z.of_N (Pos.of_uint u)).
Proof.
  induction u as [|u IH|u IH|u IH|u IH|u IH|u IH|u IH|u IH|u IH|u IH];
    cbn [NilEmpty.string_of_uint Pos.of_uint];
    [reflexivity|..];
    digits_step;
    [exact IH | cbn [Z.mul Z.add Z.of_N]; apply digits_acc ..].
Qed.

(** The digits of a decimal numeral are read back as its value. *)
Lemma digits_numeral (u : Decimal.uint) :
  u <> Decimal.Nil ->
  Js.digits 10 (NilEmpty.string_of_uint u) None
  = Some (Z.of_N (Pos.of_uint u)).
Proof.
  intros Hu.
  destruct u as [|u|u|u|u|u|u|u|u|u|u]; [contradiction|..];
    cbn [NilEmpty.string_of_uint Pos.of_uint];
    digits_step;
    [apply digits_zero | cbn [Z.of_N]; apply digits_acc ..].
Qed.

Lemma parse_numeral (u : Decimal.uint) (negative : bool) :
  u <> Decimal.Nil ->
  let s := ((if negative then "-" else "")
              ++ NilEmpty.string_of_uint u)%string in
  let v := Z.of_N (Pos.of_uint u) in
  Js.parseInt s 10 = Js.round_double (if negative then - v else v)
  /\ Js.parseInt s 0 = Js.round_double (if negative then - v else v).
Proof.
  intros Hu s v. subst s.
  pose proof (digits_numeral u Hu) as Hd. fold v in Hd. clearbody v.
  destruct u as [|u1|u1|u1|u1|u1|u1|u1|u1|u1|u1]; [contradiction|..];
    (destruct u1 as [|u2|u2|u2|u2|u2|u2|u2|u2|u2|u2]);
    cbn [NilEmpty.string_of_uint] in *;
    try (revert Hd; generalize (NilEmpty.string_of_uint u2) as rest;
         intros rest Hd);
    destruct negative; unfold Js.parseInt;
    cbn -[Js.digits Js.round_double Js.is_space];
    repeat match goal with
           | |- context [Js.is_space ?c] =>
               let b := eval vm_compute in (Js.is_space c) in
               change (Js.is_space c) with b
           end;
    cbn -[Js.digits Js.round_double]; rewrite Hd; split; reflexivity.
Qed.

(** The decimal form of an integer is parsed to the double nearest to
    it, with the radix 10 and with no radix. *)
Lemma parseInt_decimal (z : Z) :
  Js.parseInt (Js.Z_toString z) 10 = Js.round_double z
  /\ Js.parseInt (Js.Z_toString z) 0 = Js.round_double z.
Proof.
  destruct z as [|p|p].
  - split; reflexivity.
  - pose proof (parse_numeral (Pos.to_uint p) false
                  (DecimalPos.Unsigned.to_uint_nonnil p)) as H.
    cbv zeta in H. rewrite DecimalPos.Unsigned.of_to in H.
    unfold Js.Z_toString. cbn [Z.to_int NilZero.string_of_int].
    unfold NilZero.string_of_uint.
    destruct (Pos.to_uint p) eqn:Hu;
      [now elim (DecimalPos.Unsigned.to_uint_nonnil p)|exact H ..].
  - pose proof (parse_numeral (Pos.to_uint p) true
                  (DecimalPos.Unsigned.to_uint_nonnil p)) as H.
    cbv zeta in H. rewrite DecimalPos.Unsigned.of_to in H.
    unfold Js.Z_toString. cbn [Z.to_int NilZero.string_of_int].
    unfold NilZero.string_of_uint.
    destruct (Pos.to_uint p) eqn:Hu;
      [now elim (DecimalPos.Unsigned.to_uint_nonnil p)|exact H ..].
Qed.

(** Round trip: the decimal form of an integer that a double holds
    exactly (below 2^53 in absolute value) is parsed back to it, with the
    radix 10 and with no radix. *)
Theorem parseInt_toString (z : Z) :
  Z.abs z < 2 ^ 53 ->
  Js.parseInt (Js.Z_toString z) 10 = Js.Num z
  /\ Js.parseInt (Js.Z_toString z) 0 = Js.Num z.
Proof.
  intros Hz. rewrite <- (round_double_small z Hz).
  apply parseInt_decimal.
Qed.

Lemma parseInt_toString_witness :
  Js.parseInt (Js.Z_toString 60000) 10 = Js.Num 60000
  /\ Js.parseInt (Js.Z_toString 60000) 0 = Js.Num 60000.
Proof. apply (parseInt_toString 60000). reflexivity. Defined.

(** Past 2^53 the round trip is lost: the numeral of 2^53 + 1 is parsed
    to 2^53. *)
Example parseInt_rounds :
  Js.parseInt "9007199254740993" 10 = Js.Num 9007199254740992.
Proof. reflexivity. Qed.

End Decimal.

(** ** Extensions *)

Section Extensions.
Import Js.

Lemma list_of_append (a b : string) :
  list_ascii_of_string (a ++ b) = list_ascii_of_string a ++ list_ascii_of_string b.
Proof. induction a as [|c a IH]; cbn; [reflexivity | now rewrite IH]. Qed.

Lemma length_list_of (s : string) :
  length (list_ascii_of_string s) = String.length s.
Proof. induction s as [|c s IH]; cbn; [reflexivity | now rewrite IH]. Qed.

Lemma substring_skip (a s : string) (m : nat) :
  substring (String.length a) m (a ++ s) = substring 0 m s.
Proof. induction a as [|c a IH]; cbn; [reflexivity | exact IH]. Qed.

Lemma substring_all (s : string) : substring 0 (String.length s) s = s.
Proof. induction s as [|c s IH]; cbn; [reflexivity | now rewrite IH]. Qed.

Lemma string_append_assoc (a b c : string) :
  ((a ++ b) ++ c = a ++ b ++ c)%string.
Proof. induction a as [|x a IH]; cbn; [reflexivity | now rewrite IH]. Qed.

Lemma length_append (a b : string) :
  String.length (a ++ b) = (String.length a + String.length b)%nat.
Proof. induction a as [|c a IH]; cbn; [reflexivity | now rewrite IH]. Qed.

(** The characters of the extension, read from the end: the first one
    marks the end, the others change nothing. *)
Lemma loop_extension (l rest : list ascii) (i e : Z) :
  Forall (fun x => x <> "/"%char) l ->
  Forall (fun x => x <> "."%char) l ->
  e <> -1 ->
  extname_loop (l ++ rest) i (mkExt (-1) 0 e false 0)
  = extname_loop rest (i - Z.of_nat (length l)) (mkExt (-1) 0 e false 0).
Proof.
  intros Hslash Hdot He. revert i.
  induction l as [|c l IH]; intros i.
  - cbn. f_equal. lia.
  - inversion Hslash as [|? ? Hc Hl]; subst.
    inversion Hdot as [|? ? Hc' Hl']; subst.
    cbn [app extname_loop]. unfold extname_step.
    apply Ascii.eqb_neq in Hc, Hc'. rewrite Hc, Hc'.
    cbn [end_ startDot startPart matchedSlash preDotState negb].
    apply Z.eqb_neq in He. rewrite He.
    cbn [end_ startDot startPart matchedSlash preDotState negb Z.eqb Pos.eqb].
    rewrite (IH Hl Hl'). f_equal. cbn [length]. lia.
Qed.

(** The characters of the base name, read from the end after the dot:
    they leave the dot and the end where they are, and the state before
    the dot is no longer the initial one. *)
Lemma loop_base (l rest : list ascii) (i sd e pd : Z) :
  Forall (fun x => x <> "/"%char) l ->
  sd <> -1 -> e <> -1 ->
  exists pd',
    (l <> [] -> pd' = 1 \/ pd' = -1)
    /\ (l = [] -> pd' = pd)
    /\ extname_loop (l ++ rest) i (mkExt sd 0 e false pd)
       = extname_loop rest (i - Z.of_nat (length l)) (mkExt sd 0 e false pd').
Proof.
  intros Hslash Hsd He. revert i pd.
  induction l as [|c l IH]; intros i pd.
  - exists pd. repeat split; [congruence|]. cbn. f_equal. lia.
  - inversion Hslash as [|? ? Hc Hl]; subst.
    apply Ascii.eqb_neq in Hc.
    assert (Hstep : exists pd1,
               (pd1 = 1 \/ pd1 = -1)
               /\ extname_step (mkExt sd 0 e false pd) i c
                  = Some (mkExt sd 0 e false pd1)).
    { unfold extname_step. rewrite Hc.
      cbn [end_ startDot startPart matchedSlash preDotState].
      apply Z.eqb_neq in He, Hsd. rewrite He.
      cbv zeta. cbn [end_ startDot startPart matchedSlash preDotState].
      rewrite Hsd. cbn [negb].
      destruct (Ascii.eqb c ".");
        [|exists (-1); split; [now right|reflexivity]].
      destruct (Z.eqb_spec pd 1) as [->|Hpd]; cbn [negb];
        exists 1; split; try (now left); reflexivity. }
    destruct Hstep as [pd1 [Hpd1 Hstep]].
    destruct (IH Hl (i - 1) pd1) as [pd' [Hne [Hnil Hloop]]].
    exists pd'. split; [|split; [discriminate|]].
    + intros _. destruct l as [|c' l'].
      * rewrite (Hnil eq_refl). exact Hpd1.
      * apply Hne. discriminate.
    + cbn [app extname_loop]. rewrite Hstep, Hloop. f_equal.
      cbn [length]. lia.
Qed.

(** The state of the scan at its end: the dot and the end of the
    extension are found, and something stands before the dot. *)
Lemma extname_state (dir base ext : string) :
  Paths.directory dir ->
  base <> "" ->
  Paths.free_of "/" base ->
  ext <> "" ->
  Paths.free_of "/" ext ->
  Paths.free_of "." ext ->
  let p := (dir ++ base ++ "." ++ ext)%string in
  let n := Z.of_nat (String.length p) in
  let k := Z.of_nat (String.length dir + String.length base) in
  exists sp pd,
    (pd = 1 \/ pd = -1)
    /\ extname_loop (rev (list_ascii_of_string p)) (n - 1)
         (mkExt (-1) 0 (-1) true 0)
       = mkExt k sp n false pd.
Proof.
  intros Hdir Hbase Hbs Hext Hes Hed p n k.
  assert (Hn : n = k + 1 + Z.of_nat (String.length ext)).
  { subst n k p. rewrite !length_append. cbn [String.length]. lia. }
  assert (Hlen : (0 < String.length ext)%nat)
    by (destruct ext; [congruence | cbn; lia]).
  assert (Hrev : rev (list_ascii_of_string p)
                 = rev (list_ascii_of_string ext)
                     ++ "."%char :: rev (list_ascii_of_string base)
                     ++ rev (list_ascii_of_string dir)).
  { subst p. rewrite !list_of_append. cbn [list_ascii_of_string].
    rewrite !rev_app_distr. cbn [rev app]. rewrite <- !app_assoc.
    reflexivity. }
  rewrite Hrev.
  (* the extension *)
  destruct (rev (list_ascii_of_string ext)) as [|c l] eqn:Hl.
  { apply (f_equal (@length ascii)) in Hl.
    rewrite length_rev, length_list_of in Hl. cbn in Hl. lia. }
  assert (Hcl_slash : Forall (fun x => x <> "/"%char) (c :: l))
    by (rewrite <- Hl; apply Forall_rev, Hes).
  assert (Hcl_dot : Forall (fun x => x <> "."%char) (c :: l))
    by (rewrite <- Hl; apply Forall_rev, Hed).
  assert (Hcl_len : Z.of_nat (length (c :: l)) = Z.of_nat (String.length ext))
    by (rewrite <- Hl, length_rev, length_list_of; reflexivity).
  inversion Hcl_slash as [|? ? Hc Hls]; subst.
  inversion Hcl_dot as [|? ? Hc' Hld]; subst.
  cbn [app extname_loop]. unfold extname_step at 1.
  apply Ascii.eqb_neq in Hc, Hc'. rewrite Hc, Hc'.
  cbn [end_ startDot startPart matchedSlash preDotState negb Z.eqb Pos.eqb].
  replace (n - 1 + 1) with n by lia.
  rewrite loop_extension; [|exact Hls|exact Hld|lia].
  (* the dot *)
  cbn [extname_loop]. unfold extname_step at 1.
  cbn [Ascii.eqb Bool.eqb andb].
  cbn [end_ startDot startPart matchedSlash preDotState negb].
  assert (Hne : (n =? -1) = false) by (apply Z.eqb_neq; lia).
  rewrite Hne.
  cbn [end_ startDot startPart matchedSlash preDotState negb Z.eqb Pos.eqb].
  replace (n - 1 - 1 - Z.of_nat (length l)) with k
    by (cbn [length] in Hcl_len; lia).
  (* the base name *)
  destruct (loop_base (rev (list_ascii_of_string base))
              (rev (list_ascii_of_string dir)) (k - 1) k n 0)
    as [pd [Hpd [_ Hloop]]]; [apply Forall_rev, Hbs| lia | lia |].
  rewrite Hloop. clear Hloop.
  assert (Hpd' : pd = 1 \/ pd = -1).
  { apply Hpd. intros Hnil. apply (f_equal (@length ascii)) in Hnil.
    rewrite length_rev, length_list_of in Hnil.
    destruct base; [congruence | discriminate]. }
  (* the directory *)
  destruct Hdir as [->|[d ->]].
  - exists 0, pd. split; [exact Hpd'|]. reflexivity.
  - rewrite list_of_append, rev_app_distr.
    cbn [list_ascii_of_string rev app].
    cbn [extname_loop]. unfold extname_step.
    cbn [Ascii.eqb Bool.eqb andb matchedSlash negb].
    eexists _, pd. split; [exact Hpd'|]. reflexivity.
Qed.

(** The extension of a file name: for a path made of a directory part,
    a base name and an extension after the last dot, [extname] is the dot
    with the extension. *)
Theorem extname_of_file (dir base ext : string) :
  Paths.directory dir ->
  base <> "" ->
  Paths.free_of "/" base ->
  ext <> "" ->
  Paths.free_of "/" ext ->
  Paths.free_of "." ext ->
  extname (dir ++ base ++ "." ++ ext) = ("." ++ ext)%string.
Proof.
  intros Hdir Hbase Hbs Hext Hes Hed.
  destruct (extname_state dir base ext Hdir Hbase Hbs Hext Hes Hed)
    as [sp [pd [Hpd Hstate]]].
  cbv zeta in Hstate. unfold extname. cbv zeta. rewrite Hstate.
  cbn [end_ startDot startPart matchedSlash preDotState].
  set (p := (dir ++ base ++ "." ++ ext)%string).
  set (n := Z.of_nat (String.length p)).
  set (k := Z.of_nat (String.length dir + String.length base)).
  assert (Hn : n = k + 1 + Z.of_nat (String.length ext)).
  { subst n k p. rewrite !length_append. cbn [String.length]. lia. }
  assert (Hlen : (0 < String.length ext)%nat)
    by (destruct ext; [congruence | cbn; lia]).
  assert (Hk : (k =? -1) = false) by (apply Z.eqb_neq; lia).
  assert (Hne : (n =? -1) = false) by (apply Z.eqb_neq; lia).
  assert (Hend : (k =? n - 1) = false) by (apply Z.eqb_neq; lia).
  assert (Hpd0 : (pd =? 0) = false)
    by (apply Z.eqb_neq; destruct Hpd; lia).
  rewrite Hk, Hne, Hend, Hpd0. rewrite andb_false_r. cbn [orb andb].
  replace (Z.to_nat k) with (String.length (dir ++ base))
    by (subst k; rewrite length_append; lia).
  replace (Z.to_nat (n - k)) with (String.length ("." ++ ext))
    by (cbn [String.length append]; lia).
  subst p.
  replace (dir ++ base ++ "." ++ ext)%string
    with ((dir ++ base) ++ "." ++ ext)%string.
  - rewrite substring_skip. apply substring_all.
  - apply string_append_assoc.
Qed.

Lemma extname_of_file_witness :
  extname "/work/photos/Cat.JPEG" = ".JPEG"%string.
Proof.
  apply (extname_of_file "/work/photos/" "Cat" "JPEG").
  - right. now exists "/work/photos"%string.
  - discriminate.
  - repeat constructor; discriminate.
  - discriminate.
  - repeat constructor; discriminate.
  - repeat constructor; discriminate.
Defined.

End Extensions.

(** ** The request handler: errors and file names *)

Section HandlerErrors.
Import Http.

Context {num : Type}.
Variable toString : num -> string.
Variable toFixed : num -> Z -> string.
Variable w : World num.
Variable dirname : string -> string.
Variable now : string.


(** With a timeout that did not parse, which [loadConfig] lets through,
    the balance check fails before its request: the result is the error of
    [AbortSignal.timeout], and nothing is sent. *)
Theorem unparsable_timeout_fails_balance
  (key outputDir output3dDir : string) :
  run (Server.call_tool toString toFixed w
         (Config.mkConfig key Js.NaN outputDir output3dDir) dirname now
         Server.check_balance)
  = (inr (Rejection.error_result
            ("Stability AI error: "
               ++ Js.message (Js.out_of_range Js.NaN))%string),
     []).
Proof. reflexivity. Qed.

(** The time stamp of an automatic file name has no colon and no dot,
    and is as long as the time it is made of. *)
Theorem timestamp_is_clean (s : string) :
  Paths.free_of ":" (Server.replace_colon_dot s)
  /\ Paths.free_of "." (Server.replace_colon_dot s)
  /\ String.length (Server.replace_colon_dot s) = String.length s.
Proof.
  unfold Paths.free_of.
  induction s as [|c s [IHcolon [IHdot IHlen]]];
    cbn [Server.replace_colon_dot list_ascii_of_string String.length].
  - repeat split; constructor.
  - split; [|split].
    + constructor; [|exact IHcolon].
      destruct (Ascii.eqb_spec c ":") as [->|Hne]; cbn [orb];
        [discriminate|].
      destruct (Ascii.eqb c "."); [discriminate | exact Hne].
    + constructor; [|exact IHdot].
      destruct (Ascii.eqb_spec c ".") as [->|Hne].
      * rewrite orb_true_r. discriminate.
      * rewrite orb_false_r.
        destruct (Ascii.eqb c ":"); [discriminate | exact Hne].
    + now rewrite IHlen.
Qed.

End HandlerErrors.

(** An erase whose mask is missing is answered with the error of the
    builder, which names the resolved path of the mask. *)
Lemma erase_object_missing_mask_witness :
  Http.run (Examples.call_tool Examples.w_png
              (Server.erase_object Examples.erase_unmasked))
  = (inr (Rejection.error_result
            "Stability AI error: File not found: /work/mask.png"),
     []).
Proof.
  apply (erase_object_missing_mask Js.Z_toString Examples.toFixed_int
           Examples.w_png Examples.config Examples.dirname_out
           Examples.noon Examples.erase_unmasked "mask.png" "PNG-BYTES" []).
  - reflexivity.
  - reflexivity.
  - reflexivity.
  - reflexivity.
Defined.
